(** * Womersley pipe flow: error accounting, analytic profile and mesh marking

    Shallow embedding of
      - problems/general_problem.py   (class GeneralProblem),
      - problems/womersley_cylinder.py (class Problem, the Womersley subclass),
      - womersleyBC.py                (the symbolic profile [u] and WomersleyProfile),
      - prepare_real_mesh.py          (boundary-facet classification script).

    Python floats are idealised as real numbers ([R]); Python ints are [Z];
    list indices are [nat].  Python exceptions are explicit outcomes, and the
    attributes of the problem object are threaded as state, so an exception
    leaves the mutations made before it in place, as in Python.  The finite
    element library (dolfin/ufl) is an external collaborator: its integrals
    and norms enter through the interface record [dolfin]. *)

From Stdlib Require Import Reals Lra Lia ZArith List String.
From stdpp Require Import gmap strings list fin_maps.

Open Scope string_scope.
Open Scope list_scope.
Open Scope R_scope.

(** ** Python values and exceptions *)

Inductive exn : Type :=
| ZeroDivisionError
| IndexError
| KeyError (key : string)
| TypeError
| ValueError
| RuntimeError (msg : string).

Inductive outcome (A : Type) : Type :=
| Ret (a : A)
| Raise (e : exn).
Arguments Ret {A} a.
Arguments Raise {A} e.

#[export] Instance outcome_ret : MRet outcome := @Ret.
#[export] Instance outcome_bind : MBind outcome :=
  fun A B k c => match c with Ret a => k a | Raise e => Raise e end.

(** [a / b] on floats. *)
Definition py_div (a b : R) : outcome R :=
  if Req_dec_T b 0 then Raise ZeroDivisionError else Ret (a / b).

(** [math.sqrt]: a negative argument is a domain error. *)
Definition py_sqrt (x : R) : outcome R :=
  if Rlt_dec x 0 then Raise ValueError else Ret (sqrt x).

(** [int(round(x))] in Python 2: halves are rounded away from zero. *)
Definition py_round (x : R) : Z :=
  if Rle_dec 0 x then Zfloor (x + / 2) else Zceil (x - / 2).

Definition Rgtb (x y : R) : bool := if Rgt_dec x y then true else false.
Definition Rltb (x y : R) : bool := if Rlt_dec x y then true else false.

(** Use of an attribute as a value: [None] is a type error. *)
Definition unwrap {A} (o : option A) : outcome A :=
  match o with Some a => Ret a | None => Raise TypeError end.

(** Truth value of an attribute that may still be [None]. *)
Definition truthy (o : option bool) : bool :=
  match o with Some b => b | None => false end.

(** [l[i]] for [i >= 0]. *)
Definition py_getitem {A} (l : list A) (i : nat) : outcome A :=
  match l !! i with Some a => Ret a | None => Raise IndexError end.

(** One bound of a slice [l[lo:hi]]: negative bounds count from the end,
    all bounds are clipped to the list. *)
Definition slice_bound (len dflt : nat) (b : option Z) : nat :=
  match b with
  | None => dflt
  | Some i =>
      if (i <? 0)%Z then Z.to_nat (Z.max 0 (Z.of_nat len + i))
      else Nat.min (Z.to_nat i) len
  end.

Definition py_slice {A} (l : list A) (lo hi : option Z) : list A :=
  let a := slice_bound (length l) 0%nat lo in
  let b := slice_bound (length l) (length l) hi in
  take (b - a) (drop a l).

(** [sum(xs)]: accumulates from 0, left to right. *)
Definition py_sum (xs : list R) : R := fold_left Rplus xs 0.

(** [sum([i*i for i in xs])] *)
Definition sum_sq (xs : list R) : R := py_sum (map (fun i => i * i) xs).

(** [for x in xs: f x], collecting the results; stops at the first exception. *)
Fixpoint mapO {A B} (f : A -> outcome B) (xs : list A) : outcome (list B) :=
  match xs with
  | [] => Ret []
  | x :: xs' => b ← f x; bs ← mapO f xs'; Ret (b :: bs)
  end.

(** ** Discrete fields *)

(** The coefficient vector of a dolfin [Function]. *)
Abbreviation array := (list R).

(** [v[idx]] with an index array. *)
Definition getitems (v : array) (idx : list nat) : outcome array :=
  mapO (py_getitem v) idx.

(** [v[idx] = vals] *)
Fixpoint setitems (v : array) (idx : list nat) (vals : array) : outcome array :=
  match idx, vals with
  | [], [] => Ret v
  | i :: idx', x :: vals' =>
      if decide (i < length v)%nat then setitems (<[i := x]> v) idx' vals'
      else Raise IndexError
  | _, _ => Raise ValueError
  end.

(** [v[idx] += arr], that is [v[idx] = v[idx] + arr]. *)
Definition iadd_at (v : array) (idx : list nat) (arr : array) : outcome array :=
  cur ← getitems v idx;
  if decide (length cur = length arr) then setitems v idx (zip_with Rplus cur arr)
  else Raise ValueError.

(** [c * arr] for a float [c] and an array. *)
Definition scal (c : R) (arr : array) : array := map (fun x => c * x) arr.

(** The part of dolfin the error accounting calls: norms and assembled
    integrals of discrete fields. *)
Record dolfin : Type := {
  norm_L2 : array -> R;                 (* norm(f, norm_type='L2') *)
  norm_H1 : array -> R;                 (* norm(f, norm_type='H1') *)
  norm_Hdiv0 : array -> R;              (* norm(f, 'Hdiv0') *)
  assemble_L2_sq : array -> array -> R;   (* assemble(inner(v - s, v - s) * dx) *)
  assemble_H1semi_sq : array -> array -> R;
                                      (* assemble(inner(grad(v - s), grad(v - s)) * dx) *)
  assemble_H1wall_sq : array -> array -> R;
              (* assemble((inner(grad(v - s), grad(v - s)) + inner(v - s, v - s)) * dsWall) *)
  assemble_wall_sq : array -> R;
              (* assemble((inner(grad(s), grad(s)) + inner(s, s)) * dsWall) *)
  errornorm_L2 : array -> array -> R;     (* errornorm(v, s, norm_type='L2', degree_rise=0) *)
  errornorm_H1 : array -> array -> R      (* errornorm(v, s, norm_type='H1', degree_rise=0) *)
}.

(** The part of dolfin that [compute_force] calls: the six integrals over
    the wall of the computed pressure and velocity against the analytic
    pressure and velocity, in the order of the source.  The stress
    [T(p, v) = -p*I + 2*nu*sym(grad(v))] uses the viscosity of the problem,
    which is fixed when the problem is built. *)
Record wall_forces : Type := {
  (* assemble(inner((T(p, v) - T(sp, s))*n, (T(p, v) - T(sp, s))*n) * dsWall) *)
  error_force_sq : array -> array -> array -> array -> R;
  (* assemble(inner(T(sp, s)*n, T(sp, s)*n) * dsWall) *)
  an_force_sq : array -> array -> R;
  (* assemble(inner(inner(T(sp, s)*n, n), inner(T(sp, s)*n, n)) * dsWall) *)
  an_f_normal_sq : array -> array -> R;
  (* assemble(inner(inner((T(sp, s) - T(p, v))*n, n), inner((T(sp, s) - T(p, v))*n, n)) * dsWall) *)
  error_f_normal_sq : array -> array -> array -> array -> R;
  (* assemble(inner((I - outer(n, n))*T(sp, s)*n, (I - outer(n, n))*T(sp, s)*n) * dsWall) *)
  an_f_shear_sq : array -> array -> R;
  (* assemble(inner((I - outer(n, n))*(T(sp, s) - T(p, v))*n, ...) * dsWall) *)
  error_f_shear_sq : array -> array -> array -> array -> R
}.

(** ** The functional registry [listDict] *)

(** The shared coefficient lists: a dictionary entry holds a reference to one
    of these attributes of the problem, not a copy. *)
Inductive coef_ref : Type :=
| scale_factor
| pg_normalization_factor
| p_normalization_factor
| vel_normalization_factor.

(** One entry of [listDict]; optional keys are [option]s.  [list_] is the
    entry's ['list']. *)
Record functional : Type := {
  list_ : list R;
  name : string;
  abrev : string;
  scale : option coef_ref;
  slist : option (list R);
  norm : option coef_ref;
  relative : option string;
  relative_list : option (list R);
  normalized_list_sec : option (list R);
  relative_list_sec : option (list R)
}.

Definition entry (nm ab : string) (sc : option coef_ref) (rel : option string)
    (sl : bool) (nr : option coef_ref) : functional :=
  {| list_ := []; name := nm; abrev := ab; scale := sc;
     slist := if sl then Some [] else None; norm := nr; relative := rel;
     relative_list := None; normalized_list_sec := None; relative_list_sec := None |}.

Definition set_list (v : list R) (l : functional) : functional :=
  {| list_ := v; name := name l; abrev := abrev l; scale := scale l;
     slist := slist l; norm := norm l; relative := relative l;
     relative_list := relative_list l; normalized_list_sec := normalized_list_sec l;
     relative_list_sec := relative_list_sec l |}.

Definition set_slist (v : list R) (l : functional) : functional :=
  {| list_ := list_ l; name := name l; abrev := abrev l; scale := scale l;
     slist := Some v; norm := norm l; relative := relative l;
     relative_list := relative_list l; normalized_list_sec := normalized_list_sec l;
     relative_list_sec := relative_list_sec l |}.

Definition set_relative_list (v : list R) (l : functional) : functional :=
  {| list_ := list_ l; name := name l; abrev := abrev l; scale := scale l;
     slist := slist l; norm := norm l; relative := relative l;
     relative_list := Some v; normalized_list_sec := normalized_list_sec l;
     relative_list_sec := relative_list_sec l |}.

Definition set_normalized_list_sec (v : list R) (l : functional) : functional :=
  {| list_ := list_ l; name := name l; abrev := abrev l; scale := scale l;
     slist := slist l; norm := norm l; relative := relative l;
     relative_list := relative_list l; normalized_list_sec := Some v;
     relative_list_sec := relative_list_sec l |}.

Definition set_relative_list_sec (v : list R) (l : functional) : functional :=
  {| list_ := list_ l; name := name l; abrev := abrev l; scale := scale l;
     slist := slist l; norm := norm l; relative := relative l;
     relative_list := relative_list l; normalized_list_sec := normalized_list_sec l;
     relative_list_sec := Some v |}.

(** ** The problem object *)

(** Parsed arguments and metadata: fixed once [__init__] has run. *)
Record settings : Type := {
  MPI_rank : nat;
  has_analytic_solution : bool;
  doErrControl : bool;
  testErrControl : bool;
  onset : R;                     (* args.onset *)
  doSave : bool;
  save_nth : Z;                  (* args.savespace *)
  factor : R;                    (* args.factor *)
  md_name : string;              (* metadata['name'] *)
  md_dt : R;                     (* metadata['dt'] *)
  md_time : R;                   (* metadata['time'] *)
  md_dt_ms : Z;                  (* metadata['dt_ms'] *)
  status_functional_str : string;
  str_dir_name : string          (* "%s_%s_results" % (problem_code, metadata['name']) *)
}.

(** The precomputed partial solution and the layout of the solution space:
    [dofs2] is [solutionSpace.sub(2).dofmap().dofs()], [space_dim] the
    length of a coefficient vector of [solutionSpace]. *)
Record precomputed : Type := {
  space_dim : nat;
  dofs2 : list nat;
  bessel_parabolic : option array;
  bessel_real : list array;
  bessel_complex : list array;
  coefs_exp : list Z
}.

(** Time keeping attributes. *)
Record clock : Type := {
  stepsInSecond : option Z;
  actual_time : option R;
  step_number : Z;
  time_list : list R;
  second_list : list Z;
  onset_factor : R;
  save_this_step : bool;
  isWholeSecond : option bool;
  N0 : option Z;
  N1 : option Z
}.

(** Attributes of the velocity error control. *)
Record error_control : Type := {
  solution : option array;
  v_in : option array;
  analytic_v_norm_L2 : option R;
  analytic_v_norm_H1 : option R;
  analytic_v_norm_H1w : option R;
  divergence_treshold : R;
  last_error : option R;
  last_status_functional : R
}.

(** What a file written by the problem holds. *)
Inductive cell : Type :=
| Str (s : string)
| Num (x : R)
| Int (z : Z)
| ScaleNote (l : list R).        (* 'scale factor:' + str(l['scale']) *)

Inductive file : Type :=
| Empty
| Status (t : R) (dt_ms : Z) (percent : R) (what : string) (value : R)
| Csv (rows : list (list cell)).

Record problem : Type := {
  args : settings;
  basis : precomputed;
  clk : clock;
  ec : error_control;
  listDict : gmap string functional;
  shared : coef_ref -> list R;
  files : gmap string file
}.

Definition set_clk (c : clock) (p : problem) : problem :=
  {| args := args p; basis := basis p; clk := c; ec := ec p;
     listDict := listDict p; shared := shared p; files := files p |}.

Definition set_ec (e : error_control) (p : problem) : problem :=
  {| args := args p; basis := basis p; clk := clk p; ec := e;
     listDict := listDict p; shared := shared p; files := files p |}.

Definition set_listDict (d : gmap string functional) (p : problem) : problem :=
  {| args := args p; basis := basis p; clk := clk p; ec := ec p;
     listDict := d; shared := shared p; files := files p |}.

Definition set_files (f : gmap string file) (p : problem) : problem :=
  {| args := args p; basis := basis p; clk := clk p; ec := ec p;
     listDict := listDict p; shared := shared p; files := f |}.

Definition set_basis (b : precomputed) (p : problem) : problem :=
  {| args := args p; basis := b; clk := clk p; ec := ec p;
     listDict := listDict p; shared := shared p; files := files p |}.

(** Assignments to the time keeping and error control attributes. *)
Definition on_clk (f : clock -> clock) (p : problem) : problem := set_clk (f (clk p)) p.

Definition on_ec (f : error_control -> error_control) (p : problem) : problem :=
  set_ec (f (ec p)) p.

(** [self.actual_time = t; self.step_number = n; self.time_list.append(t);
    self.onset_factor = o] *)
Definition tick (t : R) (n : Z) (o : R) (c : clock) : clock :=
  {| stepsInSecond := stepsInSecond c; actual_time := Some t; step_number := n;
     time_list := time_list c ++ [t]; second_list := second_list c; onset_factor := o;
     save_this_step := save_this_step c; isWholeSecond := isWholeSecond c;
     N0 := N0 c; N1 := N1 c |}.

Definition set_save_this_step (b : bool) (c : clock) : clock :=
  {| stepsInSecond := stepsInSecond c; actual_time := actual_time c;
     step_number := step_number c; time_list := time_list c;
     second_list := second_list c; onset_factor := onset_factor c;
     save_this_step := b; isWholeSecond := isWholeSecond c; N0 := N0 c; N1 := N1 c |}.

Definition set_isWholeSecond (b : bool) (c : clock) : clock :=
  {| stepsInSecond := stepsInSecond c; actual_time := actual_time c;
     step_number := step_number c; time_list := time_list c;
     second_list := second_list c; onset_factor := onset_factor c;
     save_this_step := save_this_step c; isWholeSecond := Some b;
     N0 := N0 c; N1 := N1 c |}.

(** [self.second_list.append(seconds)] *)
Definition second_list_append (seconds : Z) (c : clock) : clock :=
  {| stepsInSecond := stepsInSecond c; actual_time := actual_time c;
     step_number := step_number c; time_list := time_list c;
     second_list := second_list c ++ [seconds]; onset_factor := onset_factor c;
     save_this_step := save_this_step c; isWholeSecond := isWholeSecond c;
     N0 := N0 c; N1 := N1 c |}.

Definition set_N1 (n : Z) (c : clock) : clock :=
  {| stepsInSecond := stepsInSecond c; actual_time := actual_time c;
     step_number := step_number c; time_list := time_list c;
     second_list := second_list c; onset_factor := onset_factor c;
     save_this_step := save_this_step c; isWholeSecond := isWholeSecond c;
     N0 := N0 c; N1 := Some n |}.

Definition set_N0 (n : Z) (c : clock) : clock :=
  {| stepsInSecond := stepsInSecond c; actual_time := actual_time c;
     step_number := step_number c; time_list := time_list c;
     second_list := second_list c; onset_factor := onset_factor c;
     save_this_step := save_this_step c; isWholeSecond := isWholeSecond c;
     N0 := Some n; N1 := N1 c |}.

Definition set_stepsInSecond (s : Z) (c : clock) : clock :=
  {| stepsInSecond := Some s; actual_time := actual_time c; step_number := step_number c;
     time_list := time_list c; second_list := second_list c; onset_factor := onset_factor c;
     save_this_step := save_this_step c; isWholeSecond := isWholeSecond c;
     N0 := N0 c; N1 := N1 c |}.

Definition on_basis (f : precomputed -> precomputed) (p : problem) : problem :=
  set_basis (f (basis p)) p.

(** Assignments to the precomputed partial solution. *)
Definition set_space (n : nat) (dofs : list nat) (b : precomputed) : precomputed :=
  {| space_dim := n; dofs2 := dofs; bessel_parabolic := bessel_parabolic b;
     bessel_real := bessel_real b; bessel_complex := bessel_complex b;
     coefs_exp := coefs_exp b |}.

Definition set_bessel_parabolic (f : array) (b : precomputed) : precomputed :=
  {| space_dim := space_dim b; dofs2 := dofs2 b; bessel_parabolic := Some f;
     bessel_real := bessel_real b; bessel_complex := bessel_complex b;
     coefs_exp := coefs_exp b |}.

(** [self.bessel_real.append(f)] and [self.bessel_complex.append(f)] *)
Definition bessel_real_append (f : array) (b : precomputed) : precomputed :=
  {| space_dim := space_dim b; dofs2 := dofs2 b; bessel_parabolic := bessel_parabolic b;
     bessel_real := bessel_real b ++ [f]; bessel_complex := bessel_complex b;
     coefs_exp := coefs_exp b |}.

Definition bessel_complex_append (f : array) (b : precomputed) : precomputed :=
  {| space_dim := space_dim b; dofs2 := dofs2 b; bessel_parabolic := bessel_parabolic b;
     bessel_real := bessel_real b; bessel_complex := bessel_complex b ++ [f];
     coefs_exp := coefs_exp b |}.

Definition same_ref (r r' : coef_ref) : bool :=
  match r, r' with
  | scale_factor, scale_factor
  | pg_normalization_factor, pg_normalization_factor
  | p_normalization_factor, p_normalization_factor
  | vel_normalization_factor, vel_normalization_factor => true
  | _, _ => false
  end.

(** [x.append(v)] on one of the shared coefficient lists: every entry of
    the registry that refers to the list sees the new value. *)
Definition shared_append (r : coef_ref) (v : R) (p : problem) : problem :=
  {| args := args p; basis := basis p; clk := clk p; ec := ec p;
     listDict := listDict p;
     shared := fun r' => if same_ref r r' then shared p r' ++ [v] else shared p r';
     files := files p |}.

(** The file system after a file is created or overwritten, after a row is
    added to a csv file, and after a file is removed. *)
Definition write_file (path : string) (content : file) (p : problem) : problem :=
  set_files (<[path := content]> (files p)) p.

Definition add_row (row : list cell) (f : file) : file :=
  match f with
  | Csv rows => Csv (rows ++ [row])
  | _ => Csv [row]
  end.

Definition append_row (path : string) (row : list cell) (p : problem) : problem :=
  set_files (alter (add_row row) path (files p)) p.

Definition remove_file (path : string) (p : problem) : problem :=
  set_files (delete path (files p)) p.

(** An assignment to a key of the entry [self.listDict[key]]. *)
Definition on_entry (key : string) (f : functional -> functional) (p : problem) : problem :=
  set_listDict (alter f key (listDict p)) p.

(** A method of the problem: it reads and mutates the object and returns or
    raises; the mutations made before an exception stay. *)
Definition M (A : Type) : Type := problem -> outcome A * problem.

#[export] Instance M_ret : MRet M := fun A a p => (Ret a, p).
#[export] Instance M_bind : MBind M :=
  fun A B k c p =>
    match c p with
    | (Ret a, p') => k a p'
    | (Raise e, p') => (Raise e, p')
    end.

Definition get {A} (f : problem -> A) : M A := fun p => (Ret (f p), p).
Definition modify (f : problem -> problem) : M unit := fun p => (Ret tt, f p).
Definition lift {A} (c : outcome A) : M A := fun p => (c, p).
Definition raise {A} (e : exn) : M A := lift (Raise e).
Definition skip : M unit := mret tt.

(** [self.listDict[key]] *)
Definition listDict_get (key : string) : M functional :=
  d ← get listDict;
  match d !! key with
  | Some l => mret l
  | None => raise (KeyError key)
  end.

(** The registry after [self.listDict[key]['list'].append(x)]. *)
Definition append_to_list (key : string) (x : R) (p : problem) : problem :=
  set_listDict (alter (fun l => set_list (list_ l ++ [x]) l) key (listDict p)) p.

(** [self.listDict[key]['list'].append(x)] for an entry known to exist. *)
Definition list_append (key : string) (x : R) : M unit := modify (append_to_list key x).

(** [self.listDict[key]['slist']]: the key 'slist' may be absent. *)
Definition slist_get (key : string) : M (list R) :=
  l ← listDict_get key;
  match slist l with
  | Some s => mret s
  | None => raise (KeyError "slist")
  end.

(** The registry after [self.listDict[key]['slist'].append(x)]. *)
Definition append_to_slist (key : string) (x : R) (p : problem) : problem :=
  set_listDict
    (alter (fun l => match slist l with
                     | Some s => set_slist (s ++ [x]) l
                     | None => l
                     end) key (listDict p)) p.

Definition slist_append (key : string) (x : R) : M unit := modify (append_to_slist key x).

(** The aggregate [sum([i*i for i in xs[self.N0:self.N1]])/self.stepsInSecond] *)
Definition mean_sq_window (xs : list R) : M R :=
  c ← get clk;
  let window := py_slice xs (N0 c) (N1 c) in
  s ← lift (unwrap (stepsInSecond c));
  lift (py_div (sum_sq window) (IZR s)).

(** [sqrt(sum([i*i for i in xs[self.N0:self.N1]])/self.stepsInSecond)] *)
Definition rms_window (xs : list R) : M R :=
  q ← mean_sq_window xs;
  lift (py_sqrt q).

(** ** problems/general_problem.py: class GeneralProblem *)

Inductive error_option : Type := doEC | noEC | test.
Inductive save_option : Type := doSave_opt | noSave | diff | only_vel.

(** The parsed command line ([setup_parser_options]) and the metadata
    dictionary handed to [__init__]. *)
Record arguments : Type := {
  arg_error : error_option;
  arg_save : save_option;
  arg_savespace : Z;
  arg_nu : R;
  arg_onset : R;
  arg_factor : R;
  meta_name : string;
  meta_dt : R;
  meta_time : R;
  meta_dt_ms : Z
}.

Module GeneralProblem.

Definition listDict_base : gmap string functional :=
  <["d" := entry "corrected velocity L2 divergence" "DC" (Some scale_factor) None true None]>
  (<["d2" := entry "tentative velocity L2 divergence" "DT" (Some scale_factor) None true None]>
  (<["pg" := entry "computed pressure gradient" "PG" (Some scale_factor) None false
               (Some pg_normalization_factor)]>
  (<["pg2" := entry "computed pressure tent gradient" "PTG" (Some scale_factor) None false
                (Some pg_normalization_factor)]> ∅))).

Definition listDict_analytic : list (string * functional) :=
  [ ("u_L2", entry "corrected velocity L2 error" "CE_L2" (Some scale_factor)
               (Some "av_norm_L2") true (Some vel_normalization_factor));
    ("u2L2", entry "tentative velocity L2 error" "TE_L2" (Some scale_factor)
               (Some "av_norm_L2") true (Some vel_normalization_factor));
    ("u_L2test", entry "test corrected L2 velocity error" "TestCE_L2" (Some scale_factor)
               None false None);
    ("u2L2test", entry "test tentative L2 velocity error" "TestTE_L2" (Some scale_factor)
               None false None);
    ("u_H1", entry "corrected velocity H1 error" "CE_H1" (Some scale_factor)
               (Some "av_norm_H1") true None);
    ("u2H1", entry "tentative velocity H1 error" "TE_H1" (Some scale_factor)
               (Some "av_norm_H1") true None);
    ("u_H1test", entry "test corrected H1 velocity error" "TestCE_H1" (Some scale_factor)
               None false None);
    ("u2H1test", entry "test tentative H1 velocity error" "TestTE_H1" (Some scale_factor)
               None false None);
    ("apg", entry "analytic pressure gradient" "APG" (Some scale_factor) None false
               (Some pg_normalization_factor));
    ("av_norm_L2", entry "analytic velocity L2 norm" "AVN_L2" None None false None);
    ("av_norm_H1", entry "analytic velocity H1 norm" "AVN_H1" None None false None);
    ("ap_norm", entry "analytic pressure norm" "APN" None None false None);
    ("p", entry "pressure L2(0) error" "PE" (Some scale_factor) None true
               (Some p_normalization_factor));
    ("pgE", entry "computed pressure gradient error" "PGE" (Some scale_factor) None true
               (Some pg_normalization_factor));
    ("pgEA", entry "computed absolute pressure gradient error" "PGEA" (Some scale_factor)
               None false (Some pg_normalization_factor));
    ("p2", entry "pressure tent L2(0) error" "PTE" (Some scale_factor) None true
               (Some p_normalization_factor));
    ("pgE2", entry "computed tent pressure tent gradient error" "PTGE" (Some scale_factor)
               None true (Some pg_normalization_factor));
    ("pgEA2", entry "computed absolute pressure tent gradient error" "PTGEA"
               (Some scale_factor) None false (Some pg_normalization_factor)) ].

(** [d.update(entries)] *)
Definition dict_update (entries : list (string * functional))
    (d : gmap string functional) : gmap string functional :=
  fold_left (fun m kv => <[kv.1 := kv.2]> m) entries d.

(** [__init__]: the attributes it sets from the arguments, the rank and
    the subclass's [has_analytic_solution]. *)
Definition init (problem_code : string) (rank : nat) (has_analytic : bool) (a : arguments)
    : problem :=
  {| args :=
       {| MPI_rank := rank;
          has_analytic_solution := has_analytic;
          doErrControl := match arg_error a with noEC => false | _ => true end;
          testErrControl := match arg_error a with test => true | _ => false end;
          onset := arg_onset a;
          doSave := match arg_save a with noSave => false | _ => true end;
          save_nth := arg_savespace a;
          factor := arg_factor a;
          md_name := meta_name a;
          md_dt := meta_dt a;
          md_time := meta_time a;
          md_dt_ms := meta_dt_ms a;
          status_functional_str := "to be defined in Problem class";
          str_dir_name := problem_code +:+ "_" +:+ meta_name a +:+ "_results" |};
     basis :=
       {| space_dim := 0; dofs2 := []; bessel_parabolic := None;
          bessel_real := []; bessel_complex := []; coefs_exp := [] |};
     clk :=
       {| stepsInSecond := None; actual_time := Some 0; step_number := 0;
          time_list := []; second_list := []; onset_factor := 0;
          save_this_step := false; isWholeSecond := None; N0 := None; N1 := None |};
     ec :=
       {| solution := None; v_in := None;
          analytic_v_norm_L2 := None; analytic_v_norm_H1 := None;
          analytic_v_norm_H1w := None;
          divergence_treshold := 10;
          last_error := None; last_status_functional := 0 |};
     listDict :=
       if has_analytic then dict_update listDict_analytic listDict_base
       else listDict_base;
     shared := fun _ => [];
     files := ∅ |}.

Section Methods.
Context (fe : dolfin).

(** [initialize]: how many steps make one second. *)
Definition initialize : M unit :=
  a ← get args;
  q ← lift (py_div 1 (md_dt a));
  modify (on_clk (set_stepsInSecond (py_round q))).

Definition compute_div (is_tent : bool) (velocity : array) : M unit :=
  let key := if is_tent then "d2" else "d" in
  _ ← listDict_get key;
  _ ← list_append key (norm_Hdiv0 fe velocity);
  c ← get clk;
  if truthy (isWholeSecond c) then
    _ ← slist_get key;
    div_list ← listDict_get key;
    q ← mean_sq_window (list_ div_list);
    slist_append key q
  else skip.

Definition set_last_error (e : R) (c : error_control) : error_control :=
  {| solution := solution c; v_in := v_in c;
     analytic_v_norm_L2 := analytic_v_norm_L2 c;
     analytic_v_norm_H1 := analytic_v_norm_H1 c;
     analytic_v_norm_H1w := analytic_v_norm_H1w c;
     divergence_treshold := divergence_treshold c;
     last_error := Some e; last_status_functional := e |}.

Definition compute_err (is_tent : bool) (velocity : array) (t : R) : M unit :=
  a ← get args;
  if doErrControl a && has_analytic_solution a then
    let key_L2 := if is_tent then "u2L2" else "u_L2" in
    let key_H1 := if is_tent then "u2H1" else "u_H1" in
    _ ← listDict_get key_L2;
    _ ← listDict_get key_H1;
    e ← get ec;
    sol ← lift (unwrap (solution e));
    let errorL2_sq := assemble_L2_sq fe velocity sol in
    let errorH1seminorm_sq := assemble_H1semi_sq fe velocity sol in
    _ ← lift (py_sqrt errorH1seminorm_sq);
    errorL2 ← lift (py_sqrt errorL2_sq);
    errorH1 ← lift (py_sqrt (errorL2_sq + errorH1seminorm_sq));
    _ ← lift (nL2 ← unwrap (analytic_v_norm_L2 e); py_div errorL2 nL2);
    rel ← lift (nH1 ← unwrap (analytic_v_norm_H1 e); py_div errorH1 nH1);
    _ ← modify (on_ec (set_last_error rel));
    _ ← list_append key_L2 errorL2;
    _ ← list_append key_H1 errorH1;
    _ ← (if testErrControl a then
           let key_test_H1 := if is_tent then "u2H1test" else "u_H1test" in
           let key_test_L2 := if is_tent then "u2L2test" else "u_L2test" in
           _ ← listDict_get key_test_H1;
           _ ← listDict_get key_test_L2;
           _ ← list_append key_test_L2 (errornorm_L2 fe velocity sol);
           list_append key_test_H1 (errornorm_H1 fe velocity sol)
         else skip);
    c ← get clk;
    _ ← (if truthy (isWholeSecond c) then
           _ ← slist_get key_L2;
           er_list_L2 ← listDict_get key_L2;
           q2 ← rms_window (list_ er_list_L2);
           _ ← slist_append key_L2 q2;
           _ ← slist_get key_H1;
           er_list_H1 ← listDict_get key_H1;
           q1 ← rms_window (list_ er_list_H1);
           slist_append key_H1 q1
         else skip);
    e' ← get ec;
    if Rgtb rel (divergence_treshold e') then
      raise (RuntimeError "STOPPED: Failed divergence test!")
    else skip
  else skip.

(** [a % b] on ints. *)
Definition py_mod (a b : Z) : outcome Z :=
  if decide (b = 0%Z) then Raise ZeroDivisionError else Ret (a mod b)%Z.

Definition update_time (t : R) (n : Z) : M unit :=
  a ← get args;
  _ ← modify (on_clk (tick t n
         (if Rltb (onset a) 0.001 || Rgtb t (onset a) then 1
          else (1 - cos (PI * t / onset a)) * 0.5)));
  if doSave a then
    save ← lift (if decide (save_nth a = 1%Z) then Ret true
                 else if Rgtb t (1 - md_dt a / 2) then Ret true
                 else r ← py_mod n (save_nth a); Ret (bool_decide (r = 0%Z)));
    modify (on_clk (set_save_this_step save))
  else skip.

End Methods.

(** *** Reports and status files *)


(** [open(path, 'w')]: the file exists and is empty from here on. *)
Definition open_w (path : string) : M unit := modify (write_file path Empty).

(** [csv.writer(f).writerow(row)] on the file opened at [path]. *)
Definition writerow (path : string) (row : list cell) : M unit :=
  modify (append_row path row).

(** [[i/coef[0] for i in xs]] *)
Definition divide_by_first (coef xs : list R) : outcome (list R) :=
  mapO (fun i => c ← py_getitem coef 0; py_div i c) xs.

(** [xs[i]/norm_list[i]] *)
Definition quotient_at (xs norm_list : list R) (i : nat) : outcome R :=
  x ← py_getitem xs i; n ← py_getitem norm_list i; py_div x n.

(** [[xs[i]/norm_list[i] for i in range(0, len(xs))]] *)
Definition relative_row (xs norm_list : list R) : outcome (list R) :=
  mapO (quotient_at xs norm_list) (seq 0 (length xs)).

(** The body of the loop over the keys in the first block of [report]:
    the rows of one functional in report_time_lines.csv. *)
Definition time_lines_rows (path key : string) : M unit :=
  a ← get args;
  l ← listDict_get key;
  match list_ l with
  | [] => skip
  | _ =>
    _ ← writerow path ([Str (md_name a); Str (name l); Str (abrev l)] ++ map Num (list_ l));
    _ ← match scale l with
        | Some r =>
            sh ← get shared;
            temp_list ← lift (divide_by_first (sh r) (list_ l));
            writerow path ([Str (md_name a); Str ("scaled " +:+ name l);
                            Str (abrev l +:+ "s")]
                           ++ map Num temp_list ++ [ScaleNote (sh r)])
        | None => skip
        end;
    _ ← match norm l with
        | Some r =>
            sh ← get shared;
            match sh r with
            | [] =>
                modify (on_entry key (set_normalized_list_sec []))
            | _ =>
                temp_list ← lift (divide_by_first (sh r) (list_ l));
                writerow path ([Str (md_name a); Str ("normalized " +:+ name l);
                                Str (abrev l +:+ "n")] ++ map Num temp_list)
            end
        | None => skip
        end;
    match relative l with
    | Some ref =>
        norm_entry ← listDict_get ref;
        temp_list ← lift (relative_row (list_ l) (list_ norm_entry));
        _ ← modify (on_entry key (set_relative_list temp_list));
        writerow path ([Str (md_name a); Str ("relative " +:+ name l);
                        Str (abrev l +:+ "r")] ++ map Num temp_list)
    | None => skip
    end
  end.

(** The first block of [report]: report_time_lines.csv.  [keys] is the
    order in which the dictionary yields its keys. *)
Definition report_time_lines (keys : list string) : M unit :=
  a ← get args;
  c ← get clk;
  let path := str_dir_name a +:+ "/report_time_lines.csv" in
  _ ← open_w path;
  _ ← writerow path ([Str "name"; Str "what"; Str "time"] ++ map Num (time_list c));
  foldr (fun key rest => _ ← time_lines_rows path key; rest) skip keys.

(** [sqrt(sum([i*i for i in xs[N0:N1]])/float(self.stepsInSecond))] with
    [N0 = (sec-1)*self.stepsInSecond] and [N1 = sec*self.stepsInSecond]. *)
Definition second_rms (steps : option Z) (xs : list R) (sec : Z) : outcome R :=
  s ← unwrap steps;
  let N0 := ((sec - 1) * s)%Z in
  let N1 := (sec * s)%Z in
  q ← py_div (sum_sq (py_slice xs (Some N0) (Some N1))) (IZR s);
  py_sqrt q.

(** The body of the loop over the keys in the second block of [report]:
    the rows of one functional in report_seconds.csv.  [l] is the entry
    itself, so the relative list is read from the registry as it is when
    the row is built. *)
Definition seconds_rows (path key : string) : M unit :=
  a ← get args;
  l ← listDict_get key;
  match slist l with
  | None => skip
  | Some value =>
    _ ← writerow path ([Str (md_name a); Str (name l); Str (abrev l)] ++ map Num value);
    _ ← match scale l with
        | Some r =>
            sh ← get shared;
            temp_list ← lift (divide_by_first (sh r) value);
            writerow path ([Str (md_name a); Str ("scaled " +:+ name l);
                            Str (abrev l +:+ "s")] ++ map Num temp_list)
        | None => skip
        end;
    _ ← match norm l with
        | Some r =>
            sh ← get shared;
            match sh r with
            | [] =>
                modify (on_entry key (set_normalized_list_sec []))
            | _ =>
                temp_list ← lift (divide_by_first (sh r) value);
                _ ← modify (on_entry key (set_normalized_list_sec temp_list));
                writerow path ([Str (md_name a); Str ("normalized " +:+ name l);
                                Str (abrev l +:+ "n")] ++ map Num temp_list)
            end
        | None => skip
        end;
    l ← listDict_get key;
    match relative_list l with
    | Some rl =>
        c ← get clk;
        temp_list ← lift (mapO (second_rms (stepsInSecond c) rl) (second_list c));
        _ ← modify (on_entry key (set_relative_list_sec temp_list));
        writerow path ([Str (md_name a); Str ("relative " +:+ name l);
                        Str (abrev l +:+ "r")] ++ map Num temp_list)
    | None => skip
    end
  end.

(** The second block of [report]: report_seconds.csv. *)
Definition report_seconds (keys : list string) : M unit :=
  a ← get args;
  c ← get clk;
  let path := str_dir_name a +:+ "/report_seconds.csv" in
  _ ← open_w path;
  _ ← writerow path ([Str "name"; Str "what"; Str "time"] ++ map Int (second_list c));
  foldr (fun key rest => _ ← seconds_rows path key; rest) skip keys.

(** [[xs[-1]] if xs else [0]] *)
Definition last_or_zero (xs : list R) : cell :=
  match last xs with
  | Some x => Num x
  | None => Int 0
  end.

(** The keys of the summary, in the order of the source. *)
Definition summary_keys : list string :=
  ["u_L2"; "u_H1"; "u_H1w"; "p"; "u2L2"; "u2H1"; "u2H1w"; "p2"; "pgE"; "pgE2"; "d"; "d2";
   "force_wall"].

(** One pass of the loop that builds [header_row] and [data_row]. *)
Definition summary_step (d : gmap string functional) (rows : list cell * list cell)
    (key : string) : outcome (list cell * list cell) :=
  match d !! key with
  | None => Ret rows
  | Some l =>
      let header_row := rows.1 ++ [Str ("last_cycle_" +:+ abrev l)] in
      sl ← match slist l with Some sl => Ret sl | None => Raise (KeyError "slist") end;
      let data_row := rows.2 ++ [last_or_zero sl] in
      match relative_list_sec l with
      | Some (x :: xs) =>
          Ret (header_row ++ [Str ("last_cycle_" +:+ abrev l +:+ "r")],
               data_row ++ [last_or_zero (x :: xs)])
      | _ =>
          if bool_decide (key = "p" \/ key = "p2") then
            nl ← match normalized_list_sec l with
                 | Some nl => Ret nl
                 | None => Raise (KeyError "normalized_list_sec")
                 end;
            Ret (header_row ++ [Str ("last_cycle_" +:+ abrev l +:+ "n")],
                 data_row ++ [last_or_zero nl])
          else Ret (header_row, data_row)
      end
  end.

(** [header_row] and [data_row] of the summary.  The pickled metadata and
    the elapsed time come from outside the problem. *)
Definition summary_rows (d : gmap string functional) (md_name_ metadata_to_save : string)
    (total : R) : outcome (list cell * list cell) :=
  foldl (fun acc key => rows ← acc; summary_step d rows key)
    (Ret ([Str "name"; Str "metadata"; Str "totalTimeHours"],
          [Str md_name_; Str metadata_to_save; Num (total / 3600.0)]))
    summary_keys.

(** The third block of [report]: report.csv and report_h.csv. *)
Definition report_summary (metadata_to_save : string) (total : R) : M unit :=
  a ← get args;
  d ← get listDict;
  rows ← lift (summary_rows d (md_name a) metadata_to_save total);
  let path := str_dir_name a +:+ "/report.csv" in
  _ ← open_w path;
  _ ← writerow path rows.2;
  let path_h := str_dir_name a +:+ "/report_h.csv" in
  _ ← open_w path_h;
  _ ← writerow path_h rows.1;
  writerow path_h rows.2.

Definition write_status_file (t : R) : M unit :=
  a ← get args;
  let path := md_name a +:+ ".run" in
  _ ← open_w path;
  progress ← lift (py_div t (md_time a));
  e ← get ec;
  modify (write_file path (Status t (md_dt_ms a) (100 * progress)
                             (status_functional_str a) (last_status_functional e))).

(** [os.remove] of a missing file raises [OSError], which is caught. *)
Definition remove_status_file : M unit :=
  a ← get args;
  if decide (MPI_rank a = 0%nat) then
    modify (remove_file (md_name a +:+ ".run"))
  else skip.

End GeneralProblem.

(** ** problems/womersley_cylinder.py: class Problem(GeneralProblem) *)

(** [for x in xs: acc = f acc x], stopping at the first exception. *)
Fixpoint foldO {A B} (f : A -> B -> outcome A) (xs : list B) (a : A) : outcome A :=
  match xs with
  | [] => Ret a
  | x :: xs' => a' ← f a x; foldO f xs' a'
  end.

(** What [initialize] needs to know of a vector function space: the length
    of its coefficient vectors and the dofs of its third component. *)
Record space : Type := {
  dim : nat;
  sub2_dofs : list nat
}.

Module Problem.

Definition listDict_wall : list (string * functional) :=
  [ ("u_H1w", entry "corrected velocity H1 error on wall" "CE_H1w" (Some scale_factor)
                (Some "av_norm_H1w") true None);
    ("u2H1w", entry "tentative velocity H1 error on wall" "TE_H1w" (Some scale_factor)
                (Some "av_norm_H1w") true None);
    ("av_norm_H1w", entry "analytic velocity H1 norm on wall" "AVN_H1w" None None false None);
    ("a_force_wall", entry "analytic force on wall" "AF" None None false None);
    ("a_force_wall_normal", entry "analytic force on wall" "AFN" None None false None);
    ("a_force_wall_shear", entry "analytic force on wall" "AFS" None None false None);
    ("force_wall", entry "force error on wall" "FE" None (Some "a_force_wall") true None);
    ("force_wall_normal", entry "normal force error on wall" "FNE" None
                (Some "a_force_wall") true None);
    ("force_wall_shear", entry "shear force error on wall" "FSE" None
                (Some "a_force_wall") true None) ].

Definition set_status_str (s : string) (a : settings) : settings :=
  {| MPI_rank := MPI_rank a; has_analytic_solution := has_analytic_solution a;
     doErrControl := doErrControl a; testErrControl := testErrControl a;
     onset := onset a; doSave := doSave a; save_nth := save_nth a; factor := factor a;
     md_name := md_name a; md_dt := md_dt a; md_time := md_time a; md_dt_ms := md_dt_ms a;
     status_functional_str := s; str_dir_name := str_dir_name a |}.

(** [__init__]: the Womersley problem has an analytic solution; the scale
    list receives the velocity factor; the time is reset to [None]. *)
Definition init (rank : nat) (a : arguments) : problem :=
  let p := GeneralProblem.init "WCYL" rank true a in
  let c := clk p in
  shared_append scale_factor (arg_factor a)
    {| args := set_status_str "last H1 velocity error" (args p);
       basis :=
         {| space_dim := 0; dofs2 := []; bessel_parabolic := None;
            bessel_real := []; bessel_complex := [];
            coefs_exp := [-8; -6; -4; -2; 2; 4; 6; 8]%Z |};
       clk :=
         {| stepsInSecond := stepsInSecond c; actual_time := None;
            step_number := step_number c; time_list := time_list c;
            second_list := second_list c; onset_factor := onset_factor c;
            save_this_step := save_this_step c; isWholeSecond := isWholeSecond c;
            N0 := N0 c; N1 := N1 c |};
       ec := ec p;
       listDict := GeneralProblem.dict_update listDict_wall (listDict p);
       shared := shared p;
       files := files p |}.

(** One pass of the loop over the modes in [assemble_solution]. *)
Definition add_mode (a : settings) (b : precomputed) (t : R) (sol : array) (idx : nat)
    : outcome array :=
  k ← py_getitem (coefs_exp b) idx;
  re ← py_getitem (bessel_real b) idx;
  sol ← iadd_at sol (dofs2 b) (scal (factor a * cos (IZR k * PI * t)) re);
  k ← py_getitem (coefs_exp b) idx;
  im ← py_getitem (bessel_complex b) idx;
  iadd_at sol (dofs2 b) (scal (factor a * - sin (IZR k * PI * t)) im).

(** [assemble_solution(t)]: the Womersley solution at time [t]. *)
Definition assemble_solution (a : settings) (b : precomputed) (t : R) : outcome array :=
  let sol := replicate (space_dim b) 0 in
  parab ← unwrap (bessel_parabolic b);
  sol ← iadd_at sol (dofs2 b) (scal (factor a) parab);
  foldO (add_mode a b t) (seq 0 8) sol.

(** The dataset names ["real%d" % i], ["imag%d" % i] for [i < 10]. *)
Definition numbered (prefix : string) (i : nat) : string :=
  prefix +:+ String (Ascii.ascii_of_nat (48 + i)) "".

Definition hdf5_read (store : gmap string array) (dataset : string) : outcome array :=
  match store !! dataset with
  | Some f => Ret f
  | None => Raise (RuntimeError "HDF5 dataset not found")
  end.

Definition load_precomputed_bessel_functions (store : gmap string array) : M unit :=
  parab ← lift (hdf5_read store "parab");
  _ ← modify (on_basis (set_bessel_parabolic parab));
  foldr (fun i rest =>
           re ← lift (hdf5_read store (numbered "real" i));
           _ ← modify (on_basis (bessel_real_append re));
           im ← lift (hdf5_read store (numbered "imag" i));
           _ ← modify (on_basis (bessel_complex_append im));
           rest) skip (seq 0 8).

Section Methods.
Context (fe : dolfin).

Definition set_solution (s : array) (c : error_control) : error_control :=
  {| solution := Some s; v_in := v_in c;
     analytic_v_norm_L2 := analytic_v_norm_L2 c;
     analytic_v_norm_H1 := analytic_v_norm_H1 c;
     analytic_v_norm_H1w := analytic_v_norm_H1w c;
     divergence_treshold := divergence_treshold c;
     last_error := last_error c; last_status_functional := last_status_functional c |}.

(** [initialize(V, Q, PS, D)]: the base initialisation, the precomputed
    partial solution and the solution at time 0.  The three averages
    come from [womersleyBC] and dolfin and are taken as given. *)
Definition initialize (V : space) (store : gmap string array)
    (avg_pg avg_p avg_vel : R) : M unit :=
  _ ← GeneralProblem.initialize;
  _ ← modify (on_basis (set_space (dim V) (sub2_dofs V)));
  _ ← load_precomputed_bessel_functions store;
  a ← get args;
  b ← get basis;
  sol ← lift (assemble_solution a b 0);
  _ ← modify (on_ec (set_solution sol));
  _ ← modify (shared_append pg_normalization_factor avg_pg);
  _ ← modify (shared_append p_normalization_factor avg_p);
  modify (shared_append vel_normalization_factor avg_vel).

(** The attributes of the analytic solution set by [update_time]. *)
Definition set_analytic (sol : array) (nL2 nH1 nH1w : R) (c : error_control) : error_control :=
  {| solution := Some sol; v_in := Some sol;
     analytic_v_norm_L2 := Some nL2; analytic_v_norm_H1 := Some nH1;
     analytic_v_norm_H1w := Some nH1w;
     divergence_treshold := divergence_treshold c;
     last_error := last_error c; last_status_functional := last_status_functional c |}.

Definition update_time (t : R) (n : Z) : M unit :=
  _ ← GeneralProblem.update_time t n;
  c ← get clk;
  now ← lift (unwrap (actual_time c));
  _ ← (if Rgtb now 0.5 && bool_decide ((py_round (now * 1000) mod 1000)%Z = 0%Z) then
         _ ← modify (on_clk (set_isWholeSecond true));
         let seconds := py_round now in
         _ ← modify (on_clk (second_list_append seconds));
         s ← lift (unwrap (stepsInSecond c));
         _ ← modify (on_clk (set_N1 (seconds * s)));
         modify (on_clk (set_N0 ((seconds - 1) * s)))
       else
         modify (on_clk (set_isWholeSecond false)));
  a ← get args;
  b ← get basis;
  sol ← lift (assemble_solution a b now);
  wall ← lift (py_sqrt (assemble_wall_sq fe sol));
  _ ← modify (on_ec (set_analytic sol (norm_L2 fe sol) (norm_H1 fe sol) wall));
  _ ← listDict_get "av_norm_L2";
  _ ← list_append "av_norm_L2" (norm_L2 fe sol);
  _ ← listDict_get "av_norm_H1";
  _ ← list_append "av_norm_H1" (norm_H1 fe sol);
  _ ← listDict_get "av_norm_H1w";
  list_append "av_norm_H1w" wall.

Definition compute_err (is_tent : bool) (velocity : array) (t : R) : M unit :=
  _ ← GeneralProblem.compute_err fe is_tent velocity t;
  let key := if is_tent then "u2H1w" else "u_H1w" in
  _ ← listDict_get key;
  e ← get ec;
  sol ← lift (unwrap (solution e));
  errorH1wall ← lift (py_sqrt (assemble_H1wall_sq fe velocity sol));
  _ ← list_append key errorH1wall;
  _ ← lift (nw ← unwrap (analytic_v_norm_H1w e); py_div errorH1wall nw);
  c ← get clk;
  if truthy (isWholeSecond c) then
    _ ← slist_get key;
    er_list_H1w ← listDict_get key;
    q ← rms_window (list_ er_list_H1w);
    slist_append key q
  else skip.

End Methods.

(** [compute_force(velocity, pressure, t)]: [sol_p] is the attribute
    [self.sol_p], the analytic pressure that [update_time] interpolates;
    the last division is the one of the final [print]. *)
Definition compute_force (wf : wall_forces) (sol_p : option array)
    (velocity pressure : array) (t : R) : M unit :=
  e ← get ec;
  sp ← lift (unwrap sol_p);
  sol ← lift (unwrap (solution e));
  error_force ← lift (py_sqrt (error_force_sq wf pressure velocity sp sol));
  an_force ← lift (py_sqrt (an_force_sq wf sp sol));
  an_f_normal ← lift (py_sqrt (an_f_normal_sq wf sp sol));
  error_f_normal ← lift (py_sqrt (error_f_normal_sq wf pressure velocity sp sol));
  an_f_shear ← lift (py_sqrt (an_f_shear_sq wf sp sol));
  error_f_shear ← lift (py_sqrt (error_f_shear_sq wf pressure velocity sp sol));
  _ ← listDict_get "a_force_wall";
  _ ← list_append "a_force_wall" an_force;
  _ ← listDict_get "a_force_wall_normal";
  _ ← list_append "a_force_wall_normal" an_f_normal;
  _ ← listDict_get "a_force_wall_shear";
  _ ← list_append "a_force_wall_shear" an_f_shear;
  _ ← listDict_get "force_wall";
  _ ← list_append "force_wall" error_force;
  _ ← listDict_get "force_wall_normal";
  _ ← list_append "force_wall_normal" error_f_normal;
  _ ← listDict_get "force_wall_shear";
  _ ← list_append "force_wall_shear" error_f_shear;
  c ← get clk;
  _ ← (if truthy (isWholeSecond c) then
         _ ← slist_get "force_wall";
         l ← listDict_get "force_wall";
         q ← rms_window (list_ l);
         slist_append "force_wall" q
       else skip);
  _ ← lift (py_div error_force an_force);
  skip.

End Problem.


(** ** womersleyBC.py *)

Module womersleyBC.

(** Complex numbers as pairs (real part, imaginary part). *)
Definition C : Type := R * R.

Definition Cadd (z w : C) : C := (z.1 + w.1, z.2 + w.2).
Definition Cmul (z w : C) : C := (z.1 * w.1 - z.2 * w.2, z.1 * w.2 + z.2 * w.1).
Definition Copp (z : C) : C := (- z.1, - z.2).
Definition RtoC (x : R) : C := (x, 0).
(** [exp(I * theta)] for a real [theta]. *)
Definition Cexp_I (theta : R) : C := (cos theta, sin theta).
(** [re(z)] *)
Definition re (z : C) : R := z.1.

(** [dolfin.near(x, x0)] with its default tolerance [DOLFIN_EPS]. *)
Definition DOLFIN_EPS : R := 3e-16.
Definition near (x x0 : R) : bool :=
  if Rle_dec (x0 - DOLFIN_EPS) x then (if Rle_dec x (x0 + DOLFIN_EPS) then true else false)
  else false.

(** The cylinder radius, [R] in the source. *)
Definition R_cylinder : R := 5.0.

Section Profile.
(** [besselj(0, z)], evaluated by scipy's [jv]. *)
Context (besselj0 : C -> C).

(** One mode [a * (b * besselj(0, r * w) + 1) * exp(k * I * pi * tm)] *)
Definition mode (a b w : C) (k : Z) (r tm : R) : C :=
  Cmul (Cmul a (Cadd (Cmul b (besselj0 (Cmul (RtoC r) w))) (RtoC 1)))
       (Cexp_I (IZR k * PI * tm)).

(** The symbolic profile [u] in the variables [r] and [tm]; [u_lambda] is
    its numerical evaluation. *)
Definition u (r tm : R) : C :=
  Cadd (Cadd (Cadd (Cadd (Cadd (Cadd (Cadd (Cadd (Cadd
    (RtoC (-43.2592 * r ^ 2))
    (mode (-11.799, 0.60076) (0.000735686, -0.000528035) (1.84042, 1.84042) (-8) r tm))
    (mode (-11.799, -0.60076) (0.000735686, 0.000528035) (1.84042, -1.84042) 8 r tm))
    (mode (-26.3758, -4.65265) (Copp (0.000814244, -0.00277126)) (1.59385, -1.59385) 6 r tm))
    (mode (-26.3758, 4.65265) (Copp (0.000814244, 0.00277126)) (1.59385, 1.59385) (-6) r tm))
    (mode (-51.6771, 27.3133) (Copp (0.0110653, -0.00200668)) (1.30138, 1.30138) (-4) r tm))
    (mode (-51.6771, -27.3133) (Copp (0.0110653, 0.00200668)) (1.30138, -1.30138) 4 r tm))
    (mode (-33.1594, -95.2423) (0.0314408, -0.0549981) (0.920212, -0.920212) 2 r tm))
    (mode (-33.1594, 95.2423) (0.0314408, 0.0549981) (0.920212, 0.920212) (-2) r tm))
    (RtoC 1081.48).

Definition u_lambda (r tm : R) : C := u r tm.

(** [WomersleyProfile.eval(value, x)] at the profile's time [t], with the
    module's global [factor]: the three components written to [value]. *)
Definition eval (factor t : R) (x : R * R * R) : R * R * R :=
  let rad := sqrt (x.1.1 * x.1.1 + x.1.2 * x.1.2) in
  (0, 0, if near rad R_cylinder then 0 else re (Cmul (RtoC factor) (u_lambda rad t))).

End Profile.

(** The initial value of the module's global [factor]. *)
Definition factor : R := 0.0.

(** *** The analytic pressure gradient *)

(** Modelled from the spec: [womersleyBC.analytic_pressure_grad(factor, t)]
    is called by [Problem.save_pressure] but its definition is missing from
    the sources at hand.  The spec describes a pure closed-form scalar
    function of [t] and the scale factor, built from the same eight-mode
    expansion as the velocity (frequency indices -8, -6, -4, -2, 2, 4, 6, 8,
    each entering through [cos(k*pi*t)] and [sin(k*pi*t)]), whose
    coefficients are opaque calibration data: a mean part and, per mode, a
    real and an imaginary coefficient. *)
Record calibration : Type := {
  pg_mean : R;
  pg_real : Z -> R;
  pg_imag : Z -> R
}.

Definition frequencies : list Z := [-8; -6; -4; -2; 2; 4; 6; 8]%Z.

(** Modelled from the spec: the missing [analytic_pressure_grad], see
    [calibration]. *)
Definition analytic_pressure_grad (cal : calibration) (factor t : R) : R :=
  factor *
  (pg_mean cal +
   py_sum (map (fun k => cos (IZR k * PI * t) * pg_real cal k
                         - sin (IZR k * PI * t) * pg_imag cal k) frequencies)).

End womersleyBC.

(** ** prepare_real_mesh.py *)

Module prepare_real_mesh.

(** An inflow or outflow plane of the input data; [d] is set by the loop
    over [itertools.chain(inflows, outflows)]. *)
Record plane : Type := {
  number : Z;
  normal : list R;
  center : list R
}.

(** The input block of the script. *)
Record input : Type := {
  inflows : list plane;
  outflows : list plane;
  number_list : list Z
}.

Definition HYK : input :=
  {| inflows :=
       [ {| number := 2; normal := [0.0; 1.0; 0.0];
            center := [1.59128; -13.6391; 7.24912] |};
         {| number := 4; normal := [0.1; -1.0; -0.37];
            center := [-4.02584; 7.70146; 8.77694] |} ];
     outflows :=
       [ {| number := 3; normal := [-0.838444; 0.0; 0.544988];
            center := [11.3086; -0.985461; -5.64479] |};
         {| number := 5; normal := [-1.0; 0.0; 0.0];
            center := [20.6585; -1.38651; -1.24815] |} ];
     number_list := [2; 3; 4; 5]%Z |}.

(** The loop over [edges(mesh)] that finds the shortest edge, from the
    initial value 1000. *)
Definition edge_min (lengths : list R) : R :=
  fold_left (fun m l => if Rltb l m then l else m) lengths 1000.

Definition tol (lengths : list R) : R := edge_min lengths / 10.

(** [vec(list1, list2)]: the sum of the products of the zipped lists. *)
Definition vec (list1 list2 : list R) : R :=
  py_sum (map (fun i => i.1 * i.2) (zip list1 list2)).

(** [obj['d']] *)
Definition d (obj : plane) : R := vec (center obj) (normal obj).

(** [itertools.chain(inflows, outflows)] *)
Definition chain (inp : input) : list plane := inflows inp ++ outflows inp.

(** The loop of [point_in_subdomain] over the remaining planes; falling off
    the end returns [None]. *)
Fixpoint first_plane (tl : R) (planes : list plane) (p : list R) : option Z :=
  match planes with
  | [] => None
  | obj :: rest =>
      if Rltb (Rabs (vec p (normal obj) - d obj)) tl then Some (number obj)
      else first_plane tl rest p
  end.

Definition point_in_subdomain (inp : input) (tl : R) (p : list R) : option Z :=
  first_plane tl (chain inp) p.

(** A facet of the mesh: whether it is exterior, and the points of its
    vertices. *)
Record facet : Type := {
  exterior : bool;
  vertices : list (list R)
}.

(** [all(point_in_subdomain(v.point()) == num for v in vertices(f_mesh))] *)
Definition all_in (inp : input) (tl : R) (vs : list (list R)) (num : Z) : bool :=
  forallb (fun v => bool_decide (point_in_subdomain inp tl v = Some num)) vs.

(** The loop over [number_list] for one exterior facet: the marker it sets,
    if any. *)
Definition try_numbers (inp : input) (tl : R) (vs : list (list R)) : option Z :=
  fold_left (fun set num =>
               match set with
               | Some _ => set
               | None => if all_in inp tl vs num then Some num else None
               end) (number_list inp) None.

(** The value of [facet_function] on an exterior facet: the number found,
    or 1 for the wall. *)
Definition mark (inp : input) (tl : R) (vs : list (list R)) : Z :=
  match try_numbers inp tl vs with
  | Some num => num
  | None => 1%Z
  end.

(** The markers written by the loop over [facets(mesh)]; interior facets
    are not written. *)
Definition facet_function (inp : input) (lengths : list R) (mesh_facets : list facet)
    : list (option Z) :=
  map (fun f => if exterior f then Some (mark inp (tol lengths) (vertices f)) else None)
      mesh_facets.

(** [inf['reference_coef']] of an inflow. *)
Definition reference_coef (reference_radius radius : R) : outcome R :=
  py_div (reference_radius * reference_radius) (radius * radius).

End prepare_real_mesh.


(** ** Notions used to state the properties *)

(** The precomputed partial solution as [load_precomputed_bessel_functions]
    leaves it for a solution space whose third component has the dofs
    [dofs2]: a parabolic part and eight real and eight imaginary parts, one
    value per node each, and the eight frequency indices. *)
Definition loaded (b : precomputed) : Prop :=
  NoDup (dofs2 b)
  /\ (forall n, In n (dofs2 b) -> (n < space_dim b)%nat)
  /\ (exists parab, bessel_parabolic b = Some parab /\ length parab = length (dofs2 b))
  /\ coefs_exp b = [-8; -6; -4; -2; 2; 4; 6; 8]%Z
  /\ Forall (fun f => length f = length (dofs2 b)) (bessel_real b)
  /\ Forall (fun f => length f = length (dofs2 b)) (bessel_complex b)
  /\ length (bessel_real b) = 8%nat
  /\ length (bessel_complex b) = 8%nat.

(** The value of node [j] of a precomputed field ([0] outside the field). *)
Definition node (f : option array) (j : nat) : R :=
  default 0 (f ≫= (fun arr => arr !! j)).

(** The axial velocity at node [j] and time [t] as the specification
    writes it: [scale_factor * (parabolic[j] + sum over the modes of
    cos(k*pi*t)*real_k[j] - sin(k*pi*t)*imag_k[j])]. *)
Definition spec_axial (a : settings) (b : precomputed) (t : R) (j : nat) : R :=
  factor a *
  (node (bessel_parabolic b) j +
   py_sum (map (fun idx =>
                  let k := default 0%Z (coefs_exp b !! idx) in
                  cos (IZR k * PI * t) * node (bessel_real b !! idx) j
                  - sin (IZR k * PI * t) * node (bessel_complex b !! idx) j)
               (seq 0 8))).

(** The loop invariant of [assemble_solution]: the vector has the length of
    the solution space, holds [cur] at the axial dofs and 0 at all others. *)
Definition axial_state (b : precomputed) (sol cur : array) : Prop :=
  length sol = space_dim b
  /\ getitems sol (dofs2 b) = Ret cur
  /\ length cur = length (dofs2 b)
  /\ forall n, (n < space_dim b)%nat -> ~ In n (dofs2 b) -> sol !! n = Some 0.

(** What one pass of the loop adds to the axial values. *)
Definition mode_increment (a : settings) (b : precomputed) (t : R) (cur : array) (idx : nat)
    : array :=
  let k := default 0%Z (coefs_exp b !! idx) in
  zip_with Rplus
    (zip_with Rplus cur
       (scal (factor a * cos (IZR k * PI * t)) (default [] (bessel_real b !! idx))))
    (scal (factor a * - sin (IZR k * PI * t)) (default [] (bessel_complex b !! idx))).

(** The object is ready for [update_time]: [initialize] has set the number
    of steps in a second and loaded the partial solution, the registry has
    the series of the analytic norms, and the wall integrand of dolfin is a
    square. *)
Definition step_ready (fe : dolfin) (p : problem) (s : Z) : Prop :=
  (doSave (args p) = true -> save_nth (args p) <> 0%Z)
  /\ stepsInSecond (clk p) = Some s
  /\ loaded (basis p)
  /\ (forall sol, 0 <= assemble_wall_sq fe sol)
  /\ is_Some (listDict p !! "av_norm_L2")
  /\ is_Some (listDict p !! "av_norm_H1")
  /\ is_Some (listDict p !! "av_norm_H1w").

(** The object is ready for [compute_err] on [velocity]: [update_time] has
    set the analytic solution [sol] and its norms, which are not zero; the
    integrals of dolfin are squares; the registry has the series that are
    written; and when a cycle closes, the series have cycle lists and a
    second has a positive number of steps. *)
Definition error_ready (fe : dolfin) (is_tent : bool) (velocity : array) (p : problem)
    (sol : array) (nL2 nH1 : R) : Prop :=
  solution (ec p) = Some sol
  /\ analytic_v_norm_L2 (ec p) = Some nL2 /\ nL2 <> 0
  /\ analytic_v_norm_H1 (ec p) = Some nH1 /\ nH1 <> 0
  /\ 0 <= assemble_L2_sq fe velocity sol
  /\ 0 <= assemble_H1semi_sq fe velocity sol
  /\ (exists l2 l1,
        listDict p !! (if is_tent then "u2L2" else "u_L2") = Some l2
        /\ listDict p !! (if is_tent then "u2H1" else "u_H1") = Some l1
        /\ (truthy (isWholeSecond (clk p)) = true ->
              is_Some (slist l2) /\ is_Some (slist l1)))
  /\ (testErrControl (args p) = true ->
        is_Some (listDict p !! (if is_tent then "u2H1test" else "u_H1test"))
        /\ is_Some (listDict p !! (if is_tent then "u2L2test" else "u_L2test")))
  /\ (truthy (isWholeSecond (clk p)) = true ->
        exists s, stepsInSecond (clk p) = Some s /\ (0 < s)%Z).

(** The series [key] of the registry holds the step values [xs] and the
    cycle aggregates [cs]. *)
Definition series (p : problem) (key : string) (xs cs : list R) : Prop :=
  exists l, listDict p !! key = Some l /\ list_ l = xs /\ slist l = Some cs.

(** Between [p] and [p'] the value [x] was appended to the list of the
    series [key], and the aggregate [cycle], if any, to its cycle list. *)
Definition appended_to (p p' : problem) (key : string) (x : R) (cycle : option R) : Prop :=
  exists l l',
    listDict p !! key = Some l /\ listDict p' !! key = Some l'
    /\ list_ l' = list_ l ++ [x]
    /\ slist l' = match cycle with
                  | Some c => sl ← slist l; Some (sl ++ [c])
                  | None => slist l
                  end.

(** A method keeps a property of the object, whether it returns or raises. *)
Definition keeps {A} (I : problem -> Prop) (c : M A) : Prop :=
  forall p, I p -> I (c p).2.

(** The csv file at [path] starts with the rows [rows]. *)
Definition starts_with (path : string) (rows : list (list cell)) (p : problem) : Prop :=
  exists more, files p !! path = Some (Csv (rows ++ more)).

(** A point lies on a plane up to the tolerance. *)
Definition on_plane (tl : R) (obj : prepare_real_mesh.plane) (p : list R) : Prop :=
  Rabs (prepare_real_mesh.vec p (prepare_real_mesh.normal obj) - prepare_real_mesh.d obj) < tl.

(** The assumption stated at the head of prepare_real_mesh.py: no vertex of
    the facet lies on two of the planes. *)
Definition separated (tl : R) (planes : list prepare_real_mesh.plane)
    (vs : list (list R)) : Prop :=
  forall v o1 o2, In v vs -> In o1 planes -> In o2 planes ->
    on_plane tl o1 v -> on_plane tl o2 v -> o1 = o2.

(** Two planes through the origin that meet along the z axis, and a facet
    in the second plane with one vertex on that axis. *)
Definition crossing_planes : prepare_real_mesh.input :=
  {| prepare_real_mesh.inflows :=
       [ {| prepare_real_mesh.number := 2; prepare_real_mesh.normal := [0; 1; 0];
            prepare_real_mesh.center := [0; 0; 0] |} ];
     prepare_real_mesh.outflows :=
       [ {| prepare_real_mesh.number := 3; prepare_real_mesh.normal := [1; 0; 0];
            prepare_real_mesh.center := [0; 0; 0] |} ];
     prepare_real_mesh.number_list := [2; 3]%Z |}.

Definition corner_facet : list (list R) := [[0; 0; 0]; [0; 1; 0]; [0; 1; 1]].

(** Two parallel planes ten units apart, and a facet in the first. *)
Definition parallel_planes : prepare_real_mesh.input :=
  {| prepare_real_mesh.inflows :=
       [ {| prepare_real_mesh.number := 2; prepare_real_mesh.normal := [0; 0; 1];
            prepare_real_mesh.center := [0; 0; 0] |} ];
     prepare_real_mesh.outflows :=
       [ {| prepare_real_mesh.number := 3; prepare_real_mesh.normal := [0; 0; 1];
            prepare_real_mesh.center := [0; 0; 10] |} ];
     prepare_real_mesh.number_list := [2; 3]%Z |}.

Definition inlet_facet : list (list R) := [[0; 0; 0]; [1; 0; 0]; [0; 1; 0]].


(** ** A small run *)

(** One pass of a solver's time loop as the problem object sees it: the time
    is advanced, then the divergence and the error of the corrected velocity
    are recorded.  (The solvers are not part of these sources.) *)
Definition solver_step (fe : dolfin) (t : R) (n : Z) (velocity : array) : M unit :=
  _ ← Problem.update_time fe t n;
  _ ← GeneralProblem.compute_div fe false velocity;
  Problem.compute_err fe false velocity t.

(** The time loop from step [n] on, one velocity per step, with the time
    [n * dt] at step [n]. *)
Fixpoint time_loop (fe : dolfin) (dt : R) (n : Z) (velocities : list array) : M unit :=
  match velocities with
  | [] => skip
  | velocity :: rest =>
      _ ← solver_step fe (IZR n * dt) n velocity;
      time_loop fe dt (n + 1) rest
  end.

(** A solution space with a single node: three dofs, the third one axial. *)
Definition one_node : space := {| dim := 3; sub2_dofs := [2%nat] |}.

(** Precomputed fields on that node: a unit parabolic part, no modes. *)
Definition steady_store : gmap string array :=
  list_to_map
    (("parab", [1])
     :: flat_map (fun i => [(Problem.numbered "real" i, [0]);
                            (Problem.numbered "imag" i, [0])]) (seq 0 8)).

(** The coefficient [i] of a field. *)
Definition coef (f : array) (i : nat) : R := default 0 (f !! i).

(** A stand-in for dolfin on that space: the divergence norm reads the
    first coefficient of a field, all other norms the axial one, and the
    error integrals are the squared axial difference. *)
Definition probe : dolfin :=
  {| norm_L2 := fun f => coef f 2;
     norm_H1 := fun f => coef f 2;
     norm_Hdiv0 := fun f => coef f 0;
     assemble_L2_sq := fun v s => (coef v 2 - coef s 2) * (coef v 2 - coef s 2);
     assemble_H1semi_sq := fun v s => 0;
     assemble_H1wall_sq := fun v s => (coef v 2 - coef s 2) * (coef v 2 - coef s 2);
     assemble_wall_sq := fun s => coef s 2 * coef s 2;
     errornorm_L2 := fun v s => coef v 2 - coef s 2;
     errornorm_H1 := fun v s => coef v 2 - coef s 2 |}.

(** A run of two seconds with four steps each, on rank [rank]. *)
Definition quarter_steps : arguments :=
  {| arg_error := doEC; arg_save := noSave; arg_savespace := 1; arg_nu := 1;
     arg_onset := 0; arg_factor := 1; meta_name := "run"; meta_dt := 0.25;
     meta_time := 2; meta_dt_ms := 250 |}.

(** A partial solution on two axial nodes of a six-dimensional space. *)
Definition two_nodes : precomputed :=
  {| space_dim := 6; dofs2 := [2%nat; 5%nat]; bessel_parabolic := Some [1; 2];
     bessel_real := map (fun i => [INR i; 0]) (seq 0 8);
     bessel_complex := map (fun i => [0; INR i]) (seq 0 8);
     coefs_exp := [-8; -6; -4; -2; 2; 4; 6; 8]%Z |}.

(** A run with steps of 0.3 seconds. *)
Definition third_steps : arguments :=
  {| arg_error := doEC; arg_save := noSave; arg_savespace := 1; arg_nu := 1;
     arg_onset := 0; arg_factor := 1; meta_name := "run"; meta_dt := 0.3;
     meta_time := 3; meta_dt_ms := 300 |}.

(** The problem after [__init__] and [initialize]. *)
Definition initialized_with (a : arguments) (rank : nat) : problem :=
  (Problem.initialize one_node steady_store 1 1 1 (Problem.init rank a)).2.

Definition initialized (rank : nat) : problem := initialized_with quarter_steps rank.

(** The problem of the small run after its first call of [update_time]. *)
Definition first_step : problem :=
  (Problem.update_time probe (IZR 1 * 0.25) 1 (initialized 0)).2.

(** What the run keeps: the object stays ready for the next step with four
    steps in a second, its arguments, partial solution and threshold are
    those of the initialised problem, the divergence series holds [xd] and
    [cd], and the three velocity error series hold [xe] and [ce]. *)
Definition accounted (p : problem) (xd cd xe ce : list R) : Prop :=
  step_ready probe p 4
  /\ args p = args (initialized 0)
  /\ basis p = basis (initialized 0)
  /\ divergence_treshold (ec p) = 10
  /\ series p "d" xd cd
  /\ series p "u_L2" xe ce
  /\ series p "u_H1" xe ce
  /\ series p "u_H1w" xe ce.

(** Velocities whose divergence norm and whose error against the analytic
    solution are both [x]. *)
Definition off_by (x : R) : array := [x; 0; 1 + x].

(** * Proofs *)

Lemma py_div_ok (a b : R) : b <> 0 -> py_div a b = Ret (a / b).
Proof. intros Hb. unfold py_div. destruct (Req_dec_T b 0); [contradiction | reflexivity]. Qed.

Lemma py_div_zero (a : R) : py_div a 0 = Raise ZeroDivisionError.
Proof. unfold py_div. destruct (Req_dec_T 0 0); [reflexivity | contradiction]. Qed.

Lemma py_sqrt_ok (x : R) : 0 <= x -> py_sqrt x = Ret (sqrt x).
Proof. intros Hx. unfold py_sqrt. destruct (Rlt_dec x 0); [lra | reflexivity]. Qed.

Lemma Rgtb_true (x y : R) : Rgtb x y = true <-> x > y.
Proof. unfold Rgtb. destruct (Rgt_dec x y); split; intros; try easy. Qed.

Lemma Rgtb_false (x y : R) : Rgtb x y = false <-> ~ x > y.
Proof. unfold Rgtb. destruct (Rgt_dec x y); split; intros; try easy. Qed.

Lemma Rltb_true (x y : R) : Rltb x y = true <-> x < y.
Proof. unfold Rltb. destruct (Rlt_dec x y); split; intros; try easy. Qed.

Lemma Rltb_false (x y : R) : Rltb x y = false <-> ~ x < y.
Proof. unfold Rltb. destruct (Rlt_dec x y); split; intros; try easy. Qed.

(** Rounding of a non-negative number: the nearest integer, halves up. *)
Lemma py_round_nonneg (x : R) (z : Z) :
  0 <= x -> (py_round x = z <-> IZR z - / 2 <= x < IZR z + / 2).
Proof.
  intros Hx. unfold py_round. destruct (Rle_dec 0 x) as [_ | ?]; [| contradiction].
  split.
  - intros <-. pose proof (Zfloor_bound (x + / 2)). lra.
  - intros H. apply Zfloor_eq. lra.
Qed.

Lemma py_round_IZR (z : Z) : py_round (IZR z) = z.
Proof.
  unfold py_round. destruct (Rle_dec 0 (IZR z)).
  - apply Zfloor_eq. lra.
  - apply Zceil_eq. lra.
Qed.

Lemma Rabs_le_iff (a b : R) : Rabs a <= b <-> - b <= a <= b.
Proof. unfold Rabs. destruct (Rcase_abs a); lra. Qed.

Lemma Rabs_lt_iff (a b : R) : Rabs a < b <-> - b < a < b.
Proof. unfold Rabs. destruct (Rcase_abs a); lra. Qed.

Lemma cos_period_Z (x : R) (m : Z) : cos (x + 2 * IZR m * PI) = cos x.
Proof.
  destruct m as [| q | q].
  - f_equal. lra.
  - replace (IZR (Z.pos q)) with (INR (Pos.to_nat q))
      by now rewrite INR_IZR_INZ, positive_nat_Z.
    apply cos_period.
  - rewrite <- (cos_period (x + 2 * IZR (Z.neg q) * PI) (Pos.to_nat q)).
    f_equal. replace (INR (Pos.to_nat q)) with (IZR (Z.pos q))
      by now rewrite INR_IZR_INZ, positive_nat_Z.
    change (Z.neg q) with (- Z.pos q)%Z. rewrite opp_IZR. lra.
Qed.

Lemma sin_period_Z (x : R) (m : Z) : sin (x + 2 * IZR m * PI) = sin x.
Proof.
  destruct m as [| q | q].
  - f_equal. lra.
  - replace (IZR (Z.pos q)) with (INR (Pos.to_nat q))
      by now rewrite INR_IZR_INZ, positive_nat_Z.
    apply sin_period.
  - rewrite <- (sin_period (x + 2 * IZR (Z.neg q) * PI) (Pos.to_nat q)).
    f_equal. replace (INR (Pos.to_nat q)) with (IZR (Z.pos q))
      by now rewrite INR_IZR_INZ, positive_nat_Z.
    change (Z.neg q) with (- Z.pos q)%Z. rewrite opp_IZR. lra.
Qed.

(** An even frequency index makes a mode 1-periodic in time. *)
Lemma cos_even_mode (k : Z) (t : R) :
  Z.even k = true -> cos (IZR k * PI * (t + 1)) = cos (IZR k * PI * t).
Proof.
  intros Hk. apply Zeven_bool_iff, Zeven_ex in Hk. destruct Hk as [m ->].
  rewrite <- (cos_period_Z (IZR (2 * m) * PI * t) m). f_equal.
  rewrite mult_IZR. lra.
Qed.

Lemma sin_even_mode (k : Z) (t : R) :
  Z.even k = true -> sin (IZR k * PI * (t + 1)) = sin (IZR k * PI * t).
Proof.
  intros Hk. apply Zeven_bool_iff, Zeven_ex in Hk. destruct Hk as [m ->].
  rewrite <- (sin_period_Z (IZR (2 * m) * PI * t) m). f_equal.
  rewrite mult_IZR. lra.
Qed.

Lemma frequencies_even : Forall (fun k => Z.even k = true) womersleyBC.frequencies.
Proof. unfold womersleyBC.frequencies. repeat constructor. Qed.

Section PressureGradient.
Import womersleyBC.

(** Claim C9.  The analytic pressure gradient is a closed-form function
    of the time and the scale factor and has the period 1: for every
    calibration, every factor and every time [t] its value at [t + 1] is
    its value at [t], because every frequency index of the eight modes is
    even. *)
Theorem analytic_pressure_grad_periodic (cal : calibration) (factor t : R) :
  analytic_pressure_grad cal factor (t + 1) = analytic_pressure_grad cal factor t.
Proof.
  unfold analytic_pressure_grad. do 3 f_equal.
  apply map_ext_Forall. eapply Forall_impl; [apply frequencies_even |].
  intros k Hk. cbv beta. now rewrite cos_even_mode, sin_even_mode.
Qed.

Lemma Cexp_I_even_mode (k : Z) (t : R) :
  Z.even k = true -> Cexp_I (IZR k * PI * (t + 1)) = Cexp_I (IZR k * PI * t).
Proof. intros Hk. unfold Cexp_I. now rewrite cos_even_mode, sin_even_mode. Qed.

Lemma mode_periodic besselj0 a b w k r tm :
  Z.even k = true -> mode besselj0 a b w k r (tm + 1) = mode besselj0 a b w k r tm.
Proof. intros Hk. unfold mode. now rewrite Cexp_I_even_mode. Qed.

Lemma u_periodic besselj0 (r tm : R) : u besselj0 r (tm + 1) = u besselj0 r tm.
Proof. unfold u. now rewrite !mode_periodic. Qed.

End PressureGradient.

Section Profile.
Import womersleyBC.

Lemma near_spec (x x0 : R) : near x x0 = true <-> Rabs (x - x0) <= DOLFIN_EPS.
Proof.
  unfold near. split.
  - destruct (Rle_dec (x0 - DOLFIN_EPS) x); [| discriminate].
    destruct (Rle_dec x (x0 + DOLFIN_EPS)); [| discriminate].
    intros _. apply Rabs_le_iff. lra.
  - intros H. apply Rabs_le_iff in H.
    destruct (Rle_dec (x0 - DOLFIN_EPS) x); [| lra].
    destruct (Rle_dec x (x0 + DOLFIN_EPS)); [reflexivity | lra].
Qed.

(** Claim C7, as the code has it.  For every time, every factor and
    every Bessel function, [eval] writes zero to all three components at
    every point whose radius is within [3e-16] of the radius 5 of the
    cylinder: the tolerance is the one of dolfin's [near], not a tenth of
    the shortest edge of a mesh. *)
Theorem eval_zero_at_wall (besselj0 : C -> C) (factor t : R) (x : R * R * R) :
  Rabs (sqrt (x.1.1 * x.1.1 + x.1.2 * x.1.2) - 5) <= 3e-16 ->
  eval besselj0 factor t x = (0, 0, 0).
Proof.
  intros H. unfold eval.
  replace (near _ R_cylinder) with true; [reflexivity |].
  symmetry. apply near_spec. unfold R_cylinder, DOLFIN_EPS. 
  replace 5.0 with 5 by lra. exact H.
Qed.

(** Claim C7, an instance: the point (3, 4, 7) lies on the wall. *)
Lemma eval_zero_at_wall_witness :
  Rabs (sqrt ((3, 4, 7).1.1 * (3, 4, 7).1.1 + (3, 4, 7).1.2 * (3, 4, 7).1.2) - 5) <= 3e-16
  /\ eval (fun z => z) 2 1 (3, 4, 7) = (0, 0, 0).
Proof.
  assert (H : Rabs (sqrt ((3, 4, 7).1.1 * (3, 4, 7).1.1
                          + (3, 4, 7).1.2 * (3, 4, 7).1.2) - 5) <= 3e-16).
  { cbn [fst snd]. replace (3 * 3 + 4 * 4) with (5 * 5) by lra.
    rewrite sqrt_square by lra. rewrite Rminus_diag, Rabs_R0. lra. }
  split; [exact H | exact (eval_zero_at_wall (fun z => z) 2 1 (3, 4, 7) H)].
Defined.

Lemma edge_min_single : prepare_real_mesh.edge_min [1] = 1.
Proof.
  unfold prepare_real_mesh.edge_min. cbn [fold_left].
  replace (Rltb 1 1000) with true; [reflexivity |].
  symmetry. apply Rltb_true. lra.
Qed.

(** *** The profile away from the wall *)

Lemma re_Cadd (z w : C) : re (Cadd z w) = re z + re w.
Proof. reflexivity. Qed.

Lemma re_RtoC (x : R) : re (RtoC x) = x.
Proof. reflexivity. Qed.

Lemma re_scale (c : R) (z : C) : re (Cmul (RtoC c) z) = c * re z.
Proof. destruct z as [x y]. unfold re, Cmul, RtoC. cbn [fst snd]. ring. Qed.

(** Half a turn more negates [exp(I * theta)]. *)
Lemma cos_odd_turn (x : R) (m : Z) : cos (x + (2 * IZR m + 1) * PI) = - cos x.
Proof.
  replace (x + (2 * IZR m + 1) * PI) with (x + PI + 2 * IZR m * PI) by ring.
  rewrite cos_period_Z. apply neg_cos.
Qed.

Lemma sin_odd_turn (x : R) (m : Z) : sin (x + (2 * IZR m + 1) * PI) = - sin x.
Proof.
  replace (x + (2 * IZR m + 1) * PI) with (x + PI + 2 * IZR m * PI) by ring.
  rewrite sin_period_Z. apply neg_sin.
Qed.

Section Modes.
Variable besselj0 : C -> C.

(** A shift in time by which the phase of a mode grows by an odd multiple
    of pi negates the mode. *)
Lemma mode_shift (a b w : C) (k : Z) (r s : R) (m : Z) :
  IZR k * s = 2 * IZR m + 1 ->
  forall tm, re (mode besselj0 a b w k r (tm + s)) = - re (mode besselj0 a b w k r tm).
Proof.
  intros Hs tm. unfold mode.
  set (amp := Cmul a (Cadd (Cmul b (besselj0 (Cmul (RtoC r) w))) (RtoC 1))).
  destruct amp as [x y]. unfold re, Cmul, Cexp_I. cbn [fst snd].
  replace (IZR k * PI * (tm + s)) with (IZR k * PI * tm + (2 * IZR m + 1) * PI)
    by (rewrite <- Hs; ring).
  rewrite cos_odd_turn, sin_odd_turn. ring.
Qed.

(** The sum of a function of time over the eight times 0, 1/8, ..., 7/8. *)
Local Abbreviation eighths f :=
  (f 0 + f (1 / 8) + f (2 / 8) + f (3 / 8) + f (4 / 8) + f (5 / 8) + f (6 / 8) + f (7 / 8)).

Lemma eighths_shift_eighth (f : R -> R) :
  (forall tm, f (tm + 1 / 8) = - f tm) -> eighths f = 0.
Proof.
  intros H.
  replace (1 / 8) with (0 + 1 / 8) by lra. replace (3 / 8) with (2 / 8 + 1 / 8) by lra.
  replace (5 / 8) with (4 / 8 + 1 / 8) by lra. replace (7 / 8) with (6 / 8 + 1 / 8) by lra.
  rewrite !H. lra.
Qed.

Lemma eighths_shift_quarter (f : R -> R) :
  (forall tm, f (tm + 1 / 4) = - f tm) -> eighths f = 0.
Proof.
  intros H.
  replace (2 / 8) with (0 + 1 / 4) by lra. replace (3 / 8) with (1 / 8 + 1 / 4) by lra.
  replace (6 / 8) with (4 / 8 + 1 / 4) by lra. replace (7 / 8) with (5 / 8 + 1 / 4) by lra.
  rewrite !H. lra.
Qed.

Lemma eighths_shift_half (f : R -> R) :
  (forall tm, f (tm + 1 / 2) = - f tm) -> eighths f = 0.
Proof.
  intros H.
  replace (4 / 8) with (0 + 1 / 2) by lra. replace (5 / 8) with (1 / 8 + 1 / 2) by lra.
  replace (6 / 8) with (2 / 8 + 1 / 2) by lra. replace (7 / 8) with (3 / 8 + 1 / 2) by lra.
  rewrite !H. lra.
Qed.

(** The real part of the profile: its steady part and the eight modes. *)
Lemma re_u (r tm : R) :
  re (u besselj0 r tm)
  = -43.2592 * r ^ 2 + 1081.48
    + (re (mode besselj0 (-11.799, 0.60076) (0.000735686, -0.000528035)
             (1.84042, 1.84042) (-8) r tm)
       + re (mode besselj0 (-11.799, -0.60076) (0.000735686, 0.000528035)
               (1.84042, -1.84042) 8 r tm))
    + (re (mode besselj0 (-26.3758, -4.65265) (Copp (0.000814244, -0.00277126))
             (1.59385, -1.59385) 6 r tm)
       + re (mode besselj0 (-26.3758, 4.65265) (Copp (0.000814244, 0.00277126))
               (1.59385, 1.59385) (-6) r tm))
    + (re (mode besselj0 (-51.6771, 27.3133) (Copp (0.0110653, -0.00200668))
             (1.30138, 1.30138) (-4) r tm)
       + re (mode besselj0 (-51.6771, -27.3133) (Copp (0.0110653, 0.00200668))
               (1.30138, -1.30138) 4 r tm))
    + (re (mode besselj0 (-33.1594, -95.2423) (0.0314408, -0.0549981)
             (0.920212, -0.920212) 2 r tm)
       + re (mode besselj0 (-33.1594, 95.2423) (0.0314408, 0.0549981)
               (0.920212, 0.920212) (-2) r tm)).
Proof. unfold u. rewrite !re_Cadd, !re_RtoC. ring. Qed.

(** Over the eight times the modes cancel and the steady part remains,
    whatever the Bessel function is. *)
Lemma eighths_re_u (r : R) :
  eighths (fun tm => re (u besselj0 r tm)) = 8 * (-43.2592 * r ^ 2 + 1081.48).
Proof.
  pose proof (eighths_shift_eighth _
    (mode_shift (-11.799, 0.60076) (0.000735686, -0.000528035)
       (1.84042, 1.84042) (-8) r (1 / 8) (-1) ltac:(lra))) as H1.
  pose proof (eighths_shift_eighth _
    (mode_shift (-11.799, -0.60076) (0.000735686, 0.000528035)
       (1.84042, -1.84042) 8 r (1 / 8) 0 ltac:(lra))) as H2.
  pose proof (eighths_shift_half _
    (mode_shift (-26.3758, -4.65265) (Copp (0.000814244, -0.00277126))
       (1.59385, -1.59385) 6 r (1 / 2) 1 ltac:(lra))) as H3.
  pose proof (eighths_shift_half _
    (mode_shift (-26.3758, 4.65265) (Copp (0.000814244, 0.00277126))
       (1.59385, 1.59385) (-6) r (1 / 2) (-2) ltac:(lra))) as H4.
  pose proof (eighths_shift_quarter _
    (mode_shift (-51.6771, 27.3133) (Copp (0.0110653, -0.00200668))
       (1.30138, 1.30138) (-4) r (1 / 4) (-1) ltac:(lra))) as H5.
  pose proof (eighths_shift_quarter _
    (mode_shift (-51.6771, -27.3133) (Copp (0.0110653, 0.00200668))
       (1.30138, -1.30138) 4 r (1 / 4) 0 ltac:(lra))) as H6.
  pose proof (eighths_shift_half _
    (mode_shift (-33.1594, -95.2423) (0.0314408, -0.0549981)
       (0.920212, -0.920212) 2 r (1 / 2) 0 ltac:(lra))) as H7.
  pose proof (eighths_shift_half _
    (mode_shift (-33.1594, 95.2423) (0.0314408, 0.0549981)
       (0.920212, 0.920212) (-2) r (1 / 2) (-1) ltac:(lra))) as H8.
  cbv beta in *. rewrite !re_u.
  repeat match goal with
         | |- context [re (mode ?j ?a ?b ?w ?k ?r ?tm)] =>
             let x := fresh "x" in
             set (x := re (mode j a b w k r tm)) in *
         end.
  lra.
Qed.

(** Among the eight times there is one at which the profile is not zero
    at the radius 4.95. *)
Lemma u_nonzero_inside :
  exists tm, re (u besselj0 4.95 tm) <> 0.
Proof.
  pose proof (eighths_re_u 4.95) as H. cbv beta in H.
  destruct (Req_dec (re (u besselj0 4.95 0)) 0) as [E0 | N]; [| eauto].
  destruct (Req_dec (re (u besselj0 4.95 (1 / 8))) 0) as [E1 | N]; [| eauto].
  destruct (Req_dec (re (u besselj0 4.95 (2 / 8))) 0) as [E2 | N]; [| eauto].
  destruct (Req_dec (re (u besselj0 4.95 (3 / 8))) 0) as [E3 | N]; [| eauto].
  destruct (Req_dec (re (u besselj0 4.95 (4 / 8))) 0) as [E4 | N]; [| eauto].
  destruct (Req_dec (re (u besselj0 4.95 (5 / 8))) 0) as [E5 | N]; [| eauto].
  destruct (Req_dec (re (u besselj0 4.95 (6 / 8))) 0) as [E6 | N]; [| eauto].
  destruct (Req_dec (re (u besselj0 4.95 (7 / 8))) 0) as [E7 | N]; [| eauto].
  rewrite E0, E1, E2, E3, E4, E5, E6, E7 in H. lra.
Qed.

End Modes.

(** Claim C7 as stated fails.  On a mesh whose shortest edge is 1 the
    point (4.95, 0, 0) is within a tenth of that edge of the wall of
    radius 5, and whatever the Bessel function is there is a time at
    which the profile with the factor 1 is not zero there. *)
Lemma eval_nonzero_within_mesh_tolerance :
  Rabs (sqrt (4.95 * 4.95 + 0 * 0) - R_cylinder) <= prepare_real_mesh.tol [1]
  /\ forall besselj0 : C -> C, exists t, eval besselj0 1 t (4.95, 0, 0) <> (0, 0, 0).
Proof.
  assert (Hrad : sqrt (4.95 * 4.95 + 0 * 0) = 4.95).
  { replace (4.95 * 4.95 + 0 * 0) with (4.95 * 4.95) by lra. apply sqrt_square. lra. }
  split.
  - rewrite Hrad. unfold prepare_real_mesh.tol. rewrite edge_min_single.
    unfold R_cylinder. apply Rabs_le_iff. lra.
  - intros besselj0. destruct (u_nonzero_inside besselj0) as [t Ht]. exists t.
    unfold eval, u_lambda. change ((4.95, 0, 0).1.1) with 4.95.
    change ((4.95, 0, 0).1.2) with 0. rewrite Hrad, re_scale.
    replace (near 4.95 R_cylinder) with false.
    2:{ symmetry. apply not_true_is_false. rewrite near_spec.
        unfold R_cylinder, DOLFIN_EPS. intros H. apply Rabs_le_iff in H. lra. }
    revert Ht. generalize (re (u besselj0 4.95 t)). intros v Hv H.
    injection H as H. apply Hv. lra.
Qed.

End Profile.

Lemma mapO_app {A B} (f : A -> outcome B) (l1 l2 : list A) :
  mapO f (l1 ++ l2) = bs1 ← mapO f l1; bs2 ← mapO f l2; Ret (bs1 ++ bs2).
Proof.
  induction l1 as [| a l1 IH]; cbn.
  - destruct (mapO f l2); reflexivity.
  - destruct (f a) as [b |]; cbn; [| reflexivity].
    rewrite IH. destruct (mapO f l1); cbn; [| reflexivity].
    destruct (mapO f l2); reflexivity.
Qed.

Section RelativeRow.
Variables xs norm_list : list R.

Local Abbreviation quotient := (GeneralProblem.quotient_at xs norm_list).

Lemma relative_row_prefix (k : nat) :
  (k <= length xs)%nat -> (k <= length norm_list)%nat ->
  Forall (fun n => n <> 0) (take k norm_list) ->
  mapO quotient (seq 0 k) = Ret (zip_with Rdiv (take k xs) (take k norm_list)).
Proof.
  induction k as [| k IH]; intros Hx Hn Hnz; [reflexivity |].
  rewrite seq_S, mapO_app. cbn [Nat.add].
  destruct (lookup_lt_is_Some_2 xs k) as [x Ex]; [lia |].
  destruct (lookup_lt_is_Some_2 norm_list k) as [n En]; [lia |].
  rewrite (take_S_r _ _ _ Ex). rewrite (take_S_r _ _ _ En) in Hnz |- *.
  apply Forall_app in Hnz as [Hnz Hn0]. apply Forall_inv in Hn0.
  rewrite IH; [| lia | lia | assumption]. cbn.
  unfold GeneralProblem.quotient_at, py_getitem. rewrite Ex, En. cbn. rewrite py_div_ok by assumption. cbn.
  rewrite zip_with_app by (rewrite !length_take; lia). reflexivity.
Qed.

Lemma relative_row_ok :
  (length xs <= length norm_list)%nat ->
  Forall (fun n => n <> 0) (take (length xs) norm_list) ->
  GeneralProblem.relative_row xs norm_list = Ret (zip_with Rdiv xs norm_list).
Proof.
  intros Hlen Hnz. unfold GeneralProblem.relative_row.
  rewrite relative_row_prefix by (lia || assumption).
  rewrite firstn_all. f_equal. apply zip_with_take_r.
Qed.

Lemma relative_row_short :
  (length norm_list < length xs)%nat ->
  Forall (fun n => n <> 0) norm_list ->
  GeneralProblem.relative_row xs norm_list = Raise IndexError.
Proof.
  intros Hlen Hnz. unfold GeneralProblem.relative_row.
  replace (length xs) with (length norm_list + S (length xs - S (length norm_list)))%nat by lia.
  rewrite seq_app, mapO_app, relative_row_prefix; try lia.
  2:{ now rewrite firstn_all. }
  assert (Hq : quotient (length norm_list) = Raise IndexError).
  { unfold GeneralProblem.quotient_at, py_getitem.
    destruct (lookup_lt_is_Some_2 xs (length norm_list)) as [x ->]; [lia |].
    rewrite (lookup_ge_None_2 norm_list) by lia. reflexivity. }
  cbn. rewrite Hq. reflexivity.
Qed.

End RelativeRow.

(** Claim C6, as the code has it.  With a reference list that has no
    zero, the relative row of [report] is the list of the quotients
    [xs[i] / norm_list[i]] over the full length of the series when the
    reference is at least as long as the series, and the row fails with
    [IndexError] when the reference is shorter; the code does not compare
    the lengths otherwise. *)
Theorem relative_row_reference_length (xs norm_list : list R) :
  Forall (fun n => n <> 0) norm_list ->
  GeneralProblem.relative_row xs norm_list =
    if decide (length xs <= length norm_list)%nat then Ret (zip_with Rdiv xs norm_list)
    else Raise IndexError.
Proof.
  intros Hnz. destruct (decide _) as [Hlen | Hlen].
  - apply relative_row_ok; [exact Hlen |]. now apply Forall_take.
  - apply relative_row_short; [lia | exact Hnz].
Qed.

(** Claim C6, an instance: a series of two values against a reference of
    one value. *)
Lemma relative_row_reference_length_witness :
  Forall (fun n => n <> 0) [2]
  /\ GeneralProblem.relative_row [6; 8] [2] = Raise IndexError.
Proof.
  assert (H : Forall (fun n => n <> 0) [2]) by (repeat constructor; lra).
  split; [exact H | exact (relative_row_reference_length [6; 8] [2] H)].
Defined.

(** Claim C6 as stated fails: a series of length 2 against a reference
    of length 3 gives the two quotients and no error. *)
Lemma relative_row_longer_reference_no_error :
  length [1; 1] <> length [1; 1; 1] /\
  GeneralProblem.relative_row [1; 1] [1; 1; 1] = Ret [1 / 1; 1 / 1].
Proof.
  split; [cbn; lia |].
  rewrite relative_row_ok; [reflexivity | cbn; lia |].
  cbn. repeat constructor; lra.
Qed.

Section Mesh.
Import prepare_real_mesh.

Lemma Rltb_on_plane tl obj p :
  Rltb (Rabs (vec p (normal obj) - d obj)) tl = true <-> on_plane tl obj p.
Proof. apply Rltb_true. Qed.

Lemma first_plane_Some tl planes p k :
  first_plane tl planes p = Some k ->
  exists obj, In obj planes /\ number obj = k /\ on_plane tl obj p.
Proof.
  induction planes as [| o rest IH]; cbn; [discriminate |].
  destruct (Rltb _ tl) eqn:E.
  - intros [= <-]. exists o. rewrite Rltb_on_plane in E. auto.
  - intros H. destruct (IH H) as (obj & Hin & Hk & Hon). exists obj. auto.
Qed.

Lemma first_plane_None tl planes p :
  first_plane tl planes p = None <-> forall obj, In obj planes -> ~ on_plane tl obj p.
Proof.
  induction planes as [| o rest IH]; cbn.
  - split; [intros _ obj [] | reflexivity].
  - destruct (Rltb _ tl) eqn:E.
    + split; [discriminate |]. intros H. exfalso. apply (H o); [now left |].
      now apply Rltb_on_plane.
    + rewrite IH. split.
      * intros H obj [<- | Hin]; [| now apply H].
        rewrite <- Rltb_on_plane. now rewrite E.
      * intros H obj Hin. apply H. now right.
Qed.

(** A point that lies on one plane only is attributed to that plane. *)
Lemma first_plane_unique tl planes p obj :
  In obj planes -> on_plane tl obj p ->
  (forall o, In o planes -> on_plane tl o p -> o = obj) ->
  first_plane tl planes p = Some (number obj).
Proof.
  induction planes as [| o rest IH]; cbn; [intros [] |].
  intros Hin Hon Huniq. destruct (Rltb _ tl) eqn:E.
  - rewrite Rltb_on_plane in E. now rewrite (Huniq o (or_introl eq_refl) E).
  - destruct Hin as [-> | Hin].
    + rewrite <- Rltb_on_plane in Hon. congruence.
    + apply IH; auto.
Qed.

Lemma try_numbers_find inp tl vs :
  try_numbers inp tl vs = List.find (all_in inp tl vs) (number_list inp).
Proof.
  unfold try_numbers. generalize (number_list inp) as l.
  assert (Hsome : forall l k,
    fold_left (fun set num => match set with
                              | Some _ => set
                              | None => if all_in inp tl vs num then Some num else None
                              end) l (Some k) = Some k).
  { induction l; cbn; auto. }
  induction l as [| n l IH]; cbn; [reflexivity |].
  destruct (all_in inp tl vs n); [apply Hsome | apply IH].
Qed.

Lemma all_in_spec inp tl vs num :
  all_in inp tl vs num = true <->
  forall v, In v vs -> point_in_subdomain inp tl v = Some num.
Proof.
  unfold all_in. rewrite forallb_forall. split; intros H v Hv.
  - specialize (H v Hv). now apply bool_decide_eq_true in H.
  - apply bool_decide_eq_true. now apply H.
Qed.

Lemma nonempty_In {A} (l : list A) : l <> [] -> exists x, In x l.
Proof. destruct l as [| x l]; [contradiction | intros _; exists x; now left]. Qed.

Section Facet.
Variables (inp : input) (tl : R) (vs : list (list R)).
Hypothesis Hvs : vs <> [].
Hypothesis Hnodup : NoDup (map number (chain inp)).
Hypothesis Hsep : separated tl (chain inp) vs.

Lemma number_inj o1 o2 :
  In o1 (chain inp) -> In o2 (chain inp) -> number o1 = number o2 -> o1 = o2.
Proof.
  revert Hnodup. generalize (chain inp) as l.
  induction l as [| o l IH]; cbn; [intros _ [] |].
  intros Hnd. apply NoDup_cons in Hnd as [Hnotin Hnd].
  intros [<- | H1] [<- | H2] Heq; auto.
  - exfalso. apply Hnotin. rewrite Heq. apply list_elem_of_In, in_map, H2.
  - exfalso. apply Hnotin. rewrite <- Heq. apply list_elem_of_In, in_map, H1.
Qed.

Lemma all_in_on_plane obj :
  In obj (chain inp) ->
  (all_in inp tl vs (number obj) = true <-> forall v, In v vs -> on_plane tl obj v).
Proof.
  intros Hobj. rewrite all_in_spec. split; intros H v Hv.
  - destruct (first_plane_Some _ _ _ _ (H v Hv)) as (o & Ho & Hnum & Hon).
    now rewrite <- (number_inj o obj Ho Hobj Hnum).
  - apply first_plane_unique; auto.
    intros o Ho Hon. apply (Hsep v); auto.
Qed.

Lemma all_in_functional k1 k2 :
  all_in inp tl vs k1 = true -> all_in inp tl vs k2 = true -> k1 = k2.
Proof.
  rewrite !all_in_spec. destruct (nonempty_In vs Hvs) as [v Hv].
  intros H1 H2. specialize (H1 v Hv). specialize (H2 v Hv). congruence.
Qed.

Lemma mark_plane obj :
  In obj (chain inp) -> In (number obj) (number_list inp) -> number obj <> 1%Z ->
  (mark inp tl vs = number obj <-> forall v, In v vs -> on_plane tl obj v).
Proof.
  intros Hobj Hlist Hwall. rewrite <- all_in_on_plane by assumption.
  unfold mark. rewrite try_numbers_find.
  destruct (List.find _ _) as [k |] eqn:E.
  - apply find_some in E as [_ Hk]. split.
    + now intros <-.
    + intros H. now apply all_in_functional.
  - split; [intros H; congruence |].
    intros H. pose proof (find_none _ _ E _ Hlist). congruence.
Qed.

Lemma mark_wall :
  (forall obj, In obj (chain inp) -> ~ forall v, In v vs -> on_plane tl obj v) ->
  mark inp tl vs = 1%Z.
Proof.
  intros Hno. unfold mark. rewrite try_numbers_find.
  destruct (List.find _ _) as [k |] eqn:E; [| reflexivity].
  exfalso. apply find_some in E as [_ Hk].
  destruct (nonempty_In vs Hvs) as [v Hv].
  pose proof Hk as Hk'. rewrite all_in_spec in Hk'.
  destruct (first_plane_Some _ _ _ _ (Hk' v Hv)) as (o & Ho & Hnum & _).
  apply (Hno o Ho). subst k. now apply all_in_on_plane.
Qed.

End Facet.

Lemma edge_min_fold (lengths : list R) (m0 : R) :
  let r := fold_left (fun m l => if Rltb l m then l else m) lengths m0 in
  (r = m0 \/ In r lengths) /\ r <= m0 /\ forall l, In l lengths -> r <= l.
Proof.
  revert m0. induction lengths as [| x ls IH]; intros m0; cbn.
  - split; [now left |]. split; [lra | intros l []].
  - specialize (IH (if Rltb x m0 then x else m0)). cbn in IH.
    destruct IH as (Hin & Hle & Hall).
    destruct (Rltb x m0) eqn:E.
    + apply Rltb_true in E. split; [right; destruct Hin; auto |].
      split; [lra |]. intros l [<- | Hl]; [lra | now apply Hall].
    + apply Rltb_false in E. split; [destruct Hin; auto |].
      split; [lra |]. intros l [<- | Hl]; [lra | now apply Hall].
Qed.

(** With an edge shorter than 1000 the tolerance is a tenth of the
    shortest edge. *)
Lemma tol_shortest_edge (lengths : list R) :
  Exists (fun l => l < 1000) lengths ->
  In (10 * tol lengths) lengths /\ forall l, In l lengths -> 10 * tol lengths <= l.
Proof.
  intros Hex. unfold tol, edge_min.
  destruct (edge_min_fold lengths 1000) as (Hin & Hle & Hall). cbn zeta in *.
  set (r := fold_left _ lengths 1000) in *.
  replace (10 * (r / 10)) with r by lra.
  split; [| exact Hall]. destruct Hin as [Heq | Hin]; [| exact Hin].
  exfalso. apply Exists_exists in Hex as (l & Hl & Hlt).
  apply list_elem_of_In in Hl. specialize (Hall l Hl). lra.
Qed.

(** Claim C5, as the code has it.  Let the planes have distinct numbers,
    all in [number_list] and none equal to 1, and let no vertex of the
    facet be within tolerance of two planes with different numbers.  Then
    every exterior facet with a vertex gets exactly one mark; the mark is
    the number of a plane if and only if every vertex of the facet is
    within tolerance of that plane; a facet that matches no plane gets
    the wall mark 1; and the tolerance is a tenth of the shortest edge
    whenever some edge is shorter than 1000, the initial value of the
    search. *)
Theorem facet_function_classifies (inp : input) (lengths : list R)
    (mesh_facets : list facet) (i : nat) (f : facet) :
  mesh_facets !! i = Some f -> exterior f = true ->
  vertices f <> [] ->
  NoDup (map number (chain inp)) ->
  (forall obj, In obj (chain inp) -> In (number obj) (number_list inp) /\ number obj <> 1%Z) ->
  separated (tol lengths) (chain inp) (vertices f) ->
  exists id,
    facet_function inp lengths mesh_facets !! i = Some (Some id)
    /\ (forall obj, In obj (chain inp) ->
          (id = number obj <-> forall v, In v (vertices f) -> on_plane (tol lengths) obj v))
    /\ ((forall obj, In obj (chain inp) ->
           ~ forall v, In v (vertices f) -> on_plane (tol lengths) obj v) -> id = 1%Z)
    /\ (Exists (fun l => l < 1000) lengths ->
          In (10 * tol lengths) lengths /\ forall l, In l lengths -> 10 * tol lengths <= l).
Proof.
  intros Hf Hext Hvs Hnd Hnum Hsep.
  exists (mark inp (tol lengths) (vertices f)). split; [| split; [| split]].
  - unfold facet_function. rewrite list_lookup_fmap, Hf. cbn. now rewrite Hext.
  - intros obj Hobj. destruct (Hnum obj Hobj). now apply mark_plane.
  - now apply mark_wall.
  - apply tol_shortest_edge.
Qed.

Ltac unfold_vec :=
  unfold on_plane, d, vec, py_sum;
  cbn [map zip zip_with fold_left normal center number fst snd].

Ltac Rltb_decide :=
  match goal with
  | |- context [Rltb ?a ?b] =>
      first [ rewrite (proj2 (Rltb_true a b)) by (apply Rabs_lt_iff; lra)
            | rewrite (proj2 (Rltb_false a b))
                by (let H := fresh in intros H; apply Rabs_lt_iff in H; lra) ]
  end.

Lemma tol_unit_edge : tol [1] = 0.1.
Proof.
  unfold tol, edge_min. cbn [fold_left].
  rewrite (proj2 (Rltb_true 1 1000)) by lra. lra.
Qed.

(** Claim C5 as stated fails: with two crossing planes, every vertex of
    the corner facet is within tolerance of the plane 3, but the vertex
    on the crossing line is attributed to the plane 2, which comes first,
    and the facet is marked as wall. *)
Lemma corner_facet_marked_wall :
  (forall v, In v corner_facet ->
     on_plane (tol [1]) {| number := 3; normal := [1; 0; 0]; center := [0; 0; 0] |} v)
  /\ facet_function crossing_planes [1] [ {| exterior := true; vertices := corner_facet |} ]
     = [Some 1%Z].
Proof.
  rewrite tol_unit_edge. split.
  - intros v [<- | [<- | [<- | []]]]; unfold_vec; apply Rabs_lt_iff; lra.
  - unfold facet_function. cbn [map exterior vertices]. rewrite tol_unit_edge.
    unfold mark, try_numbers, all_in, point_in_subdomain, chain, crossing_planes, corner_facet.
    cbn [inflows outflows number_list app fold_left forallb first_plane].
    unfold_vec. repeat Rltb_decide. reflexivity.
Qed.

(** No point of the inlet facet is near both of the parallel planes. *)
Lemma parallel_planes_separated :
  separated (tol [1]) (chain parallel_planes) inlet_facet.
Proof.
  rewrite tol_unit_edge. intros v o1 o2 Hv Ho1 Ho2.
  destruct Ho1 as [<- | [<- | []]]; destruct Ho2 as [<- | [<- | []]];
    try reflexivity;
    destruct Hv as [<- | [<- | [<- | []]]]; unfold_vec;
    intros H1 H2; apply Rabs_lt_iff in H1; apply Rabs_lt_iff in H2; lra.
Defined.

(** Claim C5, an instance: a facet on the inlet of two parallel planes. *)
Lemma facet_function_classifies_witness :
  separated (tol [1]) (chain parallel_planes) inlet_facet
  /\ exists id,
       facet_function parallel_planes [1] [ {| exterior := true; vertices := inlet_facet |} ]
         !! 0%nat = Some (Some id)
       /\ (forall obj, In obj (chain parallel_planes) ->
             (id = number obj <->
              forall v, In v inlet_facet -> on_plane (tol [1]) obj v))
       /\ ((forall obj, In obj (chain parallel_planes) ->
              ~ forall v, In v inlet_facet -> on_plane (tol [1]) obj v) -> id = 1%Z)
       /\ (Exists (fun l => l < 1000) [1] ->
             In (10 * tol [1]) [1] /\ forall l, In l [1] -> 10 * tol [1] <= l).
Proof.
  split; [exact parallel_planes_separated |].
  apply (facet_function_classifies parallel_planes [1]
           [ {| exterior := true; vertices := inlet_facet |} ] 0
           {| exterior := true; vertices := inlet_facet |}).
  - reflexivity.
  - reflexivity.
  - discriminate.
  - cbn. apply NoDup_cons. split; [| apply NoDup_singleton].
    intros H. apply list_elem_of_singleton in H. discriminate.
  - intros obj [<- | [<- | []]]; cbn; split; auto; discriminate.
  - exact parallel_planes_separated.
Defined.

End Mesh.

(** *** Index arrays *)

Lemma py_getitem_Some {A} (l : list A) (i : nat) (a : A) :
  l !! i = Some a -> py_getitem l i = Ret a.
Proof. unfold py_getitem. now intros ->. Qed.

Lemma mapO_cons {A B} (f : A -> outcome B) (x : A) (xs : list A) :
  mapO f (x :: xs) = b ← f x; bs ← mapO f xs; Ret (b :: bs).
Proof. reflexivity. Qed.

Lemma bind_Ret {A B} (a : A) (k : A -> outcome B) : (Ret a ≫= k) = k a.
Proof. reflexivity. Qed.

Lemma getitems_ok (v : array) (idx : list nat) :
  (forall n, In n idx -> (n < length v)%nat) ->
  exists cur, getitems v idx = Ret cur /\ length cur = length idx
              /\ forall j n, idx !! j = Some n -> cur !! j = v !! n.
Proof.
  unfold getitems. induction idx as [| i idx IH]; intros Hin.
  - exists []. repeat split; auto. intros j n H. now rewrite lookup_nil in H.
  - destruct IH as (cur & E & Hlen & Hcur); [intros n Hn; apply Hin; now right |].
    destruct (lookup_lt_is_Some_2 v i) as [x Ex]; [apply Hin; now left |].
    exists (x :: cur). rewrite mapO_cons, (py_getitem_Some _ _ _ Ex), bind_Ret, E, bind_Ret.
    repeat split; [cbn; now rewrite Hlen |].
    intros [| j] n; cbn; [intros [= <-]; now symmetry | apply Hcur].
Qed.

Lemma getitems_ext (v v' : array) (idx : list nat) :
  (forall n, In n idx -> v' !! n = v !! n) -> getitems v' idx = getitems v idx.
Proof.
  unfold getitems. induction idx as [| i idx IH]; intros H; [reflexivity |].
  rewrite !mapO_cons.
  assert (E : py_getitem v' i = py_getitem v i).
  { unfold py_getitem. rewrite (H i); [reflexivity | now left]. }
  rewrite E, IH; [reflexivity |]. intros n Hn. apply H. now right.
Qed.

Lemma setitems_ok (idx : list nat) : forall (v vals : array),
  NoDup idx -> (forall n, In n idx -> (n < length v)%nat) -> length vals = length idx ->
  exists v', setitems v idx vals = Ret v' /\ length v' = length v
             /\ getitems v' idx = Ret vals
             /\ forall n, ~ In n idx -> v' !! n = v !! n.
Proof.
  induction idx as [| i idx IH]; intros v vals Hnd Hin Hlen.
  - destruct vals; [| discriminate]. exists v. repeat split; auto.
  - destruct vals as [| x vals]; [discriminate |].
    apply NoDup_cons in Hnd as [Hi Hnd]. rewrite list_elem_of_In in Hi.
    cbn [setitems]. destruct (decide (i < length v)%nat) as [Hlt | Hge].
    2:{ exfalso. apply Hge, Hin. now left. }
    destruct (IH (<[i := x]> v) vals Hnd) as (v' & E & Hl & Hget & Hoff).
    { intros n Hn. rewrite length_insert. apply Hin. now right. }
    { cbn in Hlen. lia. }
    exists v'. rewrite E. rewrite length_insert in Hl.
    repeat split; auto.
    + unfold getitems in *. rewrite mapO_cons.
      rewrite (py_getitem_Some v' i x), bind_Ret, Hget; [reflexivity |].
      rewrite (Hoff i Hi). now apply list_lookup_insert_eq.
    + intros n Hn. rewrite Hoff by (intros H; apply Hn; now right).
      apply list_lookup_insert_ne. intros ->. apply Hn. now left.
Qed.

Lemma iadd_at_ok (v : array) (idx : list nat) (arr cur : array) :
  NoDup idx -> (forall n, In n idx -> (n < length v)%nat) ->
  getitems v idx = Ret cur -> length arr = length idx ->
  exists v', iadd_at v idx arr = Ret v' /\ length v' = length v
             /\ getitems v' idx = Ret (zip_with Rplus cur arr)
             /\ forall n, ~ In n idx -> v' !! n = v !! n.
Proof.
  intros Hnd Hin Hcur Hlen. unfold iadd_at. rewrite Hcur, bind_Ret.
  destruct (getitems_ok v idx Hin) as (cur' & E & Hl & _).
  rewrite Hcur in E. injection E as <-.
  destruct (decide (length cur = length arr)) as [_ | Hne]; [| lia].
  apply setitems_ok; auto. rewrite length_zip_with. lia.
Qed.

(** *** The assembled Womersley solution *)

Lemma getitems_replicate (n : nat) (idx : list nat) :
  (forall i, In i idx -> (i < n)%nat) ->
  getitems (replicate n 0) idx = Ret (replicate (length idx) 0).
Proof.
  intros Hin. unfold getitems. induction idx as [| i idx IH]; [reflexivity |].
  rewrite mapO_cons, (py_getitem_Some _ i 0), bind_Ret, IH; [reflexivity | |].
  - intros j Hj. apply Hin. now right.
  - apply lookup_replicate_2, Hin. now left.
Qed.

Section Assemble.
Variables (a : settings) (b : precomputed) (t : R).
Hypothesis Hb : loaded b.

Lemma loaded_mode (idx : nat) :
  (idx < 8)%nat ->
  exists k re im,
    coefs_exp b !! idx = Some k /\ bessel_real b !! idx = Some re
    /\ bessel_complex b !! idx = Some im
    /\ length re = length (dofs2 b) /\ length im = length (dofs2 b).
Proof.
  destruct Hb as (_ & _ & _ & Hk & Hre & Him & Hlr & Hli). intros Hidx.
  destruct (lookup_lt_is_Some_2 (coefs_exp b) idx) as [k Ek]; [rewrite Hk; cbn; lia |].
  destruct (lookup_lt_is_Some_2 (bessel_real b) idx) as [re Ere]; [lia |].
  destruct (lookup_lt_is_Some_2 (bessel_complex b) idx) as [im Eim]; [lia |].
  exists k, re, im. repeat split; auto.
  - exact (Forall_lookup_1 _ _ _ _ Hre Ere).
  - exact (Forall_lookup_1 _ _ _ _ Him Eim).
Qed.

Lemma iadd_at_axial (sol cur arr : array) :
  axial_state b sol cur -> length arr = length (dofs2 b) ->
  exists sol', iadd_at sol (dofs2 b) arr = Ret sol'
               /\ axial_state b sol' (zip_with Rplus cur arr).
Proof.
  intros (Hlen & Hget & Hcur & Hoff) Harr.
  destruct Hb as (Hnd & Hin & _).
  destruct (iadd_at_ok sol (dofs2 b) arr cur) as (sol' & E & Hl & Hg & Ho); auto.
  { intros n Hn. rewrite Hlen. now apply Hin. }
  exists sol'. split; [exact E |]. repeat split.
  - congruence.
  - exact Hg.
  - rewrite length_zip_with. lia.
  - intros n Hn Hnot. rewrite Ho by assumption. now apply Hoff.
Qed.

Lemma add_mode_ok (sol cur : array) (idx : nat) :
  (idx < 8)%nat -> axial_state b sol cur ->
  exists sol', Problem.add_mode a b t sol idx = Ret sol'
               /\ axial_state b sol' (mode_increment a b t cur idx).
Proof.
  intros Hidx Hst. destruct (loaded_mode idx Hidx) as (k & re & im & Ek & Ere & Eim & Lre & Lim).
  unfold Problem.add_mode, mode_increment.
  rewrite (py_getitem_Some _ _ _ Ek), (py_getitem_Some _ _ _ Ere),
    (py_getitem_Some _ _ _ Eim), Ek, Ere, Eim, !bind_Ret. cbn [default].
  destruct (iadd_at_axial sol cur (scal (factor a * cos (IZR k * PI * t)) re) Hst)
    as (sol1 & E1 & Hst1).
  { unfold scal. now rewrite length_map. }
  rewrite E1, !bind_Ret.
  apply iadd_at_axial; [exact Hst1 |]. unfold scal. now rewrite length_map.
Qed.

Lemma foldO_modes (idxs : list nat) : forall (sol cur : array),
  Forall (fun idx => (idx < 8)%nat) idxs -> axial_state b sol cur ->
  exists sol', foldO (Problem.add_mode a b t) idxs sol = Ret sol'
               /\ axial_state b sol' (fold_left (mode_increment a b t) idxs cur).
Proof.
  induction idxs as [| idx idxs IH]; intros sol cur Hall Hst.
  - exists sol. split; [reflexivity | exact Hst].
  - apply Forall_cons in Hall as [Hidx Hall].
    destruct (add_mode_ok sol cur idx Hidx Hst) as (sol1 & E1 & Hst1).
    cbn [foldO fold_left]. rewrite E1, bind_Ret. now apply IH.
Qed.

(** The axial values after the whole loop. *)
Lemma assemble_solution_axial :
  exists sol cur,
    Problem.assemble_solution a b t = Ret sol
    /\ axial_state b sol cur
    /\ cur = fold_left (mode_increment a b t) (seq 0 8)
               (zip_with Rplus (replicate (length (dofs2 b)) 0)
                  (scal (factor a) (default [] (bessel_parabolic b)))).
Proof.
  pose proof Hb as (Hnd & Hin & (parab & Ep & Lp) & _).
  unfold Problem.assemble_solution. rewrite Ep. cbn [unwrap default]. rewrite bind_Ret.
  destruct (iadd_at_axial (replicate (space_dim b) 0) (replicate (length (dofs2 b)) 0)
              (scal (factor a) parab)) as (sol0 & E0 & Hst0).
  { repeat split.
    - apply length_replicate.
    - now apply getitems_replicate.
    - apply length_replicate.
    - intros n Hn _. now apply lookup_replicate_2. }
  { unfold scal. now rewrite length_map. }
  rewrite E0, bind_Ret.
  destruct (foldO_modes (seq 0 8) sol0 _ ltac:(repeat constructor) Hst0) as (sol & E & Hst).
  exists sol. eexists. split; [exact E |]. split; [exact Hst | reflexivity].
Qed.

End Assemble.

Section AxialValues.
Variables (a : settings) (b : precomputed) (t : R).
Hypothesis Hb : loaded b.

(** The contribution of mode [idx] at node [j]. *)
Local Abbreviation mode_term idx j :=
  (factor a * cos (IZR (default 0%Z (coefs_exp b !! idx)) * PI * t)
     * node (bessel_real b !! idx) j
   + factor a * - sin (IZR (default 0%Z (coefs_exp b !! idx)) * PI * t)
     * node (bessel_complex b !! idx) j).

Lemma scal_lookup (c : R) (arr : array) (j : nat) :
  (j < length arr)%nat -> scal c arr !! j = Some (c * node (Some arr) j).
Proof.
  intros Hj. destruct (lookup_lt_is_Some_2 arr j Hj) as [x Ex].
  unfold scal, node. cbn. rewrite Ex. cbn.
  change (map (fun x => c * x) arr) with ((fun x => c * x) <$> arr).
  now rewrite list_lookup_fmap, Ex.
Qed.

Lemma mode_increment_lookup (cur : array) (idx j : nat) (c : R) :
  (idx < 8)%nat -> (j < length (dofs2 b))%nat -> cur !! j = Some c ->
  mode_increment a b t cur idx !! j = Some (c + mode_term idx j).
Proof.
  intros Hidx Hj Hc.
  destruct (loaded_mode b Hb idx Hidx) as (k & re & im & Ek & Ere & Eim & Lre & Lim).
  unfold mode_increment. rewrite Ek, Ere, Eim. cbn [default from_option id].
  rewrite !lookup_zip_with, Hc.
  rewrite (scal_lookup _ re), (scal_lookup _ im) by lia. cbn. f_equal. ring.
Qed.

Lemma modes_lookup (idxs : list nat) : forall (cur : array) (j : nat) (c : R),
  Forall (fun idx => (idx < 8)%nat) idxs -> (j < length (dofs2 b))%nat ->
  cur !! j = Some c ->
  fold_left (mode_increment a b t) idxs cur !! j
  = Some (fold_left (fun acc idx => acc + mode_term idx j) idxs c).
Proof.
  induction idxs as [| idx idxs IH]; intros cur j c Hall Hj Hc; [exact Hc |].
  apply Forall_cons in Hall as [Hidx Hall]. cbn [fold_left].
  apply IH; auto. now apply mode_increment_lookup.
Qed.

Lemma modes_sum (j : nat) :
  fold_left (fun acc idx => acc + mode_term idx j) (seq 0 8)
    (0 + factor a * node (bessel_parabolic b) j)
  = spec_axial a b t j.
Proof. unfold spec_axial, py_sum. cbn [seq map fold_left]. cbv zeta. ring. Qed.

End AxialValues.

(** The assembled field node by node. *)
Lemma assemble_solution_values (a : settings) (b : precomputed) (t : R) :
  loaded b ->
  exists sol,
    Problem.assemble_solution a b t = Ret sol
    /\ length sol = space_dim b
    /\ (forall j n, dofs2 b !! j = Some n -> sol !! n = Some (spec_axial a b t j))
    /\ (forall n, (n < space_dim b)%nat -> ~ In n (dofs2 b) -> sol !! n = Some 0).
Proof.
  intros Hb. destruct (assemble_solution_axial a b t Hb) as (sol & cur & E & Hst & Hcur).
  destruct Hst as (Hlen & Hget & Hl & Hoff).
  exists sol. split; [exact E |]. split; [exact Hlen |]. split; [| exact Hoff].
  intros j n Hj.
  pose proof Hb as (_ & Hin & (parab & Ep & Lp) & _).
  destruct (getitems_ok sol (dofs2 b)) as (cur' & E' & _ & Hc).
  { intros m Hm. rewrite Hlen. now apply Hin. }
  rewrite Hget in E'. injection E' as <-. rewrite <- (Hc j n Hj), Hcur.
  assert (Hlt : (j < length (dofs2 b))%nat) by (eapply lookup_lt_Some; eauto).
  rewrite (modes_lookup a b t Hb (seq 0 8) _ j (0 + factor a * node (bessel_parabolic b) j));
    [| repeat constructor | exact Hlt |].
  - now rewrite modes_sum.
  - rewrite lookup_zip_with, lookup_replicate_2 by exact Hlt. cbn.
    rewrite Ep. cbn [default from_option id]. rewrite (scal_lookup _ parab) by lia.
    reflexivity.
Qed.

(** Claim C2.  For every time [t], [assemble_solution] on a loaded
    partial solution returns a field of the dimension of the solution
    space whose value at the [j]-th axial dof is [factor * (parabolic[j]
    + sum over the eight modes k in -8, -6, -4, -2, 2, 4, 6, 8 of
    cos(k*pi*t) * real_k[j] - sin(k*pi*t) * imag_k[j])] and whose value
    at every other dof, those of the two other components, is zero. *)
Theorem assemble_solution_axial_field (a : settings) (b : precomputed) (t : R) :
  loaded b ->
  exists sol,
    Problem.assemble_solution a b t = Ret sol
    /\ length sol = space_dim b
    /\ (forall j n, dofs2 b !! j = Some n -> sol !! n = Some (spec_axial a b t j))
    /\ (forall n, (n < space_dim b)%nat -> ~ In n (dofs2 b) -> sol !! n = Some 0).
Proof. exact (assemble_solution_values a b t). Qed.

(** *** The analytic field on two nodes *)

Lemma two_nodes_loaded : loaded two_nodes.
Proof.
  unfold loaded.
  cbn [dofs2 space_dim bessel_parabolic coefs_exp bessel_real bessel_complex two_nodes].
  split.
  { apply NoDup_cons; split; [| apply NoDup_singleton].
    intros H. apply list_elem_of_singleton in H. discriminate. }
  split; [intros n [<- | [<- | []]]; lia |].
  split; [exists [1; 2]; split; reflexivity |]. split; [reflexivity |].
  repeat split; repeat constructor.
Qed.

(** Claim C2, an instance: the field on two axial nodes of a space of
    dimension six, at the time 0.25. *)
Lemma assemble_solution_axial_field_witness :
  loaded two_nodes
  /\ exists sol,
       Problem.assemble_solution (args (Problem.init 0 quarter_steps)) two_nodes 0.25 = Ret sol
       /\ length sol = 6%nat
       /\ sol !! 5%nat
          = Some (spec_axial (args (Problem.init 0 quarter_steps)) two_nodes 0.25 1)
       /\ sol !! 0%nat = Some 0.
Proof.
  split; [exact two_nodes_loaded |].
  destruct (assemble_solution_axial_field (args (Problem.init 0 quarter_steps)) two_nodes 0.25
              two_nodes_loaded) as (sol & E & Hlen & Hax & Hoff).
  exists sol. split; [exact E |]. split; [exact Hlen |].
  split; [apply Hax; reflexivity |].
  apply Hoff; [cbn; lia |]. cbn. intros [H | [H | []]]; discriminate.
Defined.

(** *** Running a method *)

Lemma bind_run {A B} (c : M A) (k : A -> M B) (p p' : problem) (a : A) :
  c p = (Ret a, p') -> (c ≫= k) p = k a p'.
Proof. unfold mbind, M_bind. now intros ->. Qed.

Lemma bind_raise {A B} (c : M A) (k : A -> M B) (p p' : problem) (e : exn) :
  c p = (Raise e, p') -> (c ≫= k) p = (Raise e, p').
Proof. unfold mbind, M_bind. now intros ->. Qed.

Lemma get_run {A} (f : problem -> A) (p : problem) : get f p = (Ret (f p), p).
Proof. reflexivity. Qed.

Lemma modify_run (f : problem -> problem) (p : problem) : modify f p = (Ret tt, f p).
Proof. reflexivity. Qed.

Lemma lift_run {A} (c : outcome A) (p : problem) : lift c p = (c, p).
Proof. reflexivity. Qed.

Lemma skip_run (p : problem) : skip p = (Ret tt, p).
Proof. reflexivity. Qed.

Lemma listDict_get_run (key : string) (p : problem) (l : functional) :
  listDict p !! key = Some l -> listDict_get key p = (Ret l, p).
Proof. intros H. unfold listDict_get. rewrite (bind_run _ _ p p (listDict p)) by reflexivity.
  now rewrite H. Qed.

Lemma listDict_get_missing (key : string) (p : problem) :
  listDict p !! key = None -> listDict_get key p = (Raise (KeyError key), p).
Proof. intros H. unfold listDict_get. rewrite (bind_run _ _ p p (listDict p)) by reflexivity.
  now rewrite H. Qed.

Lemma slist_get_run (key : string) (p : problem) (l : functional) (sl : list R) :
  listDict p !! key = Some l -> slist l = Some sl -> slist_get key p = (Ret sl, p).
Proof.
  intros H Hs. unfold slist_get. rewrite (bind_run _ _ p p l) by now apply listDict_get_run.
  now rewrite Hs.
Qed.

Lemma mean_sq_window_run (xs : list R) (p : problem) (s : Z) :
  stepsInSecond (clk p) = Some s -> s <> 0%Z ->
  mean_sq_window xs p
  = (Ret (sum_sq (py_slice xs (N0 (clk p)) (N1 (clk p))) / IZR s), p).
Proof.
  intros Hs Hnz. unfold mean_sq_window.
  rewrite (bind_run _ _ p p (clk p)) by reflexivity. cbv zeta.
  rewrite Hs. cbn [unwrap].
  rewrite (bind_run _ _ p p s) by reflexivity.
  rewrite lift_run, py_div_ok; [reflexivity |].
  intros H. apply eq_IZR_R0 in H. contradiction.
Qed.

Lemma sum_sq_from (xs : list R) : forall acc,
  fold_left Rplus (map (fun i => i * i) xs) acc = acc + sum_sq xs.
Proof.
  unfold sum_sq, py_sum. induction xs as [| x xs IH]; intros acc; cbn [map fold_left].
  - lra.
  - rewrite IH, (IH (0 + x * x)). lra.
Qed.

Lemma sum_sq_cons (x : R) (xs : list R) : sum_sq (x :: xs) = x * x + sum_sq xs.
Proof. unfold sum_sq at 1, py_sum. cbn [map fold_left]. rewrite sum_sq_from. lra. Qed.

Lemma sum_sq_nonneg (xs : list R) : 0 <= sum_sq xs.
Proof.
  induction xs as [| x xs IH]; [unfold sum_sq, py_sum; cbn; lra |].
  rewrite sum_sq_cons. nra.
Qed.

Lemma rms_window_run (xs : list R) (p : problem) (s : Z) :
  stepsInSecond (clk p) = Some s -> (0 < s)%Z ->
  rms_window xs p
  = (Ret (sqrt (sum_sq (py_slice xs (N0 (clk p)) (N1 (clk p))) / IZR s)), p).
Proof.
  intros Hs Hpos. unfold rms_window.
  erewrite bind_run by (apply mean_sq_window_run; [eassumption | lia]).
  rewrite lift_run, py_sqrt_ok; [reflexivity |].
  apply Rmult_le_pos; [apply sum_sq_nonneg |].
  apply Rlt_le, Rinv_0_lt_compat, IZR_lt. exact Hpos.
Qed.

(** Reading an attribute after an assignment. *)
Ltac attrs :=
  cbn [args basis clk ec listDict shared files
       append_to_list append_to_slist on_clk on_ec on_basis on_entry
       write_file append_row remove_file shared_append
       set_listDict set_clk set_ec set_basis set_files] in *.

Lemma list_append_run (key : string) (x : R) (p : problem) :
  list_append key x p = (Ret tt, append_to_list key x p).
Proof. reflexivity. Qed.

Lemma slist_append_run (key : string) (x : R) (p : problem) :
  slist_append key x p = (Ret tt, append_to_slist key x p).
Proof. reflexivity. Qed.

(** One step of a method whose first command returns. *)
Ltac run_with tac := erewrite bind_run by tac.
Ltac run :=
  first [ run_with ltac:(apply get_run)
        | run_with ltac:(apply modify_run)
        | run_with ltac:(apply list_append_run)
        | run_with ltac:(apply slist_append_run)
        | run_with ltac:(apply skip_run)
        | run_with ltac:(apply listDict_get_run; attrs; eassumption) ].

(** The registry after [list_append] and [slist_append]. *)
Lemma lookup_append_to_list (key : string) (x : R) (p : problem) (l : functional) :
  listDict p !! key = Some l ->
  listDict (append_to_list key x p) !! key = Some (set_list (list_ l ++ [x]) l).
Proof. intros H. attrs. now rewrite lookup_alter_eq, H. Qed.

Lemma lookup_append_to_list_ne (key key' : string) (x : R) (p : problem) :
  key <> key' -> listDict (append_to_list key x p) !! key' = listDict p !! key'.
Proof. intros H. attrs. now rewrite lookup_alter_ne. Qed.

Lemma lookup_append_to_slist (key : string) (x : R) (p : problem) (l : functional)
    (sl : list R) :
  listDict p !! key = Some l -> slist l = Some sl ->
  listDict (append_to_slist key x p) !! key = Some (set_slist (sl ++ [x]) l).
Proof. intros H Hs. attrs. rewrite lookup_alter_eq, H. cbn. now rewrite Hs. Qed.

Lemma lookup_append_to_slist_ne (key key' : string) (x : R) (p : problem) :
  key <> key' -> listDict (append_to_slist key x p) !! key' = listDict p !! key'.
Proof. intros H. attrs. now rewrite lookup_alter_ne. Qed.

Section ComputeDiv.
Variables (fe : dolfin) (is_tent : bool) (velocity : array) (p : problem) (l : functional).
Local Abbreviation key := (if is_tent then "d2" else "d").
Hypothesis Hl : listDict p !! key = Some l.

(** Between whole seconds only the step value is appended. *)
Lemma compute_div_step :
  truthy (isWholeSecond (clk p)) = false ->
  GeneralProblem.compute_div fe is_tent velocity p
  = (Ret tt, append_to_list key (norm_Hdiv0 fe velocity) p).
Proof.
  intros Hw. unfold GeneralProblem.compute_div. cbv zeta.
  do 3 run. attrs. now rewrite Hw.
Qed.

(** At a whole second the mean of the squares over the window is appended
    to the cycle list: there is no square root. *)
Lemma compute_div_whole (sl : list R) (s : Z) :
  truthy (isWholeSecond (clk p)) = true ->
  slist l = Some sl -> stepsInSecond (clk p) = Some s -> s <> 0%Z ->
  GeneralProblem.compute_div fe is_tent velocity p
  = (Ret tt,
     append_to_slist key
       (sum_sq (py_slice (list_ l ++ [norm_Hdiv0 fe velocity]) (N0 (clk p)) (N1 (clk p)))
        / IZR s)
       (append_to_list key (norm_Hdiv0 fe velocity) p)).
Proof.
  intros Hw Hsl Hs Hnz. unfold GeneralProblem.compute_div. cbv zeta.
  do 3 run. attrs. rewrite Hw.
  pose proof (lookup_append_to_list key (norm_Hdiv0 fe velocity) p l Hl) as H1.
  run_with ltac:(eapply slist_get_run; [exact H1 | exact Hsl]).
  run_with ltac:(apply listDict_get_run; exact H1).
  run_with ltac:(apply (mean_sq_window_run _ _ s); assumption).
  reflexivity.
Qed.

End ComputeDiv.

Lemma unwrap_Some {A} (a : A) : unwrap (Some a) = Ret a.
Proof. reflexivity. Qed.

Lemma outcome_bind_Ret {A B} (a : A) (k : A -> outcome B) : (Ret a ≫= k) = k a.
Proof. reflexivity. Qed.

Ltac run_lift := run_with ltac:(apply lift_run).

Section ComputeErr.
Variables (fe : dolfin) (is_tent : bool) (velocity : array) (t : R) (p : problem).
Variables (l2 l1 : functional) (sol : array) (nL2 nH1 : R) (s : Z) (sl2 sl1 : list R).
Local Abbreviation key_L2 := (if is_tent then "u2L2" else "u_L2").
Local Abbreviation key_H1 := (if is_tent then "u2H1" else "u_H1").
Local Abbreviation key_test_L2 := (if is_tent then "u2L2test" else "u_L2test").
Local Abbreviation key_test_H1 := (if is_tent then "u2H1test" else "u_H1test").
Local Abbreviation errorL2_sq := (assemble_L2_sq fe velocity sol).
Local Abbreviation errorH1seminorm_sq := (assemble_H1semi_sq fe velocity sol).
Local Abbreviation errorL2 := (sqrt errorL2_sq).
Local Abbreviation errorH1 := (sqrt (errorL2_sq + errorH1seminorm_sq)).
Local Abbreviation window xs := (py_slice xs (N0 (clk p)) (N1 (clk p))).

Hypothesis Hec : doErrControl (args p) = true.
Hypothesis Han : has_analytic_solution (args p) = true.
Hypothesis HL2 : listDict p !! key_L2 = Some l2.
Hypothesis HH1 : listDict p !! key_H1 = Some l1.
Hypothesis Hsol : solution (ec p) = Some sol.
Hypothesis HeL2 : 0 <= errorL2_sq.
Hypothesis HeH1 : 0 <= errorH1seminorm_sq.
Hypothesis HnL2 : analytic_v_norm_L2 (ec p) = Some nL2.
Hypothesis HnH1 : analytic_v_norm_H1 (ec p) = Some nH1.
Hypothesis HnzL2 : nL2 <> 0.
Hypothesis HnzH1 : nH1 <> 0.
Hypothesis Htest : testErrControl (args p) = true ->
  is_Some (listDict p !! key_test_H1) /\ is_Some (listDict p !! key_test_L2).
Hypothesis Hwhole : truthy (isWholeSecond (clk p)) = true ->
  stepsInSecond (clk p) = Some s /\ (0 < s)%Z /\ slist l2 = Some sl2 /\ slist l1 = Some sl1.

(** The object after the step values are recorded ... *)
Local Abbreviation recorded :=
  (append_to_list key_H1 errorH1
     (append_to_list key_L2 errorL2
        (on_ec (GeneralProblem.set_last_error (errorH1 / nH1)) p))).

(** ... after the test norms are recorded, in test mode ... *)
Local Abbreviation tested :=
  (if testErrControl (args p)
   then append_to_list key_test_H1 (errornorm_H1 fe velocity sol)
          (append_to_list key_test_L2 (errornorm_L2 fe velocity sol) recorded)
   else recorded).

(** ... and after the cycle is closed, at a whole second. *)
Local Abbreviation closed :=
  (if truthy (isWholeSecond (clk p))
   then append_to_slist key_H1 (sqrt (sum_sq (window (list_ l1 ++ [errorH1])) / IZR s))
          (append_to_slist key_L2 (sqrt (sum_sq (window (list_ l2 ++ [errorL2])) / IZR s))
             tested)
   else tested).

Lemma key_L2_H1 : key_L2 <> key_H1.
Proof. destruct is_tent; discriminate. Qed.

Lemma tested_attrs :
  clk tested = clk p /\ args tested = args p /\ basis tested = basis p
  /\ files tested = files p
  /\ ec tested = GeneralProblem.set_last_error (errorH1 / nH1) (ec p)
  /\ listDict tested !! key_L2 = Some (set_list (list_ l2 ++ [errorL2]) l2)
  /\ listDict tested !! key_H1 = Some (set_list (list_ l1 ++ [errorH1]) l1).
Proof.
  destruct (testErrControl (args p)); attrs; repeat split;
    rewrite ?lookup_alter_ne by (destruct is_tent; discriminate);
    rewrite lookup_alter_eq, ?lookup_alter_ne by (destruct is_tent; discriminate);
    rewrite ?lookup_alter_eq, ?HL2, ?HH1; reflexivity.
Qed.

(** The entries of the two error series after the call. *)
Lemma closed_attrs :
  clk closed = clk p /\ args closed = args p /\ basis closed = basis p
  /\ files closed = files p
  /\ ec closed = GeneralProblem.set_last_error (errorH1 / nH1) (ec p)
  /\ listDict closed !! key_L2
     = Some (if truthy (isWholeSecond (clk p))
             then set_slist
                    (sl2 ++ [sqrt (sum_sq (window (list_ l2 ++ [errorL2])) / IZR s)])
                    (set_list (list_ l2 ++ [errorL2]) l2)
             else set_list (list_ l2 ++ [errorL2]) l2)
  /\ listDict closed !! key_H1
     = Some (if truthy (isWholeSecond (clk p))
             then set_slist
                    (sl1 ++ [sqrt (sum_sq (window (list_ l1 ++ [errorH1])) / IZR s)])
                    (set_list (list_ l1 ++ [errorH1]) l1)
             else set_list (list_ l1 ++ [errorH1]) l1).
Proof.
  destruct tested_attrs as (Hclk & Hargs & Hbasis & Hfiles & Hect & HtL2 & HtH1).
  destruct (truthy (isWholeSecond (clk p))) eqn:Ew.
  - destruct (Hwhole eq_refl) as (Hs & Hpos & Hsl2 & Hsl1).
    set (T := tested) in *.
    do 5 (split; [assumption |]). split.
    + rewrite lookup_append_to_slist_ne by (apply not_eq_sym, key_L2_H1).
      now apply lookup_append_to_slist.
    + apply lookup_append_to_slist; [| exact Hsl1].
      now rewrite lookup_append_to_slist_ne by apply key_L2_H1.
  - repeat (split; [assumption |]). assumption.
Qed.

(** What [compute_err] does when nothing but the divergence test can fail:
    the step values, the test norms and the cycle aggregates are recorded,
    and then the relative H1 error is compared with the threshold. *)
Lemma compute_err_run :
  GeneralProblem.compute_err fe is_tent velocity t p
  = (if Rgtb (errorH1 / nH1) (divergence_treshold (ec p))
     then Raise (RuntimeError "STOPPED: Failed divergence test!") else Ret tt,
     closed).
Proof.
  unfold GeneralProblem.compute_err. run. rewrite Hec, Han. cbn [andb]. cbv zeta.
  do 3 run. rewrite Hsol, unwrap_Some. run_lift.
  rewrite !py_sqrt_ok by lra. do 3 run_lift.
  rewrite HnL2, HnH1, !unwrap_Some, !outcome_bind_Ret, !py_div_ok by assumption.
  do 2 run_lift. do 3 run.
  assert (Hstep : forall (k : unit -> M unit) st,
    st = recorded ->
    ((if testErrControl (args p)
      then listDict_get key_test_H1 ≫= (fun _ =>
           listDict_get key_test_L2 ≫= (fun _ =>
           list_append key_test_L2 (errornorm_L2 fe velocity sol) ≫= (fun _ =>
           list_append key_test_H1 (errornorm_H1 fe velocity sol))))
      else skip) ≫= k) st = k tt tested).
  { intros k st ->. destruct (testErrControl (args p)) eqn:E.
    - destruct (Htest eq_refl) as [[x1 E1] [x2 E2]].
      run_with ltac:(run_with ltac:(apply listDict_get_run; attrs;
                       rewrite !lookup_alter_ne by (destruct is_tent; discriminate);
                       exact E1);
                     run_with ltac:(apply listDict_get_run; attrs;
                       rewrite !lookup_alter_ne by (destruct is_tent; discriminate);
                       exact E2);
                     run; apply list_append_run).
      reflexivity.
    - run. reflexivity. }
  rewrite Hstep by reflexivity. clear Hstep.
  destruct tested_attrs as (Hclk & Hargs & Hbasis & _ & Hect & HtL2 & HtH1).
  run. rewrite Hclk.
  destruct (truthy (isWholeSecond (clk p))) eqn:Ew.
  - destruct (Hwhole eq_refl) as (Hs & Hpos & Hsl2 & Hsl1).
    run_with ltac:(
      run_with ltac:(eapply slist_get_run; [exact HtL2 | exact Hsl2]);
      run_with ltac:(apply listDict_get_run; exact HtL2);
      run_with ltac:(apply (rms_window_run _ _ s); [rewrite Hclk; exact Hs | exact Hpos]);
      run;
      run_with ltac:(eapply slist_get_run;
                     [ attrs; rewrite lookup_alter_ne by apply key_L2_H1; exact HtH1
                     | exact Hsl1 ]);
      run_with ltac:(apply listDict_get_run; attrs;
                     rewrite lookup_alter_ne by apply key_L2_H1; exact HtH1);
      run_with ltac:(apply (rms_window_run _ _ s); [attrs; rewrite Hclk; exact Hs | exact Hpos]);
      apply slist_append_run).
    run. attrs. rewrite Hclk, Hect. cbn [divergence_treshold GeneralProblem.set_last_error].
    destruct (Rgtb _ _); reflexivity.
  - run. run. rewrite Hect. cbn [divergence_treshold GeneralProblem.set_last_error].
    destruct (Rgtb _ _); reflexivity.
Qed.

End ComputeErr.

(** *** The whole-second test *)

(** The test of [Problem.update_time]. *)
Lemma closes_cycle_iff (t : R) :
  Rgtb t 0.5 && bool_decide ((py_round (t * 1000) mod 1000)%Z = 0%Z) = true
  <-> t > 0.5 /\ exists k : Z, IZR k - / 2000 <= t < IZR k + / 2000.
Proof.
  rewrite andb_true_iff, Rgtb_true, bool_decide_eq_true. split.
  - intros [Ht Hmod]. split; [exact Ht |].
    exists (py_round (t * 1000) / 1000)%Z.
    assert (Hr : py_round (t * 1000)
                 = (1000 * (py_round (t * 1000) / 1000))%Z).
    { rewrite (Z.div_mod (py_round (t * 1000)) 1000) at 1 by lia. lia. }
    pose proof (proj1 (py_round_nonneg (t * 1000) _ ltac:(lra)) eq_refl) as Hb.
    rewrite Hr, mult_IZR in Hb. lra.
  - intros [Ht [k Hk]]. split; [exact Ht |].
    assert (Hr : py_round (t * 1000) = (1000 * k)%Z).
    { apply py_round_nonneg; [lra |]. rewrite mult_IZR. lra. }
    rewrite Hr, Z.mul_comm. apply Z.mod_mul. lia.
Qed.

(** Within half a millisecond of the whole second [k], [k] is also the
    rounded time. *)
Lemma py_round_whole_second (t : R) (k : Z) :
  t > 0.5 -> IZR k - / 2000 <= t < IZR k + / 2000 -> py_round t = k /\ (1 <= k)%Z.
Proof.
  intros Ht Hk. split.
  - apply py_round_nonneg; lra.
  - assert (H : 0 < IZR k) by lra. apply lt_IZR in H. lia.
Qed.

(** The slice [xs[(k-1)*s : k*s]] of a list that has reached [k*s]
    entries: the [s] entries from index [(k-1)*s] on. *)
Lemma py_slice_window {A} (xs : list A) (k s : Z) :
  (1 <= k)%Z -> (0 <= s)%Z -> (Z.to_nat (k * s) <= length xs)%nat ->
  py_slice xs (Some ((k - 1) * s)%Z) (Some (k * s)%Z)
  = take (Z.to_nat s) (drop (Z.to_nat ((k - 1) * s)) xs).
Proof.
  intros Hk Hs Hlen. unfold py_slice, slice_bound.
  destruct (Z.ltb_spec ((k - 1) * s) 0); [nia |].
  destruct (Z.ltb_spec (k * s) 0); [nia |].
  rewrite !Nat.min_l by nia. f_equal. nia.
Qed.

(** *** [update_time] *)

Section BaseUpdateTime.
Variables (t : R) (n : Z) (p : problem).
Hypothesis Hsave : doSave (args p) = true -> save_nth (args p) <> 0%Z.

(** The base class sets the time, the step number and the save flag. *)
Lemma base_update_time_run :
  exists c1,
    GeneralProblem.update_time t n p = (Ret tt, set_clk c1 p)
    /\ actual_time c1 = Some t /\ step_number c1 = n
    /\ time_list c1 = time_list (clk p) ++ [t]
    /\ stepsInSecond c1 = stepsInSecond (clk p)
    /\ second_list c1 = second_list (clk p)
    /\ isWholeSecond c1 = isWholeSecond (clk p)
    /\ N0 c1 = N0 (clk p) /\ N1 c1 = N1 (clk p).
Proof.
  unfold GeneralProblem.update_time. run. run.
  destruct (doSave (args p)) eqn:Es.
  - assert (Hlift : exists save,
      (if decide (save_nth (args p) = 1%Z) then Ret true
       else if Rgtb t (1 - md_dt (args p) / 2) then Ret true
       else GeneralProblem.py_mod n (save_nth (args p))
              ≫= (fun r => Ret (bool_decide (r = 0%Z)))) = Ret save).
    { destruct (decide _); [eauto |]. destruct (Rgtb _ _); [eauto |].
      unfold GeneralProblem.py_mod. destruct (decide (save_nth (args p) = 0%Z)) as [E | _].
      - now apply Hsave in E.
      - eauto. }
    destruct Hlift as [save ->]. run_lift. rewrite modify_run.
    eexists. split; [reflexivity |]. repeat split.
  - rewrite skip_run. eexists. split; [reflexivity |]. repeat split.
Qed.

End BaseUpdateTime.

Section UpdateTime.
Variables (fe : dolfin) (t : R) (n : Z) (p : problem) (s : Z).
Hypothesis Hsave : doSave (args p) = true -> save_nth (args p) <> 0%Z.
Hypothesis Hs : stepsInSecond (clk p) = Some s.
Hypothesis Hb : loaded (basis p).
Hypothesis Hwall : forall sol, 0 <= assemble_wall_sq fe sol.
Hypothesis HkL2 : is_Some (listDict p !! "av_norm_L2").
Hypothesis HkH1 : is_Some (listDict p !! "av_norm_H1").
Hypothesis HkH1w : is_Some (listDict p !! "av_norm_H1w").

Local Abbreviation closes :=
  (Rgtb t 0.5 && bool_decide ((py_round (t * 1000) mod 1000)%Z = 0%Z)).

Lemma update_time_run :
  exists p' sol,
    Problem.update_time fe t n p = (Ret tt, p')
    /\ Problem.assemble_solution (args p) (basis p) t = Ret sol
    /\ args p' = args p /\ basis p' = basis p /\ shared p' = shared p
    /\ files p' = files p
    /\ ec p' = Problem.set_analytic sol (norm_L2 fe sol) (norm_H1 fe sol)
                 (sqrt (assemble_wall_sq fe sol)) (ec p)
    /\ listDict p'
       = alter (fun l => set_list (list_ l ++ [sqrt (assemble_wall_sq fe sol)]) l)
           "av_norm_H1w"
           (alter (fun l => set_list (list_ l ++ [norm_H1 fe sol]) l) "av_norm_H1"
              (alter (fun l => set_list (list_ l ++ [norm_L2 fe sol]) l) "av_norm_L2"
                 (listDict p)))
    /\ stepsInSecond (clk p') = Some s
    /\ actual_time (clk p') = Some t /\ step_number (clk p') = n
    /\ time_list (clk p') = time_list (clk p) ++ [t]
    /\ isWholeSecond (clk p') = Some closes
    /\ (if closes
        then N0 (clk p') = Some ((py_round t - 1) * s)%Z
             /\ N1 (clk p') = Some (py_round t * s)%Z
             /\ second_list (clk p') = second_list (clk p) ++ [py_round t]
        else N0 (clk p') = N0 (clk p) /\ N1 (clk p') = N1 (clk p)
             /\ second_list (clk p') = second_list (clk p)).
Proof.
  destruct (base_update_time_run t n p Hsave)
    as (c1 & E1 & Hat & Hsn & Htl & Hs1 & Hsl & Hw1 & HN0 & HN1).
  destruct (assemble_solution_axial (args p) (basis p) t Hb) as (sol & cur & Esol & _).
  destruct HkL2 as [x1 E2], HkH1 as [x2 E3], HkH1w as [x3 E4].
  unfold Problem.update_time.
  run_with ltac:(exact E1). run. attrs. rewrite Hat, unwrap_Some. run_lift.
  assert (Hclose : exists c2,
    forall k : unit -> M unit,
    ((if closes
      then modify (on_clk (set_isWholeSecond true)) ≫= (fun _ =>
           modify (on_clk (second_list_append (py_round t))) ≫= (fun _ =>
           lift (unwrap (stepsInSecond c1)) ≫= (fun s0 =>
           modify (on_clk (set_N1 (py_round t * s0))) ≫= (fun _ =>
           modify (on_clk (set_N0 ((py_round t - 1) * s0)))))))
      else modify (on_clk (set_isWholeSecond false))) ≫= k) (set_clk c1 p)
    = k tt (set_clk c2 p)
    /\ stepsInSecond c2 = Some s /\ actual_time c2 = Some t /\ step_number c2 = n
    /\ time_list c2 = time_list (clk p) ++ [t]
    /\ isWholeSecond c2 = Some closes
    /\ (if closes
        then N0 c2 = Some ((py_round t - 1) * s)%Z /\ N1 c2 = Some (py_round t * s)%Z
             /\ second_list c2 = second_list (clk p) ++ [py_round t]
        else N0 c2 = N0 (clk p) /\ N1 c2 = N1 (clk p)
             /\ second_list c2 = second_list (clk p))).
  { destruct closes.
    - eexists. intros k. split.
      + run_with ltac:(run; run; rewrite Hs1, Hs, unwrap_Some; run_lift; run;
                       apply modify_run).
        reflexivity.
      + cbn. rewrite Hs1, Hs, Hat, Hsn, Htl, Hsl. repeat split.
    - eexists. intros k. split.
      + run. reflexivity.
      + cbn. rewrite Hs1, Hs, Hat, Hsn, Htl, Hsl, HN0, HN1. repeat split. }
  destruct Hclose as (c2 & Hclose).
  destruct (Hclose (fun _ => mret tt)) as (_ & Hc2).
  rewrite (proj1 (Hclose _)). clear Hclose.
  run. run. attrs. rewrite Esol. run_lift.
  rewrite py_sqrt_ok by apply Hwall. run_lift. run.
  run_with ltac:(apply listDict_get_run; attrs; exact E2). run.
  run_with ltac:(apply listDict_get_run; attrs; rewrite lookup_alter_ne by discriminate;
                 exact E3).
  run.
  run_with ltac:(apply listDict_get_run; attrs; rewrite !lookup_alter_ne by discriminate;
                 exact E4).
  rewrite list_append_run.
  eexists. exists sol. split; [reflexivity |]. attrs.
  destruct Hc2 as (? & ? & ? & ? & ? & ?).
  repeat (split; [assumption || reflexivity |]). assumption.
Qed.

End UpdateTime.

(** *** The Womersley override of [compute_err] *)

(** A stop raised by the base method leaves the override at once: the
    object is as the base method left it. *)
Lemma compute_err_override_stop (fe : dolfin) (is_tent : bool) (velocity : array) (t : R)
    (p p' : problem) (e : exn) :
  GeneralProblem.compute_err fe is_tent velocity t p = (Raise e, p') ->
  Problem.compute_err fe is_tent velocity t p = (Raise e, p').
Proof. intros H. unfold Problem.compute_err. now apply bind_raise. Qed.

Section WallError.
Variables (fe : dolfin) (is_tent : bool) (velocity : array) (t : R) (p p1 : problem).
Variables (lw : functional) (sol : array) (nw : R) (s : Z) (slw : list R).
Local Abbreviation key := (if is_tent then "u2H1w" else "u_H1w").
Local Abbreviation errorH1wall := (sqrt (assemble_H1wall_sq fe velocity sol)).

Hypothesis Hbase : GeneralProblem.compute_err fe is_tent velocity t p = (Ret tt, p1).
Hypothesis Hlw : listDict p1 !! key = Some lw.
Hypothesis Hsol : solution (ec p1) = Some sol.
Hypothesis Hpos : 0 <= assemble_H1wall_sq fe velocity sol.
Hypothesis Hnw : analytic_v_norm_H1w (ec p1) = Some nw.
Hypothesis Hnz : nw <> 0.
Hypothesis Hwhole : truthy (isWholeSecond (clk p1)) = true ->
  stepsInSecond (clk p1) = Some s /\ (0 < s)%Z /\ slist lw = Some slw.

Lemma compute_err_override_run :
  Problem.compute_err fe is_tent velocity t p
  = (Ret tt,
     if truthy (isWholeSecond (clk p1))
     then append_to_slist key
            (sqrt (sum_sq (py_slice (list_ lw ++ [errorH1wall]) (N0 (clk p1)) (N1 (clk p1)))
                   / IZR s))
            (append_to_list key errorH1wall p1)
     else append_to_list key errorH1wall p1).
Proof.
  unfold Problem.compute_err. run_with ltac:(exact Hbase). cbv zeta.
  do 2 run. rewrite Hsol, unwrap_Some. run_lift.
  rewrite py_sqrt_ok by exact Hpos. run_lift. run.
  rewrite Hnw, unwrap_Some, outcome_bind_Ret, py_div_ok by exact Hnz. run_lift.
  run. attrs.
  pose proof (lookup_append_to_list key errorH1wall p1 lw Hlw) as H1.
  destruct (truthy (isWholeSecond (clk p1))) eqn:Ew.
  - destruct (Hwhole eq_refl) as (Hs & Hp & Hsl).
    run_with ltac:(eapply slist_get_run; [exact H1 | exact Hsl]).
    run_with ltac:(apply listDict_get_run; exact H1).
    run_with ltac:(apply (rms_window_run _ _ s); [exact Hs | exact Hp]).
    reflexivity.
  - reflexivity.
Qed.

End WallError.

(** *** [initialize] *)

Lemma initialize_run (p : problem) :
  md_dt (args p) <> 0 ->
  GeneralProblem.initialize p
  = (Ret tt, on_clk (set_stepsInSecond (py_round (1 / md_dt (args p)))) p).
Proof.
  intros Hdt. unfold GeneralProblem.initialize. run.
  rewrite py_div_ok by exact Hdt. run_lift. reflexivity.
Qed.

(** *** Loading the precomputed partial solution *)

Lemma hdf5_read_ok (store : gmap string array) (dataset : string) (f : array) :
  store !! dataset = Some f -> Problem.hdf5_read store dataset = Ret f.
Proof. unfold Problem.hdf5_read. now intros ->. Qed.

Section Load.
Variables (store : gmap string array) (parab : array) (re im : nat -> array).
Hypothesis Hparab : store !! "parab" = Some parab.
Hypothesis Hre : forall i, (i < 8)%nat -> store !! Problem.numbered "real" i = Some (re i).
Hypothesis Him : forall i, (i < 8)%nat -> store !! Problem.numbered "imag" i = Some (im i).

(** The object after the fields of the modes [idxs] are appended. *)
Local Abbreviation appended q idxs :=
  (foldl (fun st i => on_basis (bessel_complex_append (im i))
                        (on_basis (bessel_real_append (re i)) st)) q idxs).

Lemma load_loop (idxs : list nat) : forall q,
  Forall (fun i => (i < 8)%nat) idxs ->
  foldr (fun i rest =>
           lift (Problem.hdf5_read store (Problem.numbered "real" i)) ≫= (fun re =>
           modify (on_basis (bessel_real_append re)) ≫= (fun _ =>
           lift (Problem.hdf5_read store (Problem.numbered "imag" i)) ≫= (fun im =>
           modify (on_basis (bessel_complex_append im)) ≫= (fun _ => rest)))))
        skip idxs q
  = (Ret tt, appended q idxs).
Proof.
  induction idxs as [| i idxs IH]; intros q Hall; [reflexivity |].
  apply Forall_cons in Hall as [Hi Hall]. cbn [foldr foldl].
  rewrite (hdf5_read_ok _ _ _ (Hre i Hi)). run_lift. run.
  rewrite (hdf5_read_ok _ _ _ (Him i Hi)). run_lift. run.
  now apply IH.
Qed.

Lemma appended_basis (idxs : list nat) : forall q,
  space_dim (basis (appended q idxs)) = space_dim (basis q)
  /\ dofs2 (basis (appended q idxs)) = dofs2 (basis q)
  /\ bessel_parabolic (basis (appended q idxs)) = bessel_parabolic (basis q)
  /\ coefs_exp (basis (appended q idxs)) = coefs_exp (basis q)
  /\ bessel_real (basis (appended q idxs)) = bessel_real (basis q) ++ map re idxs
  /\ bessel_complex (basis (appended q idxs)) = bessel_complex (basis q) ++ map im idxs.
Proof.
  induction idxs as [| i idxs IH]; intros q; cbn [foldl map].
  - now rewrite !app_nil_r.
  - destruct (IH (on_basis (bessel_complex_append (im i))
                    (on_basis (bessel_real_append (re i)) q)))
      as (H1 & H2 & H3 & H4 & H5 & H6).
    rewrite H1, H2, H3, H4, H5, H6. attrs.
    cbn [bessel_complex_append bessel_real_append space_dim dofs2 bessel_parabolic
         coefs_exp bessel_real bessel_complex].
    now rewrite <- !app_assoc.
Qed.

Lemma appended_other (idxs : list nat) : forall q,
  args (appended q idxs) = args q /\ clk (appended q idxs) = clk q
  /\ ec (appended q idxs) = ec q /\ listDict (appended q idxs) = listDict q
  /\ shared (appended q idxs) = shared q /\ files (appended q idxs) = files q.
Proof.
  induction idxs as [| i idxs IH]; intros q; cbn [foldl]; [repeat split |].
  destruct (IH (on_basis (bessel_complex_append (im i))
                  (on_basis (bessel_real_append (re i)) q)))
    as (H1 & H2 & H3 & H4 & H5 & H6).
  rewrite H1, H2, H3, H4, H5, H6. repeat split.
Qed.

Lemma load_precomputed_bessel_functions_run (q : problem) :
  Problem.load_precomputed_bessel_functions store q
  = (Ret tt, appended (on_basis (set_bessel_parabolic parab) q) (seq 0 8)).
Proof.
  unfold Problem.load_precomputed_bessel_functions.
  rewrite (hdf5_read_ok _ _ _ Hparab). run_lift. run.
  apply load_loop. repeat constructor.
Qed.

End Load.

(** *** [Problem.initialize] *)

Section Initialize.
Variables (V : space) (store : gmap string array) (avg_pg avg_p avg_vel : R).
Variables (p : problem) (parab : array) (re im : nat -> array).
Hypothesis Hdt : md_dt (args p) <> 0.
Hypothesis Hreal : bessel_real (basis p) = [].
Hypothesis Hcomplex : bessel_complex (basis p) = [].
Hypothesis Hcoefs : coefs_exp (basis p) = [-8; -6; -4; -2; 2; 4; 6; 8]%Z.
Hypothesis Hnodup : NoDup (sub2_dofs V).
Hypothesis Hdofs : forall n, In n (sub2_dofs V) -> (n < dim V)%nat.
Hypothesis Hparab : store !! "parab" = Some parab.
Hypothesis Hre : forall i, (i < 8)%nat -> store !! Problem.numbered "real" i = Some (re i).
Hypothesis Him : forall i, (i < 8)%nat -> store !! Problem.numbered "imag" i = Some (im i).
Hypothesis Lparab : length parab = length (sub2_dofs V).
Hypothesis Lre : forall i, (i < 8)%nat -> length (re i) = length (sub2_dofs V).
Hypothesis Lim : forall i, (i < 8)%nat -> length (im i) = length (sub2_dofs V).

(** The basis that [initialize] leaves. *)
Local Abbreviation basis_loaded :=
  {| space_dim := dim V; dofs2 := sub2_dofs V; bessel_parabolic := Some parab;
     bessel_real := map re (seq 0 8); bessel_complex := map im (seq 0 8);
     coefs_exp := [-8; -6; -4; -2; 2; 4; 6; 8]%Z |}.

Lemma basis_loaded_loaded : loaded basis_loaded.
Proof.
  unfold loaded. cbn [dofs2 space_dim bessel_parabolic coefs_exp bessel_real bessel_complex].
  split; [exact Hnodup |]. split; [exact Hdofs |].
  split; [exists parab; split; [reflexivity | exact Lparab] |].
  split; [reflexivity |].
  split; [repeat constructor; apply Lre; lia |].
  split; [repeat constructor; apply Lim; lia |].
  split; reflexivity.
Qed.

Lemma problem_initialize_run :
  exists p' sol,
    Problem.initialize V store avg_pg avg_p avg_vel p = (Ret tt, p')
    /\ args p' = args p /\ listDict p' = listDict p /\ files p' = files p
    /\ basis p' = basis_loaded
    /\ clk p' = set_stepsInSecond (py_round (1 / md_dt (args p))) (clk p)
    /\ ec p' = Problem.set_solution sol (ec p)
    /\ shared p' pg_normalization_factor = shared p pg_normalization_factor ++ [avg_pg]
    /\ shared p' p_normalization_factor = shared p p_normalization_factor ++ [avg_p]
    /\ shared p' vel_normalization_factor = shared p vel_normalization_factor ++ [avg_vel]
    /\ shared p' scale_factor = shared p scale_factor.
Proof.
  unfold Problem.initialize.
  run_with ltac:(apply initialize_run; exact Hdt). run.
  run_with ltac:(apply (load_precomputed_bessel_functions_run store parab re im); assumption).
  set (q := on_basis (set_bessel_parabolic parab)
              (on_basis (set_space (dim V) (sub2_dofs V))
                 (on_clk (set_stepsInSecond (py_round (1 / md_dt (args p)))) p))).
  destruct (appended_basis re im (seq 0 8) q) as (B1 & B2 & B3 & B4 & B5 & B6).
  destruct (appended_other re im (seq 0 8) q) as (O1 & O2 & O3 & O4 & O5 & O6).
  set (q' := foldl _ q (seq 0 8)) in *.
  assert (Hbasis : basis q' = basis_loaded).
  { destruct (basis q') as [sd d2 bp br bc ce] eqn:E.
    cbn [space_dim dofs2 bessel_parabolic coefs_exp bessel_real bessel_complex] in *.
    subst sd d2 bp br bc ce. unfold q. attrs.
    cbn [set_bessel_parabolic set_space space_dim dofs2 bessel_parabolic coefs_exp
         bessel_real bessel_complex].
    now rewrite Hreal, Hcomplex, Hcoefs. }
  do 2 run. rewrite Hbasis.
  destruct (assemble_solution_axial (args q') basis_loaded 0 basis_loaded_loaded)
    as (sol & cur & Esol & _).
  rewrite Esol. run_lift. do 3 run. rewrite modify_run.
  eexists. exists sol. split; [reflexivity |]. attrs.
  rewrite O1, O2, O3, O4, O5, O6, Hbasis. unfold q. attrs.
  repeat split.
Qed.

End Initialize.

(** *** Series of the registry *)

Lemma series_append_to_list (p : problem) (key : string) (x : R) (xs cs : list R) :
  series p key xs cs -> series (append_to_list key x p) key (xs ++ [x]) cs.
Proof.
  intros (l & Hl & <- & Hs). exists (set_list (list_ l ++ [x]) l).
  split; [now apply lookup_append_to_list | split; [reflexivity | exact Hs]].
Qed.

Lemma series_append_to_slist (p : problem) (key : string) (x : R) (xs cs : list R) :
  series p key xs cs -> series (append_to_slist key x p) key xs (cs ++ [x]).
Proof.
  intros (l & Hl & <- & Hs). exists (set_slist (cs ++ [x]) l).
  split; [now apply lookup_append_to_slist | split; reflexivity].
Qed.

(** A series is not affected by what happens to other keys or attributes. *)
Lemma series_ext (p p' : problem) (key : string) (xs cs : list R) :
  listDict p' !! key = listDict p !! key -> series p key xs cs -> series p' key xs cs.
Proof. intros E (l & Hl & H). exists l. now rewrite E. Qed.

Lemma series_append_to_list_ne (p : problem) (key key' : string) (x : R) (xs cs : list R) :
  key <> key' -> series p key' xs cs -> series (append_to_list key x p) key' xs cs.
Proof. intros Hne. apply series_ext. now apply lookup_append_to_list_ne. Qed.

Lemma series_append_to_slist_ne (p : problem) (key key' : string) (x : R) (xs cs : list R) :
  key <> key' -> series p key' xs cs -> series (append_to_slist key x p) key' xs cs.
Proof. intros Hne. apply series_ext. now apply lookup_append_to_slist_ne. Qed.

Lemma series_on_ec (p : problem) f (key : string) (xs cs : list R) :
  series p key xs cs -> series (on_ec f p) key xs cs.
Proof. now apply series_ext. Qed.

Lemma series_functional (p : problem) (key : string) (xs cs xs' cs' : list R) :
  series p key xs cs -> series p key xs' cs' -> xs = xs' /\ cs = cs'.
Proof.
  intros (l & Hl & <- & Hs) (l' & Hl' & <- & Hs'). rewrite Hl in Hl'.
  injection Hl' as <-. split; congruence.
Qed.

(** *** One pass of the time loop *)

Lemma step_ready_ext (fe : dolfin) (p p' : problem) (s : Z) :
  args p' = args p -> basis p' = basis p ->
  stepsInSecond (clk p') = stepsInSecond (clk p) ->
  (forall key, is_Some (listDict p !! key) -> is_Some (listDict p' !! key)) ->
  step_ready fe p s -> step_ready fe p' s.
Proof.
  intros Ha Hb Hs Hk (H1 & H2 & H3 & H4 & H5 & H6 & H7).
  unfold step_ready. rewrite Ha, Hb, Hs.
  split; [exact H1 |]. split; [exact H2 |]. split; [exact H3 |]. split; [exact H4 |].
  split; [now apply Hk |]. split; now apply Hk.
Qed.

Lemma is_Some_alter {A} (f : A -> A) (k k' : string) (m : gmap string A) :
  is_Some (m !! k') -> is_Some (alter f k m !! k').
Proof.
  intros [x Hx]. destruct (decide (k = k')) as [-> | Hne].
  - rewrite lookup_alter_eq, Hx. now eexists.
  - rewrite lookup_alter_ne, Hx by assumption. now eexists.
Qed.

Section SolverStep.
Variables (fe : dolfin) (t : R) (n : Z) (velocity : array) (p : problem) (s : Z).
Variables (xd cd x2 c2 x1 c1 xw cw : list R).
Hypothesis Hready : step_ready fe p s.
Hypothesis Hpos : (0 < s)%Z.
Hypothesis Hec : doErrControl (args p) = true.
Hypothesis Han : has_analytic_solution (args p) = true.
Hypothesis Htest : testErrControl (args p) = false.
Hypothesis Hd : series p "d" xd cd.
Hypothesis H2 : series p "u_L2" x2 c2.
Hypothesis H1 : series p "u_H1" x1 c1.
Hypothesis Hw : series p "u_H1w" xw cw.
Hypothesis Hfe : forall v sl,
  0 <= assemble_L2_sq fe v sl /\ 0 <= assemble_H1semi_sq fe v sl
  /\ 0 <= assemble_H1wall_sq fe v sl.

Local Abbreviation closes :=
  (Rgtb t 0.5 && bool_decide ((py_round (t * 1000) mod 1000)%Z = 0%Z)).
Local Abbreviation window xs :=
  (py_slice xs (Some ((py_round t - 1) * s)%Z) (Some (py_round t * s)%Z)).
Local Abbreviation mean_sq xs := (sum_sq (window xs) / IZR s).

Lemma solver_step_run (sol : array) :
  Problem.assemble_solution (args p) (basis p) t = Ret sol ->
  norm_L2 fe sol <> 0 -> norm_H1 fe sol <> 0 -> assemble_wall_sq fe sol <> 0 ->
  ~ sqrt (assemble_L2_sq fe velocity sol + assemble_H1semi_sq fe velocity sol)
      / norm_H1 fe sol > divergence_treshold (ec p) ->
  exists p',
    solver_step fe t n velocity p = (Ret tt, p')
    /\ step_ready fe p' s /\ args p' = args p /\ basis p' = basis p
    /\ divergence_treshold (ec p') = divergence_treshold (ec p)
    /\ series p' "d" (xd ++ [norm_Hdiv0 fe velocity])
         (if closes then cd ++ [mean_sq (xd ++ [norm_Hdiv0 fe velocity])] else cd)
    /\ series p' "u_L2" (x2 ++ [sqrt (assemble_L2_sq fe velocity sol)])
         (if closes
          then c2 ++ [sqrt (mean_sq (x2 ++ [sqrt (assemble_L2_sq fe velocity sol)]))]
          else c2)
    /\ series p' "u_H1"
         (x1 ++ [sqrt (assemble_L2_sq fe velocity sol + assemble_H1semi_sq fe velocity sol)])
         (if closes
          then c1 ++ [sqrt (mean_sq (x1 ++ [sqrt (assemble_L2_sq fe velocity sol
                                                  + assemble_H1semi_sq fe velocity sol)]))]
          else c1)
    /\ series p' "u_H1w" (xw ++ [sqrt (assemble_H1wall_sq fe velocity sol)])
         (if closes
          then cw ++ [sqrt (mean_sq (xw ++ [sqrt (assemble_H1wall_sq fe velocity sol)]))]
          else cw).
Proof.
  intros Esol HnL2 HnH1 Hnw Hok.
  pose proof Hready as (Hsave & Hs & Hb & Hwall & HkL2 & HkH1 & HkH1w).
  destruct (update_time_run fe t n p s Hsave Hs Hb Hwall HkL2 HkH1 HkH1w)
    as (p1 & sol' & E1 & Esol' & Hargs & Hbasis & _ & _ & Hec1 & Hld & Hs1 & _ & _ & _
        & Hw1 & HN).
  rewrite Esol in Esol'. injection Esol' as <-.
  assert (Hser : forall key xs cs, key <> "av_norm_L2" -> key <> "av_norm_H1" ->
            key <> "av_norm_H1w" -> series p key xs cs -> series p1 key xs cs).
  { intros key xs cs N1' N2' N3'. apply series_ext. rewrite Hld.
    now rewrite !lookup_alter_ne by congruence. }
  assert (Hd1 := Hser "d" _ _ ltac:(discriminate) ltac:(discriminate) ltac:(discriminate) Hd).
  assert (H21 := Hser "u_L2" _ _ ltac:(discriminate) ltac:(discriminate)
                   ltac:(discriminate) H2).
  assert (H11 := Hser "u_H1" _ _ ltac:(discriminate) ltac:(discriminate)
                   ltac:(discriminate) H1).
  assert (Hw11 := Hser "u_H1w" _ _ ltac:(discriminate) ltac:(discriminate)
                    ltac:(discriminate) Hw).
  assert (Hready1 : step_ready fe p1 s).
  { apply (step_ready_ext fe p); auto; [congruence |].
    intros key Hk. rewrite Hld. now do 3 apply is_Some_alter. }
  clear Hser.
  unfold solver_step. run_with ltac:(exact E1).
  destruct Hd1 as (ld & Eld & <- & Esd), H21 as (l2 & El2 & <- & Es2),
    H11 as (l1 & El1 & <- & Es1), Hw11 as (lw & Elw & <- & Esw).
  assert (Hnwz : sqrt (assemble_wall_sq fe sol) <> 0).
  { intros E0. apply sqrt_eq_0 in E0; [contradiction | apply Hwall]. }
  assert (Hsd : series p1 "d" (list_ ld) cd) by (exists ld; auto).
  assert (Hs2 : series p1 "u_L2" (list_ l2) c2) by (exists l2; auto).
  assert (Hs1' : series p1 "u_H1" (list_ l1) c1) by (exists l1; auto).
  assert (Hsw : series p1 "u_H1w" (list_ lw) cw) by (exists lw; auto).
  destruct closes eqn:Ecl.
  - (* the step closes a cycle *)
    destruct HN as (HN0 & HN1 & _).
    assert (Hwt : truthy (isWholeSecond (clk p1)) = true) by now rewrite Hw1.
    run_with ltac:(apply (compute_div_whole fe false velocity p1 ld Eld cd s Hwt Esd Hs1);
                   lia).
    rewrite HN0, HN1.
    set (pd := append_to_slist "d" _ (append_to_list "d" _ p1)).
    assert (El2' : listDict pd !! "u_L2" = Some l2).
    { unfold pd. attrs. now rewrite !lookup_alter_ne by discriminate. }
    assert (El1' : listDict pd !! "u_H1" = Some l1).
    { unfold pd. attrs. now rewrite !lookup_alter_ne by discriminate. }
    pose proof (compute_err_run fe false velocity t pd l2 l1 sol
      (norm_L2 fe sol) (norm_H1 fe sol) s c2 c1) as Hrun.
    change (clk pd) with (clk p1) in Hrun. change (args pd) with (args p1) in Hrun.
    change (ec pd) with (ec p1) in Hrun.
    rewrite Hargs, Hec1, HN0, HN1 in Hrun.
    cbn [solution analytic_v_norm_L2 analytic_v_norm_H1 Problem.set_analytic
         divergence_treshold] in Hrun.
    rewrite Hwt, Htest in Hrun.
    specialize (Hrun Hec Han El2' El1' eq_refl (proj1 (Hfe _ _))
      (proj1 (proj2 (Hfe _ _))) eq_refl eq_refl HnL2 HnH1
      ltac:(discriminate) ltac:(intros _; repeat split; auto)).
    rewrite (proj2 (Rgtb_false _ _) Hok) in Hrun.
    set (pe := append_to_slist "u_H1" _ _) in Hrun.
    pose proof (compute_err_override_run fe false velocity t pd pe lw sol
      (sqrt (assemble_wall_sq fe sol)) s cw Hrun) as Hover.
    change (clk pe) with (clk p1) in Hover. rewrite Hwt, HN0, HN1 in Hover.
    rewrite Hover; cycle 1.
    { unfold pe, pd. attrs. now rewrite !lookup_alter_ne by discriminate. }
    { unfold pe, pd. attrs. now rewrite Hec1. }
    { apply Hfe. }
    { unfold pe, pd. attrs. now rewrite Hec1. }
    { exact Hnwz. }
    { intros _. repeat split; auto. }
    eexists. split; [reflexivity |].
    split; [| split; [exact Hargs | split; [exact Hbasis | split]]].
    + apply (step_ready_ext fe p1); auto.
      intros key Hk. unfold pe, pd. attrs. now repeat apply is_Some_alter.
    + unfold pe, pd. attrs. now rewrite Hec1.
    + unfold pe, pd.
      repeat split;
        repeat first [ apply series_append_to_slist_ne; [discriminate |]
                     | apply series_append_to_list_ne; [discriminate |]
                     | apply series_on_ec
                     | apply series_append_to_slist
                     | apply series_append_to_list ];
        assumption.
  - (* the step does not close a cycle *)
    assert (Hwt : truthy (isWholeSecond (clk p1)) = false) by now rewrite Hw1.
    run_with ltac:(apply (compute_div_step fe false velocity p1 ld Eld Hwt)).
    set (pd := append_to_list "d" _ p1).
    assert (El2' : listDict pd !! "u_L2" = Some l2).
    { unfold pd. attrs. now rewrite !lookup_alter_ne by discriminate. }
    assert (El1' : listDict pd !! "u_H1" = Some l1).
    { unfold pd. attrs. now rewrite !lookup_alter_ne by discriminate. }
    pose proof (compute_err_run fe false velocity t pd l2 l1 sol
      (norm_L2 fe sol) (norm_H1 fe sol) s c2 c1) as Hrun.
    change (clk pd) with (clk p1) in Hrun. change (args pd) with (args p1) in Hrun.
    change (ec pd) with (ec p1) in Hrun.
    rewrite Hargs, Hec1 in Hrun.
    cbn [solution analytic_v_norm_L2 analytic_v_norm_H1 Problem.set_analytic
         divergence_treshold] in Hrun.
    rewrite Hwt, Htest in Hrun.
    specialize (Hrun Hec Han El2' El1' eq_refl (proj1 (Hfe _ _))
      (proj1 (proj2 (Hfe _ _))) eq_refl eq_refl HnL2 HnH1
      ltac:(discriminate) ltac:(discriminate)).
    rewrite (proj2 (Rgtb_false _ _) Hok) in Hrun.
    set (pe := append_to_list "u_H1" _ _) in Hrun.
    pose proof (compute_err_override_run fe false velocity t pd pe lw sol
      (sqrt (assemble_wall_sq fe sol)) s cw Hrun) as Hover.
    change (clk pe) with (clk p1) in Hover. rewrite Hwt in Hover.
    rewrite Hover; cycle 1.
    { unfold pe, pd. attrs. now rewrite !lookup_alter_ne by discriminate. }
    { unfold pe, pd. attrs. now rewrite Hec1. }
    { apply Hfe. }
    { unfold pe, pd. attrs. now rewrite Hec1. }
    { exact Hnwz. }
    { discriminate. }
    eexists. split; [reflexivity |].
    split; [| split; [exact Hargs | split; [exact Hbasis | split]]].
    + apply (step_ready_ext fe p1); auto.
      intros key Hk. unfold pe, pd. attrs. now repeat apply is_Some_alter.
    + unfold pe, pd. attrs. now rewrite Hec1.
    + unfold pe, pd.
      repeat split;
        repeat first [ apply series_append_to_slist_ne; [discriminate |]
                     | apply series_append_to_list_ne; [discriminate |]
                     | apply series_on_ec
                     | apply series_append_to_slist
                     | apply series_append_to_list ];
        assumption.
Qed.

End SolverStep.

(** *** The initialised problem of the small run *)

Lemma steady_store_real (i : nat) :
  (i < 8)%nat -> steady_store !! Problem.numbered "real" i = Some [0].
Proof. intros H. do 8 (destruct i as [| i]; [reflexivity |]). lia. Qed.

Lemma steady_store_imag (i : nat) :
  (i < 8)%nat -> steady_store !! Problem.numbered "imag" i = Some [0].
Proof. intros H. do 8 (destruct i as [| i]; [reflexivity |]). lia. Qed.

Lemma quarter_steps_per_second : py_round (1 / 0.25) = 4%Z.
Proof. replace (1 / 0.25) with (IZR 4) by lra. apply py_round_IZR. Qed.

Lemma initialized_with_spec (a : arguments) (rank : nat) :
  meta_dt a <> 0 ->
  exists sol,
    Problem.initialize one_node steady_store 1 1 1 (Problem.init rank a)
    = (Ret tt, initialized_with a rank)
    /\ args (initialized_with a rank) = args (Problem.init rank a)
    /\ listDict (initialized_with a rank) = listDict (Problem.init rank a)
    /\ files (initialized_with a rank) = files (Problem.init rank a)
    /\ basis (initialized_with a rank)
       = {| space_dim := 3; dofs2 := [2%nat]; bessel_parabolic := Some [1];
            bessel_real := map (fun _ => [0]) (seq 0 8);
            bessel_complex := map (fun _ => [0]) (seq 0 8);
            coefs_exp := [-8; -6; -4; -2; 2; 4; 6; 8]%Z |}
    /\ clk (initialized_with a rank)
       = set_stepsInSecond (py_round (1 / meta_dt a)) (clk (Problem.init rank a))
    /\ ec (initialized_with a rank) = Problem.set_solution sol (ec (Problem.init rank a)).
Proof.
  intros Hdt.
  destruct (problem_initialize_run one_node steady_store 1 1 1
              (Problem.init rank a) [1] (fun _ => [0]) (fun _ => [0]))
    as (p' & sol & E & Ha & Hl & Hf & Hb & Hc & He & _).
  - exact Hdt.
  - reflexivity.
  - reflexivity.
  - reflexivity.
  - cbn. apply NoDup_singleton.
  - cbn. intros n [<- | []]. lia.
  - reflexivity.
  - apply steady_store_real.
  - apply steady_store_imag.
  - reflexivity.
  - reflexivity.
  - reflexivity.
  - exists sol. unfold initialized_with. rewrite E. cbn [snd].
    repeat split; assumption.
Qed.

Lemma initialized_spec (rank : nat) :
  exists sol,
    Problem.initialize one_node steady_store 1 1 1 (Problem.init rank quarter_steps)
    = (Ret tt, initialized rank)
    /\ args (initialized rank) = args (Problem.init rank quarter_steps)
    /\ listDict (initialized rank) = listDict (Problem.init rank quarter_steps)
    /\ files (initialized rank) = files (Problem.init rank quarter_steps)
    /\ basis (initialized rank)
       = {| space_dim := 3; dofs2 := [2%nat]; bessel_parabolic := Some [1];
            bessel_real := map (fun _ => [0]) (seq 0 8);
            bessel_complex := map (fun _ => [0]) (seq 0 8);
            coefs_exp := [-8; -6; -4; -2; 2; 4; 6; 8]%Z |}
    /\ clk (initialized rank) = set_stepsInSecond 4 (clk (Problem.init rank quarter_steps))
    /\ ec (initialized rank) = Problem.set_solution sol (ec (Problem.init rank quarter_steps)).
Proof.
  destruct (initialized_with_spec quarter_steps rank) as (sol & E & Ha & Hl & Hf & Hb & Hc & He).
  { cbn. lra. }
  exists sol. unfold initialized. repeat (split; [assumption |]). split; [| exact He].
  rewrite Hc. f_equal. apply quarter_steps_per_second.
Qed.

(** With any arguments that leave saving off, the initialised problem is
    ready for [update_time]. *)
Lemma initialized_with_ready (a : arguments) (rank : nat) :
  meta_dt a <> 0 -> arg_save a = noSave ->
  step_ready probe (initialized_with a rank) (py_round (1 / meta_dt a)).
Proof.
  intros Hdt Hsave.
  destruct (initialized_with_spec a rank Hdt) as (sol & _ & Ha & Hl & _ & Hb & Hc & _).
  unfold step_ready. rewrite Ha, Hl, Hb, Hc.
  split; [cbn; rewrite Hsave; discriminate |]. split; [reflexivity |].
  split.
  { unfold loaded.
    cbn [dofs2 space_dim bessel_parabolic coefs_exp bessel_real bessel_complex].
    split; [apply NoDup_singleton |]. split; [intros n [<- | []]; lia |].
    split; [exists [1]; split; reflexivity |]. split; [reflexivity |].
    repeat split; repeat constructor. }
  split; [intros s; apply (Rle_0_sqr (coef s 2)) |].
  repeat split; eexists; reflexivity.
Qed.

Lemma initialized_loaded (rank : nat) : loaded (basis (initialized rank)).
Proof.
  destruct (initialized_spec rank) as (sol & _ & _ & _ & _ & Hb & _). rewrite Hb.
  unfold loaded. cbn [dofs2 space_dim bessel_parabolic coefs_exp bessel_real bessel_complex].
  split; [apply NoDup_singleton |]. split; [intros n [<- | []]; lia |].
  split; [exists [1]; split; reflexivity |]. split; [reflexivity |].
  repeat split; repeat constructor.
Qed.

(** The analytic solution of the small run has the axial value 1 at all
    times. *)
Lemma steady_solution (rank : nat) (t : R) (sol : array) :
  Problem.assemble_solution (args (initialized rank)) (basis (initialized rank)) t = Ret sol ->
  coef sol 2 = 1.
Proof.
  intros E.
  destruct (assemble_solution_values (args (initialized rank)) (basis (initialized rank)) t
              (initialized_loaded rank)) as (sol' & E' & _ & Hax & _).
  rewrite E in E'. injection E' as <-.
  destruct (initialized_spec rank) as (sol0 & _ & Ha & _ & _ & Hb & _).
  unfold coef. rewrite (Hax 0%nat 2%nat) by now rewrite Hb.
  cbn [default from_option id]. unfold spec_axial. rewrite Ha, Hb.
  cbn [factor args Problem.init shared_append Problem.set_status_str GeneralProblem.init
       quarter_steps arg_factor coefs_exp bessel_real bessel_complex bessel_parabolic
       seq map lookup list_lookup].
  unfold node, py_sum.
  cbn [mbind option_bind lookup list_lookup default from_option id fold_left].
  unfold Datatypes.id. ring.
Qed.

Lemma accounted_initialized : accounted (initialized 0) [] [] [] [].
Proof.
  destruct (initialized_spec 0) as (sol & _ & Ha & Hl & _ & Hb & Hc & He).
  unfold accounted. split; [| split; [reflexivity | split; [reflexivity | split]]].
  - unfold step_ready. rewrite Ha, Hl, Hc. split; [discriminate |].
    split; [reflexivity |]. split; [apply initialized_loaded |].
    split; [intros s; cbn; nra |].
    repeat split; eexists; reflexivity.
  - rewrite He. reflexivity.
  - unfold series. rewrite Hl. repeat split; eexists; (split; [reflexivity |]); split;
      reflexivity.
Qed.

(** *** One step of the small run *)

Lemma sqrt_sq_diff (x c : R) : 0 <= x -> c = 1 -> sqrt ((1 + x - c) * (1 + x - c)) = x.
Proof. intros Hx ->. replace (1 + x - 1) with x by lra. now apply sqrt_square. Qed.

Section ProbeStep.
Variables (p : problem) (xd cd xe ce : list R) (t : R) (n : Z) (x : R).
Hypothesis Hacc : accounted p xd cd xe ce.
Hypothesis Hx : 0 <= x <= 10.

Local Abbreviation closes :=
  (Rgtb t 0.5 && bool_decide ((py_round (t * 1000) mod 1000)%Z = 0%Z)).
Local Abbreviation window xs :=
  (py_slice xs (Some ((py_round t - 1) * 4)%Z) (Some (py_round t * 4)%Z)).

Lemma probe_step :
  exists p',
    solver_step probe t n (off_by x) p = (Ret tt, p')
    /\ accounted p' (xd ++ [x])
         (if closes then cd ++ [sum_sq (window (xd ++ [x])) / 4] else cd)
         (xe ++ [x])
         (if closes then ce ++ [sqrt (sum_sq (window (xe ++ [x])) / 4)] else ce).
Proof.
  destruct Hacc as (Hready & Ha & Hb & Hthr & Hd & H2 & H1 & Hw).
  destruct (initialized_spec 0) as (sol0 & _ & Ha0 & _).
  pose proof Hready as (_ & _ & Hl & _).
  destruct (assemble_solution_axial (args p) (basis p) t Hl) as (sol & cur & Esol & _).
  assert (Hc : coef sol 2 = 1).
  { apply (steady_solution 0 t). now rewrite <- Ha, <- Hb. }
  assert (Ed : norm_Hdiv0 probe (off_by x) = x) by reflexivity.
  assert (E2 : sqrt (assemble_L2_sq probe (off_by x) sol) = x).
  { change (sqrt ((1 + x - coef sol 2) * (1 + x - coef sol 2)) = x).
    apply sqrt_sq_diff; [lra | exact Hc]. }
  assert (E1 : sqrt (assemble_L2_sq probe (off_by x) sol
                     + assemble_H1semi_sq probe (off_by x) sol) = x).
  { change (sqrt ((1 + x - coef sol 2) * (1 + x - coef sol 2) + 0) = x).
    rewrite Rplus_0_r. apply sqrt_sq_diff; [lra | exact Hc]. }
  assert (Ew : sqrt (assemble_H1wall_sq probe (off_by x) sol) = x).
  { change (sqrt ((1 + x - coef sol 2) * (1 + x - coef sol 2)) = x).
    apply sqrt_sq_diff; [lra | exact Hc]. }
  destruct (solver_step_run probe t n (off_by x) p 4 xd cd xe ce xe ce xe ce)
    with (sol := sol) as (p' & E & Hready' & Ha' & Hb' & Hthr' & Hd' & H2' & H1' & Hw');
    auto.
  - lia.
  - now rewrite Ha, Ha0.
  - now rewrite Ha, Ha0.
  - now rewrite Ha, Ha0.
  - intros v sl. split; [| split].
    + apply (Rle_0_sqr (coef v 2 - coef sl 2)).
    + apply Rle_refl.
    + apply (Rle_0_sqr (coef v 2 - coef sl 2)).
  - change (coef sol 2 <> 0). lra.
  - change (coef sol 2 <> 0). lra.
  - change (coef sol 2 * coef sol 2 <> 0). nra.
  - rewrite E1, Hthr. change (norm_H1 probe sol) with (coef sol 2). rewrite Hc. lra.
  - exists p'. split; [exact E |].
    rewrite Ed, E2 in *. rewrite E1 in H1'. rewrite Ew in Hw'.
    unfold accounted. rewrite Ha', Hb', Hthr'.
    split; [exact Hready' |]. repeat split; assumption.
Qed.

End ProbeStep.

(** *** Two seconds of the small run *)

Ltac between_seconds m :=
  apply not_true_is_false; rewrite closes_cycle_iff;
  let Ht := fresh in let k := fresh "k" in let Hk := fresh in
  intros [Ht [k Hk]];
  let H := fresh in
  destruct (Z_le_gt_dec k m) as [H | H];
  [ apply IZR_le in H
  | let H' := fresh in
    assert (H' : (m + 1 <= k)%Z) by lia; apply IZR_le in H'; rewrite plus_IZR in H' ];
  lra.

Lemma quarter_1 : Rgtb (IZR 1 * 0.25) 0.5
  && bool_decide ((py_round (IZR 1 * 0.25 * 1000) mod 1000)%Z = 0%Z) = false.
Proof. between_seconds 0%Z. Qed.
Lemma quarter_2 : Rgtb (IZR 2 * 0.25) 0.5
  && bool_decide ((py_round (IZR 2 * 0.25 * 1000) mod 1000)%Z = 0%Z) = false.
Proof. between_seconds 0%Z. Qed.
Lemma quarter_3 : Rgtb (IZR 3 * 0.25) 0.5
  && bool_decide ((py_round (IZR 3 * 0.25 * 1000) mod 1000)%Z = 0%Z) = false.
Proof. between_seconds 0%Z. Qed.
Lemma quarter_4 : Rgtb (IZR 4 * 0.25) 0.5
  && bool_decide ((py_round (IZR 4 * 0.25 * 1000) mod 1000)%Z = 0%Z) = true.
Proof. apply closes_cycle_iff. split; [lra |]. exists 1%Z. lra. Qed.
Lemma quarter_5 : Rgtb (IZR 5 * 0.25) 0.5
  && bool_decide ((py_round (IZR 5 * 0.25 * 1000) mod 1000)%Z = 0%Z) = false.
Proof. between_seconds 1%Z. Qed.
Lemma quarter_6 : Rgtb (IZR 6 * 0.25) 0.5
  && bool_decide ((py_round (IZR 6 * 0.25 * 1000) mod 1000)%Z = 0%Z) = false.
Proof. between_seconds 1%Z. Qed.
Lemma quarter_7 : Rgtb (IZR 7 * 0.25) 0.5
  && bool_decide ((py_round (IZR 7 * 0.25 * 1000) mod 1000)%Z = 0%Z) = false.
Proof. between_seconds 1%Z. Qed.
Lemma quarter_8 : Rgtb (IZR 8 * 0.25) 0.5
  && bool_decide ((py_round (IZR 8 * 0.25 * 1000) mod 1000)%Z = 0%Z) = true.
Proof. apply closes_cycle_iff. split; [lra |]. exists 2%Z. lra. Qed.

Lemma round_quarter_4 : py_round (IZR 4 * 0.25) = 1%Z.
Proof. replace (IZR 4 * 0.25) with (IZR 1) by lra. apply py_round_IZR. Qed.
Lemma round_quarter_8 : py_round (IZR 8 * 0.25) = 2%Z.
Proof. replace (IZR 8 * 0.25) with (IZR 2) by lra. apply py_round_IZR. Qed.

Lemma first_cycle_window {A} (a b c d : A) :
  py_slice [a; b; c; d] (Some ((1 - 1) * 4)%Z) (Some (1 * 4)%Z) = [a; b; c; d].
Proof. reflexivity. Qed.

Lemma second_cycle_window {A} (a b c d e f g h : A) :
  py_slice [a; b; c; d; e; f; g; h] (Some ((2 - 1) * 4)%Z) (Some (2 * 4)%Z) = [e; f; g; h].
Proof. reflexivity. Qed.

Lemma mean_sq_ones : sum_sq [1; 1; 1; 1] / 4 = 1.
Proof. unfold sum_sq, py_sum. cbn [map fold_left]. lra. Qed.

Lemma mean_sq_twos : sum_sq [2; 2; 2; 2] / 4 = 4.
Proof. unfold sum_sq, py_sum. cbn [map fold_left]. lra. Qed.

Lemma sqrt_4 : sqrt 4 = 2.
Proof. replace 4 with (2 * 2) by lra. apply sqrt_square. lra. Qed.

(** The first second: four steps with the values 1. *)
Lemma first_second :
  exists p4,
    time_loop probe 0.25 1 (replicate 4 (off_by 1)) (initialized 0) = (Ret tt, p4)
    /\ accounted p4 [1; 1; 1; 1] [1] [1; 1; 1; 1] [1].
Proof.
  pose proof accounted_initialized as H0.
  destruct (probe_step _ _ _ _ _ (IZR 1 * 0.25) 1 1 H0 ltac:(lra)) as (p1 & E1 & H1).
  rewrite quarter_1 in H1. cbn [app] in H1.
  destruct (probe_step _ _ _ _ _ (IZR 2 * 0.25) 2 1 H1 ltac:(lra)) as (p2 & E2 & H2).
  rewrite quarter_2 in H2. cbn [app] in H2.
  destruct (probe_step _ _ _ _ _ (IZR 3 * 0.25) 3 1 H2 ltac:(lra)) as (p3 & E3 & H3).
  rewrite quarter_3 in H3. cbn [app] in H3.
  destruct (probe_step _ _ _ _ _ (IZR 4 * 0.25) 4 1 H3 ltac:(lra)) as (p4 & E4 & H4).
  rewrite quarter_4, round_quarter_4 in H4. cbn [app] in H4.
  rewrite first_cycle_window, mean_sq_ones, sqrt_1 in H4.
  exists p4. split; [| exact H4].
  cbn [replicate time_loop].
  run_with ltac:(exact E1). change (1 + 1)%Z with 2%Z.
  run_with ltac:(exact E2). change (2 + 1)%Z with 3%Z.
  run_with ltac:(exact E3). change (3 + 1)%Z with 4%Z.
  run_with ltac:(exact E4). reflexivity.
Qed.

(** The second second: four steps with the values 2. *)
Lemma second_second (p4 : problem) :
  accounted p4 [1; 1; 1; 1] [1] [1; 1; 1; 1] [1] ->
  exists p8,
    time_loop probe 0.25 5 (replicate 4 (off_by 2)) p4 = (Ret tt, p8)
    /\ accounted p8 [1; 1; 1; 1; 2; 2; 2; 2] [1; 4] [1; 1; 1; 1; 2; 2; 2; 2] [1; 2].
Proof.
  intros H4.
  destruct (probe_step _ _ _ _ _ (IZR 5 * 0.25) 5 2 H4 ltac:(lra)) as (p5 & E5 & H5).
  rewrite quarter_5 in H5. cbn [app] in H5.
  destruct (probe_step _ _ _ _ _ (IZR 6 * 0.25) 6 2 H5 ltac:(lra)) as (p6 & E6 & H6).
  rewrite quarter_6 in H6. cbn [app] in H6.
  destruct (probe_step _ _ _ _ _ (IZR 7 * 0.25) 7 2 H6 ltac:(lra)) as (p7 & E7 & H7).
  rewrite quarter_7 in H7. cbn [app] in H7.
  destruct (probe_step _ _ _ _ _ (IZR 8 * 0.25) 8 2 H7 ltac:(lra)) as (p8 & E8 & H8).
  rewrite quarter_8, round_quarter_8 in H8. cbn [app] in H8.
  rewrite second_cycle_window, mean_sq_twos, sqrt_4 in H8.
  exists p8. split; [| exact H8].
  cbn [replicate time_loop].
  run_with ltac:(exact E5). change (5 + 1)%Z with 6%Z.
  run_with ltac:(exact E6). change (6 + 1)%Z with 7%Z.
  run_with ltac:(exact E7). change (7 + 1)%Z with 8%Z.
  run_with ltac:(exact E8). reflexivity.
Qed.

(** Claim C1 fails in the code for the divergence series.  In the run
    with four steps in a second whose norms are 1, 1, 1, 1, 2, 2, 2, 2,
    the loop returns after each second; after the first the cycle lists
    of the divergence and of the velocity error are [1]; after the second
    the cycle lists of the three velocity errors are [1; 2], the root
    mean squares of the two windows, but the cycle list of the divergence
    is [1; 4] and not [1; 2]: [compute_div] appends the mean of the
    squares without the square root. *)
Theorem divergence_cycle_aggregate_is_mean_square :
  exists p4 p8,
    time_loop probe 0.25 1 (replicate 4 (off_by 1)) (initialized 0) = (Ret tt, p4)
    /\ time_loop probe 0.25 5 (replicate 4 (off_by 2)) p4 = (Ret tt, p8)
    /\ series p4 "d" [1; 1; 1; 1] [1]
    /\ series p4 "u_L2" [1; 1; 1; 1] [1]
    /\ series p8 "d" [1; 1; 1; 1; 2; 2; 2; 2] [1; 4]
    /\ series p8 "u_L2" [1; 1; 1; 1; 2; 2; 2; 2] [1; 2]
    /\ series p8 "u_H1" [1; 1; 1; 1; 2; 2; 2; 2] [1; 2]
    /\ series p8 "u_H1w" [1; 1; 1; 1; 2; 2; 2; 2] [1; 2]
    /\ ~ series p8 "d" [1; 1; 1; 1; 2; 2; 2; 2] [1; 2].
Proof.
  destruct first_second as (p4 & E4 & H4).
  destruct (second_second p4 H4) as (p8 & E8 & H8).
  exists p4, p8.
  destruct H4 as (_ & _ & _ & _ & Hd4 & H24 & _).
  destruct H8 as (_ & _ & _ & _ & Hd8 & H28 & H18 & Hw8).
  repeat (split; [assumption |]).
  intros Hbad. destruct (series_functional _ _ _ _ _ _ Hd8 Hbad) as [_ Heq].
  injection Heq as Heq. lra.
Qed.

(** *** The stop of the error control *)

Section Stop.
Variables (fe : dolfin) (is_tent : bool) (velocity : array) (t : R) (p : problem).
Variables (sol : array) (nL2 nH1 : R).
Hypothesis Hec : doErrControl (args p) = true.
Hypothesis Han : has_analytic_solution (args p) = true.
Hypothesis Hready : error_ready fe is_tent velocity p sol nL2 nH1.

Local Abbreviation key_L2 := (if is_tent then "u2L2" else "u_L2").
Local Abbreviation key_H1 := (if is_tent then "u2H1" else "u_H1").
Local Abbreviation errorL2 := (sqrt (assemble_L2_sq fe velocity sol)).
Local Abbreviation errorH1 :=
  (sqrt (assemble_L2_sq fe velocity sol + assemble_H1semi_sq fe velocity sol)).
Local Abbreviation stop := (RuntimeError "STOPPED: Failed divergence test!").

(** The outcome and the object after [compute_err]. *)
Lemma compute_err_outcome :
  exists p' l2 l1,
    GeneralProblem.compute_err fe is_tent velocity t p
    = (if Rgtb (errorH1 / nH1) (divergence_treshold (ec p)) then Raise stop else Ret tt, p')
    /\ listDict p !! key_L2 = Some l2 /\ listDict p !! key_H1 = Some l1
    /\ args p' = args p /\ clk p' = clk p /\ files p' = files p
    /\ ec p' = GeneralProblem.set_last_error (errorH1 / nH1) (ec p)
    /\ (exists l2', listDict p' !! key_L2 = Some l2'
          /\ list_ l2' = list_ l2 ++ [errorL2]
          /\ name l2' = name l2 /\ abrev l2' = abrev l2
          /\ (if truthy (isWholeSecond (clk p))
              then exists s sl, stepsInSecond (clk p) = Some s /\ slist l2 = Some sl
                   /\ slist l2' = Some (sl ++ [sqrt (sum_sq (py_slice (list_ l2')
                                           (N0 (clk p)) (N1 (clk p))) / IZR s)])
              else slist l2' = slist l2))
    /\ (exists l1', listDict p' !! key_H1 = Some l1'
          /\ list_ l1' = list_ l1 ++ [errorH1]
          /\ name l1' = name l1 /\ abrev l1' = abrev l1
          /\ (if truthy (isWholeSecond (clk p))
              then exists s sl, stepsInSecond (clk p) = Some s /\ slist l1 = Some sl
                   /\ slist l1' = Some (sl ++ [sqrt (sum_sq (py_slice (list_ l1')
                                           (N0 (clk p)) (N1 (clk p))) / IZR s)])
              else slist l1' = slist l1)).
Proof.
  destruct Hready as (Hsol & HnL2 & HnzL2 & HnH1 & HnzH1 & HeL2 & HeH1
                      & (l2 & l1 & El2 & El1 & Hsl) & Htest & Hsteps).
  assert (Hw : exists s sl2 sl1,
    truthy (isWholeSecond (clk p)) = true ->
    stepsInSecond (clk p) = Some s /\ (0 < s)%Z /\ slist l2 = Some sl2 /\ slist l1 = Some sl1).
  { destruct (truthy (isWholeSecond (clk p))) eqn:Ew.
    - destruct (Hsl eq_refl) as [[sl2 Es2] [sl1 Es1]].
      destruct (Hsteps eq_refl) as (s & Hs & Hpos).
      exists s, sl2, sl1. auto.
    - exists 0%Z, [], []. discriminate. }
  destruct Hw as (s & sl2 & sl1 & Hw).
  pose proof (compute_err_run fe is_tent velocity t p l2 l1 sol nL2 nH1 s sl2 sl1
                Hec Han El2 El1 Hsol HeL2 HeH1 HnL2 HnH1 HnzL2 HnzH1 Htest Hw) as Hrun.
  destruct (closed_attrs fe is_tent velocity p l2 l1 sol nH1 s sl2 sl1 El2 El1 Htest Hw)
    as (Hclk & Hargs & _ & Hfiles & Hect & HcL2 & HcH1).
  eexists. exists l2, l1. split; [exact Hrun |].
  split; [exact El2 |]. split; [exact El1 |].
  split; [exact Hargs |]. split; [exact Hclk |]. split; [exact Hfiles |].
  split; [exact Hect |].
  split; (eexists; split; [eassumption |]);
    destruct (truthy (isWholeSecond (clk p))) eqn:Ew;
    cbn [list_ name abrev slist set_list set_slist];
    repeat (split; [reflexivity |]);
    try reflexivity;
    destruct (Hw eq_refl) as (Hs & _ & Hsl2 & Hsl1);
    eexists; eexists; repeat (split; [eassumption |]); reflexivity.
Qed.

End Stop.

(** *** Rows of report_time_lines.csv *)

Lemma keeps_bind {A B} (I : problem -> Prop) (c : M A) (k : A -> M B) :
  keeps I c -> (forall a, keeps I (k a)) -> keeps I (c ≫= k).
Proof.
  intros Hc Hk p Hp. unfold mbind, M_bind. specialize (Hc p Hp).
  destruct (c p) as [[a | e] p']; cbn [snd] in *; [now apply Hk | exact Hc].
Qed.

Lemma keeps_get {A} (I : problem -> Prop) (f : problem -> A) : keeps I (get f).
Proof. intros p Hp. exact Hp. Qed.

Lemma keeps_lift {A} (I : problem -> Prop) (c : outcome A) : keeps I (lift c).
Proof. intros p Hp. exact Hp. Qed.

Lemma keeps_skip (I : problem -> Prop) : keeps I skip.
Proof. intros p Hp. exact Hp. Qed.

Lemma keeps_modify (I : problem -> Prop) (f : problem -> problem) :
  (forall p, I p -> I (f p)) -> keeps I (modify f).
Proof. intros Hf p Hp. now apply Hf. Qed.

Lemma keeps_listDict_get (I : problem -> Prop) (key : string) : keeps I (listDict_get key).
Proof.
  intros p Hp. unfold listDict_get, mbind, M_bind, get. cbn.
  destruct (listDict p !! key); exact Hp.
Qed.

Lemma starts_with_writerow (path : string) (rows : list (list cell)) (row : list cell) :
  keeps (starts_with path rows) (GeneralProblem.writerow path row).
Proof.
  intros p (more & Hp). exists (more ++ [row]).
  cbn. rewrite lookup_alter_eq, Hp. cbn. now rewrite app_assoc.
Qed.

Lemma starts_with_on_entry (path : string) (rows : list (list cell)) (key : string) f :
  keeps (starts_with path rows) (modify (on_entry key f)).
Proof. apply keeps_modify. intros p Hp. exact Hp. Qed.

(** Once the plain row of a functional is written it stays in the file,
    whatever happens to the scaled, normalized and relative rows. *)
Lemma time_lines_rows_plain (path key : string) (q : problem) (l : functional)
    (rows : list (list cell)) :
  listDict q !! key = Some l -> list_ l <> [] -> files q !! path = Some (Csv rows) ->
  starts_with path
    (rows ++ [[Str (md_name (args q)); Str (name l); Str (abrev l)] ++ map Num (list_ l)])
    (GeneralProblem.time_lines_rows path key q).2.
Proof.
  intros Hl Hne Hf. unfold GeneralProblem.time_lines_rows.
  run. run.
  destruct (list_ l) as [| x xs] eqn:El; [contradiction |]. rewrite <- El.
  set (row := [Str (md_name (args q)); Str (name l); Str (abrev l)] ++ map Num (list_ l)).
  run_with ltac:(apply modify_run).
  match goal with |- starts_with _ _ (?c _).2 =>
    assert (Hk : keeps (starts_with path (rows ++ [row])) c) end.
  { apply keeps_bind.
    - destruct (scale l); [| apply keeps_skip].
      apply keeps_bind; [apply keeps_get | intros sh].
      apply keeps_bind; [apply keeps_lift | intros tl]. apply starts_with_writerow.
    - intros _. apply keeps_bind.
      + destruct (norm l); [| apply keeps_skip].
        apply keeps_bind; [apply keeps_get | intros sh].
        destruct (sh c); [apply starts_with_on_entry |].
        apply keeps_bind; [apply keeps_lift | intros tl]. apply starts_with_writerow.
      + intros _. destruct (relative l); [| apply keeps_skip].
        apply keeps_bind; [apply keeps_listDict_get | intros ne].
        apply keeps_bind; [apply keeps_lift | intros tl].
        apply keeps_bind; [apply starts_with_on_entry | intros _].
        apply starts_with_writerow. }
  apply Hk. exists []. cbn. rewrite lookup_alter_eq, Hf. cbn. now rewrite app_nil_r.
Qed.

(** *** The first step of the small run *)

Lemma first_step_spec :
  exists sol,
    Problem.update_time probe (IZR 1 * 0.25) 1 (initialized 0) = (Ret tt, first_step)
    /\ coef sol 2 = 1
    /\ args first_step = args (Problem.init 0 quarter_steps)
    /\ files first_step = ∅
    /\ ec first_step
       = Problem.set_analytic sol (coef sol 2) (coef sol 2) (sqrt (coef sol 2 * coef sol 2))
           (ec (initialized 0))
    /\ divergence_treshold (ec first_step) = 10
    /\ isWholeSecond (clk first_step) = Some false
    /\ series first_step "u_L2" [] [] /\ series first_step "u_H1" [] [].
Proof.
  destruct accounted_initialized as (Hready & _ & _ & Hthr & _ & H2 & H1 & _).
  pose proof Hready as (Hsave & Hs & Hb & Hwall & HkL2 & HkH1 & HkH1w).
  destruct (update_time_run probe (IZR 1 * 0.25) 1 (initialized 0) 4
              Hsave Hs Hb Hwall HkL2 HkH1 HkH1w)
    as (p' & sol & E & Esol & Hargs & _ & _ & Hfiles & Hec & Hld & _ & _ & _ & _ & Hw & _).
  destruct (initialized_spec 0) as (sol0 & _ & Ha0 & _ & Hf0 & _).
  exists sol. unfold first_step. rewrite E. cbn [snd].
  split; [reflexivity |]. split; [exact (steady_solution 0 _ sol Esol) |].
  split; [now rewrite Hargs |]. split; [now rewrite Hfiles, Hf0 |].
  split; [exact Hec |]. split; [now rewrite Hec |].
  split; [now rewrite Hw, quarter_1 |].
  split; (eapply series_ext; [| eassumption]); rewrite Hld;
    now rewrite !lookup_alter_ne by discriminate.
Qed.

(** The first step is ready for the error of any velocity. *)
Lemma first_step_error_ready (x : R) :
  exists sol, coef sol 2 = 1 /\ error_ready probe false (off_by x) first_step sol 1 1.
Proof.
  destruct first_step_spec as (sol & _ & Hc & Ha & _ & Hec & _ & Hw & H2 & H1).
  exists sol. split; [exact Hc |]. unfold error_ready. rewrite Hec, Ha, Hw.
  cbn [solution analytic_v_norm_L2 analytic_v_norm_H1 Problem.set_analytic truthy].
  rewrite Hc. split; [reflexivity |]. split; [reflexivity |]. split; [lra |].
  split; [reflexivity |]. split; [lra |].
  split; [apply (Rle_0_sqr (coef (off_by x) 2 - coef sol 2)) |].
  split; [apply Rle_refl |].
  destruct H2 as (l2 & El2 & _), H1 as (l1 & El1 & _).
  split; [exists l2, l1; repeat split; auto; discriminate |].
  split; discriminate.
Qed.

(** *** The claims about the stop *)

(** Claim C3.  With error control on and an analytic solution,
    [compute_err] on a ready problem raises the stop error exactly when
    the relative H1 error of this call, the H1 error divided by the
    analytic H1 norm of this time, is greater than the threshold, and
    returns normally exactly when it is not; the override of the
    Womersley problem passes the stop on; the relative error is stored
    either way, the threshold is not changed, and [__init__] sets it to
    10. *)
Theorem compute_err_stops_iff_threshold_exceeded (fe : dolfin) (is_tent : bool)
    (velocity : array) (t : R) (p : problem) (sol : array) (nL2 nH1 : R) :
  doErrControl (args p) = true -> has_analytic_solution (args p) = true ->
  error_ready fe is_tent velocity p sol nL2 nH1 ->
  let rel := sqrt (assemble_L2_sq fe velocity sol + assemble_H1semi_sq fe velocity sol) / nH1 in
  let result := GeneralProblem.compute_err fe is_tent velocity t p in
  (result.1 = Raise (RuntimeError "STOPPED: Failed divergence test!")
     <-> rel > divergence_treshold (ec p))
  /\ (result.1 = Ret tt <-> ~ rel > divergence_treshold (ec p))
  /\ (rel > divergence_treshold (ec p) ->
        (Problem.compute_err fe is_tent velocity t p).1
        = Raise (RuntimeError "STOPPED: Failed divergence test!"))
  /\ last_error (ec result.2) = Some rel
  /\ divergence_treshold (ec result.2) = divergence_treshold (ec p)
  /\ (forall rank a, divergence_treshold (ec (Problem.init rank a)) = 10).
Proof.
  intros Hec Han Hready rel result.
  destruct (compute_err_outcome fe is_tent velocity t p sol nL2 nH1 Hec Han Hready)
    as (p' & l2 & l1 & E & _ & _ & _ & _ & _ & Hect & _).
  fold rel in E, Hect. unfold result.
  destruct (Rgtb rel (divergence_treshold (ec p))) eqn:Eg;
    rewrite E; cbn [fst snd]; rewrite Hect.
  - apply Rgtb_true in Eg. repeat split; try easy.
    intros _. now rewrite (compute_err_override_stop _ _ _ _ _ _ _ E).
  - apply Rgtb_false in Eg. repeat split; try easy.
Qed.

(** Claim C3, an instance: the first step of the small run with a
    velocity that is off by 20. *)
Lemma compute_err_stops_iff_threshold_exceeded_witness :
  exists sol,
    error_ready probe false (off_by 20) first_step sol 1 1
    /\ (let rel := sqrt (assemble_L2_sq probe (off_by 20) sol
                         + assemble_H1semi_sq probe (off_by 20) sol) / 1 in
        let result := GeneralProblem.compute_err probe false (off_by 20) 0.25 first_step in
        (result.1 = Raise (RuntimeError "STOPPED: Failed divergence test!")
           <-> rel > divergence_treshold (ec first_step))
        /\ (result.1 = Ret tt <-> ~ rel > divergence_treshold (ec first_step))
        /\ (rel > divergence_treshold (ec first_step) ->
              (Problem.compute_err probe false (off_by 20) 0.25 first_step).1
              = Raise (RuntimeError "STOPPED: Failed divergence test!"))
        /\ last_error (ec result.2) = Some rel
        /\ divergence_treshold (ec result.2) = divergence_treshold (ec first_step)
        /\ (forall rank a, divergence_treshold (ec (Problem.init rank a)) = 10)).
Proof.
  destruct (first_step_error_ready 20) as (sol & _ & Hready).
  destruct first_step_spec as (_ & _ & _ & Ha & _).
  exists sol. split; [exact Hready |].
  apply (compute_err_stops_iff_threshold_exceeded probe false (off_by 20) 0.25 first_step
           sol 1 1).
  - rewrite Ha. reflexivity.
  - rewrite Ha. reflexivity.
  - exact Hready.
Defined.

(** Claim C10.  When [compute_err] raises the stop error, the state it
    leaves holds the L2 and the H1 error of this step at the end of their
    series and, when the step closes a cycle, the root mean square of the
    window at the end of their cycle lists; the override of the Womersley
    problem leaves the same state; and the time-lines block of a later
    report writes a row with these values. *)
Theorem stop_keeps_the_recorded_values (fe : dolfin) (is_tent : bool) (velocity : array)
    (t : R) (p p' : problem) (sol : array) (nL2 nH1 : R) (l2 l1 : functional) :
  doErrControl (args p) = true -> has_analytic_solution (args p) = true ->
  error_ready fe is_tent velocity p sol nL2 nH1 ->
  listDict p !! (if is_tent then "u2L2" else "u_L2") = Some l2 ->
  listDict p !! (if is_tent then "u2H1" else "u_H1") = Some l1 ->
  GeneralProblem.compute_err fe is_tent velocity t p
  = (Raise (RuntimeError "STOPPED: Failed divergence test!"), p') ->
  Problem.compute_err fe is_tent velocity t p
  = (Raise (RuntimeError "STOPPED: Failed divergence test!"), p')
  /\ (exists l2',
        listDict p' !! (if is_tent then "u2L2" else "u_L2") = Some l2'
        /\ list_ l2' = list_ l2 ++ [sqrt (assemble_L2_sq fe velocity sol)]
        /\ (if truthy (isWholeSecond (clk p))
            then exists s sl, stepsInSecond (clk p) = Some s /\ slist l2 = Some sl
                 /\ slist l2' = Some (sl ++ [sqrt (sum_sq (py_slice (list_ l2')
                                         (N0 (clk p)) (N1 (clk p))) / IZR s)])
            else slist l2' = slist l2)
        /\ forall path rows q,
             listDict q !! (if is_tent then "u2L2" else "u_L2") = Some l2' ->
             files q !! path = Some (Csv rows) ->
             starts_with path
               (rows ++ [[Str (md_name (args q)); Str (name l2); Str (abrev l2)]
                         ++ map Num (list_ l2 ++ [sqrt (assemble_L2_sq fe velocity sol)])])
               (GeneralProblem.time_lines_rows path
                  (if is_tent then "u2L2" else "u_L2") q).2)
  /\ (exists l1',
        listDict p' !! (if is_tent then "u2H1" else "u_H1") = Some l1'
        /\ list_ l1' = list_ l1 ++ [sqrt (assemble_L2_sq fe velocity sol
                                          + assemble_H1semi_sq fe velocity sol)]
        /\ (if truthy (isWholeSecond (clk p))
            then exists s sl, stepsInSecond (clk p) = Some s /\ slist l1 = Some sl
                 /\ slist l1' = Some (sl ++ [sqrt (sum_sq (py_slice (list_ l1')
                                         (N0 (clk p)) (N1 (clk p))) / IZR s)])
            else slist l1' = slist l1)
        /\ forall path rows q,
             listDict q !! (if is_tent then "u2H1" else "u_H1") = Some l1' ->
             files q !! path = Some (Csv rows) ->
             starts_with path
               (rows ++ [[Str (md_name (args q)); Str (name l1); Str (abrev l1)]
                         ++ map Num (list_ l1 ++ [sqrt (assemble_L2_sq fe velocity sol
                                                   + assemble_H1semi_sq fe velocity sol)])])
               (GeneralProblem.time_lines_rows path
                  (if is_tent then "u2H1" else "u_H1") q).2).
Proof.
  intros Hec Han Hready El2 El1 Estop.
  destruct (compute_err_outcome fe is_tent velocity t p sol nL2 nH1 Hec Han Hready)
    as (p'' & l2_ & l1_ & E & El2_ & El1_ & _ & _ & _ & _ & H2 & H1).
  rewrite El2 in El2_. injection El2_ as <-. rewrite El1 in El1_. injection El1_ as <-.
  pose proof (eq_trans (eq_sym E) Estop) as Hx.
  apply pair_equal_spec in Hx as [Hx <-].
  split; [| split].
  - apply compute_err_override_stop. exact Estop.
  - destruct H2 as (l2' & E2' & Hlist & Hname & Habrev & Hslist).
    exists l2'. repeat (split; [assumption |]).
    intros path rows q Hq Hf. rewrite <- Hlist, <- Hname, <- Habrev.
    apply time_lines_rows_plain; auto.
    rewrite Hlist. now destruct (list_ l2).
  - destruct H1 as (l1' & E1' & Hlist & Hname & Habrev & Hslist).
    exists l1'. repeat (split; [assumption |]).
    intros path rows q Hq Hf. rewrite <- Hlist, <- Hname, <- Habrev.
    apply time_lines_rows_plain; auto.
    rewrite Hlist. now destruct (list_ l1).
Qed.

(** In the first step of the small run a velocity that is off by 20 stops
    the run. *)
Lemma first_step_stops :
  exists sol p',
    error_ready probe false (off_by 20) first_step sol 1 1
    /\ GeneralProblem.compute_err probe false (off_by 20) 0.25 first_step
       = (Raise (RuntimeError "STOPPED: Failed divergence test!"), p')
    /\ sqrt (assemble_L2_sq probe (off_by 20) sol) = 20.
Proof.
  destruct (first_step_error_ready 20) as (sol & Hc & Hready).
  destruct first_step_spec as (_ & _ & _ & Ha & _ & _ & Hthr & _).
  destruct (compute_err_outcome probe false (off_by 20) 0.25 first_step sol 1 1)
    as (p' & _ & _ & E & _); [now rewrite Ha | now rewrite Ha | exact Hready |].
  assert (E2 : sqrt (assemble_L2_sq probe (off_by 20) sol) = 20).
  { change (sqrt ((1 + 20 - coef sol 2) * (1 + 20 - coef sol 2)) = 20).
    apply sqrt_sq_diff; [lra | exact Hc]. }
  exists sol, p'. split; [exact Hready |]. split; [| exact E2].
  rewrite E. f_equal.
  change (assemble_H1semi_sq probe (off_by 20) sol) with 0.
  rewrite Rplus_0_r, E2, Hthr.
  rewrite (proj2 (Rgtb_true _ _)); [reflexivity | lra].
Qed.

(** Claim C10, an instance: the first step of the small run with a
    velocity that is off by 20. *)
Lemma stop_keeps_the_recorded_values_witness :
  exists sol p' l2 l2',
    error_ready probe false (off_by 20) first_step sol 1 1
    /\ listDict first_step !! "u_L2" = Some l2
    /\ GeneralProblem.compute_err probe false (off_by 20) 0.25 first_step
       = (Raise (RuntimeError "STOPPED: Failed divergence test!"), p')
    /\ Problem.compute_err probe false (off_by 20) 0.25 first_step
       = (Raise (RuntimeError "STOPPED: Failed divergence test!"), p')
    /\ listDict p' !! "u_L2" = Some l2'
    /\ list_ l2' = list_ l2 ++ [sqrt (assemble_L2_sq probe (off_by 20) sol)].
Proof.
  destruct first_step_stops as (sol & p' & Hready & Estop & _).
  destruct first_step_spec as (_ & _ & _ & Ha & _ & _ & _ & _ & (l2 & El2 & _) & (l1 & El1 & _)).
  destruct (stop_keeps_the_recorded_values probe false (off_by 20) 0.25 first_step p'
              sol 1 1 l2 l1) as (Hover & (l2' & E2' & Hlist & _) & _).
  - rewrite Ha. reflexivity.
  - rewrite Ha. reflexivity.
  - exact Hready.
  - exact El2.
  - exact El1.
  - exact Estop.
  - exists sol, p', l2, l2'.
    split; [exact Hready |]. split; [exact El2 |]. split; [exact Estop |].
    split; [exact Hover |]. split; [exact E2' | exact Hlist].
Defined.

(** *** The whole second and its window *)

(** Claim C4, as the code has it.  On a problem that is ready for a step,
    [update_time] at the time [t] returns and marks the step as closing a
    cycle exactly when [t > 0.5] and [t] is within half a millisecond of
    a whole number [k] of seconds (the code rounds [1000 t] and tests it
    modulo 1000; the size of the timestep plays no part).  On such a step
    it records the second [k] and sets the window to the indices from
    [(k-1)*s] up to [k*s], [s] being the number of steps in a second, so
    that the slice of a list that has reached [k*s] entries consists of
    the [s] entries of that second; on any other step the window and the
    list of seconds stay.  [initialize] sets the number of steps in a
    second to [round(1/dt)]. *)
Theorem update_time_closes_cycle_within_half_millisecond
    (fe : dolfin) (t : R) (n : Z) (p : problem) (s : Z) :
  step_ready fe p s ->
  exists p',
    Problem.update_time fe t n p = (Ret tt, p')
    /\ stepsInSecond (clk p') = Some s
    /\ (isWholeSecond (clk p') = Some true
        <-> t > 0.5 /\ exists k : Z, IZR k - / 2000 <= t < IZR k + / 2000)
    /\ (isWholeSecond (clk p') = Some true \/
        (isWholeSecond (clk p') = Some false
         /\ N0 (clk p') = N0 (clk p) /\ N1 (clk p') = N1 (clk p)
         /\ second_list (clk p') = second_list (clk p)))
    /\ (forall k : Z, t > 0.5 -> IZR k - / 2000 <= t < IZR k + / 2000 ->
          (1 <= k)%Z
          /\ second_list (clk p') = second_list (clk p) ++ [k]
          /\ N0 (clk p') = Some ((k - 1) * s)%Z /\ N1 (clk p') = Some (k * s)%Z
          /\ forall xs : list R,
               (0 <= s)%Z -> (Z.to_nat (k * s) <= length xs)%nat ->
               py_slice xs (N0 (clk p')) (N1 (clk p'))
               = take (Z.to_nat s) (drop (Z.to_nat ((k - 1) * s)) xs))
    /\ (forall q : problem, md_dt (args q) <> 0 ->
          exists q',
            GeneralProblem.initialize q = (Ret tt, q')
            /\ stepsInSecond (clk q') = Some (py_round (1 / md_dt (args q)))).
Proof.
  intros (Hsave & Hs & Hb & Hwall & HkL2 & HkH1 & HkH1w).
  destruct (update_time_run fe t n p s Hsave Hs Hb Hwall HkL2 HkH1 HkH1w)
    as (p' & sol & E & _ & _ & _ & _ & _ & _ & _ & Hs' & _ & _ & _ & Hw & Hwin).
  exists p'. split; [exact E |]. split; [exact Hs' |].
  pose proof (closes_cycle_iff t) as Hiff.
  destruct (Rgtb t 0.5 && bool_decide ((py_round (t * 1000) mod 1000)%Z = 0%Z)) eqn:Ec.
  - split; [rewrite Hw; split; [intros _; now apply Hiff | reflexivity] |].
    split; [now left |]. split.
    + intros k Ht Hk. destruct (py_round_whole_second t k Ht Hk) as [Hr Hk1].
      destruct Hwin as (H0 & H1 & Hsl). rewrite Hr in H0, H1, Hsl.
      split; [exact Hk1 |]. split; [exact Hsl |]. split; [exact H0 |].
      split; [exact H1 |].
      intros xs Hs0 Hlen. rewrite H0, H1. now apply py_slice_window.
    + intros q Hq. eexists. split; [now apply initialize_run | reflexivity].
  - assert (Hno : ~ (t > 0.5 /\ exists k : Z, IZR k - / 2000 <= t < IZR k + / 2000)).
    { intros H. apply Hiff in H. discriminate. }
    split; [rewrite Hw; split; [discriminate | intros H; now destruct Hno] |].
    split; [right; split; [exact Hw | exact Hwin] |]. split.
    + intros k Ht Hk. destruct Hno. split; [exact Ht | now exists k].
    + intros q Hq. eexists. split; [now apply initialize_run | reflexivity].
Qed.

(** The small run is ready for its first step. *)
Lemma initialized_ready : step_ready probe (initialized 0) 4.
Proof.
  rewrite <- quarter_steps_per_second.
  apply (initialized_with_ready quarter_steps 0); [cbn; lra | reflexivity].
Qed.

(** Claim C4, an instance: with four steps in a second, the step at the
    time 1 closes the first cycle, whose window is the indices 0 to 4. *)
Lemma update_time_closes_cycle_within_half_millisecond_witness :
  step_ready probe (initialized 0) 4
  /\ exists p',
       Problem.update_time probe 1 4 (initialized 0) = (Ret tt, p')
       /\ isWholeSecond (clk p') = Some true
       /\ N0 (clk p') = Some 0%Z /\ N1 (clk p') = Some 4%Z.
Proof.
  split; [exact initialized_ready |].
  destruct (update_time_closes_cycle_within_half_millisecond
              probe 1 4 (initialized 0) 4 initialized_ready)
    as (p' & E & _ & Hiff & _ & Hwin & _).
  assert (Ht : 1 > 0.5) by lra.
  assert (Hk : IZR 1 - / 2000 <= 1 < IZR 1 + / 2000) by lra.
  exists p'. split; [exact E |].
  split; [apply Hiff; split; [exact Ht | exists 1%Z; exact Hk] |].
  destruct (Hwin 1%Z Ht Hk) as (_ & _ & H0 & H1 & _).
  split; [exact H0 | exact H1].
Defined.

(** The run with steps of 0.3 seconds is ready for a step. *)
Lemma third_steps_ready : step_ready probe (initialized_with third_steps 0) 3.
Proof.
  assert (Hr : py_round (1 / meta_dt third_steps) = 3%Z).
  { apply py_round_nonneg; cbn; lra. }
  rewrite <- Hr. apply (initialized_with_ready third_steps 0); [cbn; lra | reflexivity].
Qed.

(** Claim C4 as stated fails: with steps of 0.3 seconds the third step is
    at the time 0.9, past 0.5 and within half a timestep (0.15) of the
    whole second 1, and [update_time] does not mark it as closing a
    cycle. *)
Lemma step_within_half_timestep_not_closing :
  exists p',
    Problem.update_time probe 0.9 3 (initialized_with third_steps 0) = (Ret tt, p')
    /\ md_dt (args (initialized_with third_steps 0)) = 0.3
    /\ 0.9 > 0.5
    /\ Rabs (0.9 - IZR 1) <= md_dt (args (initialized_with third_steps 0)) / 2
    /\ isWholeSecond (clk p') = Some false.
Proof.
  pose proof third_steps_ready as (Hsave & Hs & Hb & Hwall & HkL2 & HkH1 & HkH1w).
  destruct (update_time_run probe 0.9 3 (initialized_with third_steps 0) 3
              Hsave Hs Hb Hwall HkL2 HkH1 HkH1w)
    as (p' & sol & E & _ & _ & _ & _ & _ & _ & _ & _ & _ & _ & _ & Hw & _).
  assert (Hdt : md_dt (args (initialized_with third_steps 0)) = 0.3).
  { destruct (initialized_with_spec third_steps 0) as (sol0 & _ & Ha & _).
    - cbn. lra.
    - rewrite Ha. reflexivity. }
  exists p'. split; [exact E |]. split; [exact Hdt |]. split; [lra |].
  split.
  { rewrite Hdt. apply Rabs_le_iff. lra. }
  rewrite Hw. f_equal. apply not_true_is_false. intros Hc.
  apply closes_cycle_iff in Hc as (_ & k & Hk).
  assert (H0 : (0 < k)%Z) by (apply lt_IZR; lra).
  assert (H1 : (k < 1)%Z) by (apply lt_IZR; lra).
  lia.
Qed.

(** *** The status file and the rank *)

(** Claim C8 fails in the code.  On every rank, [write_status_file] on the
    initialised problem creates the file run.run with the status, and
    the first block of [report] creates report_time_lines.csv with its
    header row; no rank skips the writes.  [remove_status_file] does look
    at the rank: it deletes the status file on rank 0 and leaves it on
    every other rank. *)
Theorem write_status_file_on_every_rank (rank : nat) (t : R) :
  exists p' p'',
    GeneralProblem.write_status_file t (initialized rank) = (Ret tt, p')
    /\ MPI_rank (args p') = rank
    /\ files (initialized rank) = ∅
    /\ files p' = {[ "run.run" := Status t 250 (100 * (t / 2)) "last H1 velocity error" 0 ]}
    /\ GeneralProblem.remove_status_file p'
       = (Ret tt, if decide (rank = 0%nat) then set_files ∅ p' else p')
    /\ GeneralProblem.report_time_lines [] (initialized rank) = (Ret tt, p'')
    /\ files p''
       = {[ "WCYL_run_results/report_time_lines.csv"
            := Csv [[Str "name"; Str "what"; Str "time"]] ]}.
Proof.
  destruct (initialized_spec rank) as (sol & _ & Ha & _ & Hf & _ & Hc & He).
  assert (Hfiles : files (initialized rank) = ∅) by (rewrite Hf; reflexivity).
  eexists. eexists.
  split.
  { unfold GeneralProblem.write_status_file. run. cbv zeta. unfold GeneralProblem.open_w.
    run. attrs. rewrite Ha. cbn [md_time md_name md_dt_ms status_functional_str args
      Problem.init GeneralProblem.init shared_append Problem.set_status_str quarter_steps
      meta_time meta_name meta_dt_ms].
    rewrite py_div_ok by lra. run_lift. run. rewrite modify_run. reflexivity. }
  attrs. rewrite Ha, Hfiles, He.
  split; [reflexivity |]. split; [reflexivity |].
  split.
  { cbn [last_status_functional Problem.set_solution ec Problem.init GeneralProblem.init
         shared_append].
    rewrite insert_insert_eq. reflexivity. }
  split.
  { unfold GeneralProblem.remove_status_file. run. attrs. rewrite Ha.
    cbn [MPI_rank md_name args Problem.init GeneralProblem.init shared_append
         Problem.set_status_str quarter_steps meta_name].
    destruct (decide (rank = 0%nat)) as [-> | Hr].
    - rewrite modify_run. unfold remove_file. attrs.
      rewrite insert_insert_eq.
      change ("run" +:+ ".run") with "run.run".
      rewrite delete_insert_eq, Hfiles, delete_empty. reflexivity.
    - rewrite skip_run. reflexivity. }
  split.
  { unfold GeneralProblem.report_time_lines. run. run. cbv zeta.
    unfold GeneralProblem.open_w, GeneralProblem.writerow. run. run.
    cbn [foldr]. rewrite skip_run. reflexivity. }
  attrs. rewrite Ha, Hfiles, Hc.
  cbn [str_dir_name time_list args clk Problem.init GeneralProblem.init shared_append
       Problem.set_status_str quarter_steps meta_name set_stepsInSecond map app].
  change ("WCYL" +:+ "_" +:+ "run" +:+ "_results" +:+ "/report_time_lines.csv")
    with "WCYL_run_results/report_time_lines.csv".
  rewrite alter_insert_eq. reflexivity.
Qed.

(** * Further properties of the code *)

(** ** womersleyBC.py *)

Section ProfileInTime.
Import womersleyBC.

(** The Womersley profile has the period of one second: whatever the
    Bessel function, the factor and the point are, [eval] writes the same
    three components at the times [t] and [t + 1]. *)
Theorem eval_periodic (besselj0 : C -> C) (factor t : R) (x : R * R * R) :
  eval besselj0 factor (t + 1) x = eval besselj0 factor t x.
Proof. unfold eval, u_lambda. now rewrite u_periodic. Qed.

End ProfileInTime.

(** ** prepare_real_mesh.py *)

Section MeshScript.
Import prepare_real_mesh.

Lemma first_plane_split tl planes p k :
  first_plane tl planes p = Some k <->
  exists before obj after,
    planes = before ++ obj :: after /\ number obj = k /\ on_plane tl obj p
    /\ forall o, In o before -> ~ on_plane tl o p.
Proof.
  induction planes as [| o rest IH]; cbn.
  - split; [discriminate |]. intros (before & obj & after & E & _).
    now destruct before.
  - destruct (Rltb _ tl) eqn:E.
    + apply Rltb_on_plane in E. split.
      * intros [= <-]. exists [], o, rest. repeat split; auto.
      * intros (before & obj & after & Hsplit & Hk & Hon & Hbefore).
        destruct before as [| b before]; cbn in Hsplit.
        -- injection Hsplit as -> _. now rewrite Hk.
        -- injection Hsplit as <- _. destruct (Hbefore o); [now left | exact E].
    + assert (Hoff : ~ on_plane tl o p).
      { rewrite <- Rltb_on_plane. now rewrite E. }
      rewrite IH. split.
      * intros (before & obj & after & -> & Hk & Hon & Hbefore).
        exists (o :: before), obj, after. repeat split; auto.
        intros o' [<- | Hin]; auto.
      * intros (before & obj & after & Hsplit & Hk & Hon & Hbefore).
        destruct before as [| b before]; cbn in Hsplit.
        -- injection Hsplit as -> _. contradiction.
        -- injection Hsplit as _ ->. exists before, obj, after.
           repeat split; auto. intros o' Hin. apply Hbefore. now right.
Qed.

(** [point_in_subdomain] returns [None] exactly for a point that is within
    the tolerance of none of the planes, and otherwise the number of the
    first plane, in the order of inflows then outflows, that the point is
    within the tolerance of. *)
Theorem point_in_subdomain_first_match (inp : input) (tl : R) (p : list R) :
  (point_in_subdomain inp tl p = None
   <-> forall obj, In obj (chain inp) -> ~ on_plane tl obj p)
  /\ forall k,
       point_in_subdomain inp tl p = Some k
       <-> exists before obj after,
             chain inp = before ++ obj :: after /\ number obj = k
             /\ on_plane tl obj p /\ forall o, In o before -> ~ on_plane tl o p.
Proof.
  split; [apply first_plane_None | intros k; apply first_plane_split].
Qed.

(** The center of a plane satisfies the equation of that plane, so for a
    positive tolerance [point_in_subdomain] never returns [None] at the
    center of a plane of the input; it returns the number of the plane
    itself unless an earlier plane passes within the tolerance of that
    center. *)
Theorem center_in_some_subdomain (inp : input) (tl : R) (obj : plane) :
  0 < tl -> In obj (chain inp) ->
  on_plane tl obj (center obj)
  /\ is_Some (point_in_subdomain inp tl (center obj))
  /\ ((forall o, In o (chain inp) -> on_plane tl o (center obj) -> o = obj) ->
      point_in_subdomain inp tl (center obj) = Some (number obj)).
Proof.
  intros Htl Hin.
  assert (Hon : on_plane tl obj (center obj)).
  { unfold on_plane, d. rewrite Rminus_diag, Rabs_R0. exact Htl. }
  split; [exact Hon |]. split.
  - destruct (point_in_subdomain inp tl (center obj)) eqn:E; [eauto |].
    unfold point_in_subdomain in E. rewrite first_plane_None in E.
    destruct (E obj Hin Hon).
  - intros Huniq. unfold point_in_subdomain. now apply first_plane_unique.
Qed.

Lemma center_in_some_subdomain_witness :
  0 < 0.1
  /\ In {| number := 3; normal := [0; 0; 1]; center := [0; 0; 10] |} (chain parallel_planes)
  /\ is_Some (point_in_subdomain parallel_planes 0.1 [0; 0; 10]).
Proof.
  assert (Htl : 0 < 0.1) by lra.
  assert (Hin : In {| number := 3; normal := [0; 0; 1]; center := [0; 0; 10] |}
                   (chain parallel_planes)) by (right; left; reflexivity).
  split; [exact Htl |]. split; [exact Hin |].
  exact (proj1 (proj2 (center_in_some_subdomain parallel_planes 0.1 _ Htl Hin))).
Defined.

Lemma find_Some_In {A} (f : A -> bool) (l : list A) (x : A) :
  List.find f l = Some x -> In x l /\ f x = true.
Proof.
  induction l as [| a l IH]; cbn; [discriminate |].
  destruct (f a) eqn:E.
  - intros [= <-]. auto.
  - intros H. destruct (IH H). auto.
Qed.

(** The loop over the facets writes one marker per exterior facet and none
    for an interior facet; the marker of an exterior facet is 1 or one of
    the numbers of [number_list], and when it is not 1 every vertex of
    the facet is attributed to the plane of that number. *)
Theorem facet_function_markers (inp : input) (lengths : list R) (mesh_facets : list facet) :
  length (facet_function inp lengths mesh_facets) = length mesh_facets
  /\ forall i f, mesh_facets !! i = Some f ->
       if exterior f
       then exists id,
              facet_function inp lengths mesh_facets !! i = Some (Some id)
              /\ (id = 1%Z \/ In id (number_list inp))
              /\ (id <> 1%Z ->
                  forall v, In v (vertices f) ->
                            point_in_subdomain inp (tol lengths) v = Some id)
       else facet_function inp lengths mesh_facets !! i = Some None.
Proof.
  unfold facet_function. split; [apply length_map |].
  intros i f Hf. rewrite list_lookup_fmap, Hf. cbn.
  destruct (exterior f); [| reflexivity].
  exists (mark inp (tol lengths) (vertices f)). split; [reflexivity |].
  unfold mark. rewrite try_numbers_find.
  destruct (List.find _ _) as [num |] eqn:E.
  - apply find_Some_In in E as [Hin Hall]. split; [now right |].
    intros _. now apply all_in_spec.
  - split; [now left | congruence].
Qed.

(** [reference_coef] is the ratio of the squares of the two radii: times
    the square of the radius it gives the square of the reference radius,
    it is 1 for equal radii, and a zero radius is a division by zero. *)
Theorem reference_coef_ratio (reference_radius radius : R) :
  (radius <> 0 ->
   exists c, reference_coef reference_radius radius = Ret c
             /\ c * (radius * radius) = reference_radius * reference_radius
             /\ (reference_radius = radius -> c = 1))
  /\ (radius = 0 -> reference_coef reference_radius radius = Raise ZeroDivisionError).
Proof.
  unfold reference_coef. split.
  - intros Hr. assert (Hsq : radius * radius <> 0) by nra.
    rewrite py_div_ok by exact Hsq. eexists. split; [reflexivity |].
    split; [field; exact Hr | intros ->; field; exact Hr].
  - intros ->. rewrite Rmult_0_l. apply py_div_zero.
Qed.

Lemma py_sum_from (xs : list R) : forall acc, fold_left Rplus xs acc = acc + py_sum xs.
Proof.
  unfold py_sum. induction xs as [| x xs IH]; intros acc; cbn; [lra |].
  rewrite IH, (IH (0 + x)). lra.
Qed.

Lemma vec_cons (x y : R) (l1 l2 : list R) : vec (x :: l1) (y :: l2) = x * y + vec l1 l2.
Proof. unfold vec. cbn. unfold py_sum. cbn. rewrite py_sum_from. unfold py_sum. lra. Qed.

(** [vec] is the dot product over the common length of the two lists: it
    is symmetric, it ignores what the longer list has beyond the shorter
    one, and on two triples it is the sum of the three products. *)
Theorem vec_dot_product (list1 list2 : list R) :
  vec list1 list2 = vec list2 list1
  /\ vec list1 list2
     = vec (take (Nat.min (length list1) (length list2)) list1)
           (take (Nat.min (length list1) (length list2)) list2)
  /\ forall x1 x2 x3 y1 y2 y3,
       vec [x1; x2; x3] [y1; y2; y3] = x1 * y1 + x2 * y2 + x3 * y3.
Proof.
  split; [| split].
  - revert list2. induction list1 as [| x l1 IH]; intros [| y l2]; try reflexivity.
    rewrite !vec_cons, IH. lra.
  - revert list2. induction list1 as [| x l1 IH]; intros [| y l2]; try reflexivity.
    cbn [length Nat.min take]. rewrite !vec_cons. f_equal. apply IH.
  - intros. rewrite !vec_cons. unfold vec, py_sum. cbn. lra.
Qed.

End MeshScript.

(** ** problems/general_problem.py: the clock *)

(** The onset factor that [update_time] computes. *)
Local Abbreviation onset_at a t :=
  (if Rltb (onset a) 0.001 || Rgtb t (onset a) then 1
   else (1 - cos (PI * t / onset a)) * 0.5).

(** [update_time] case by case. *)
Lemma base_update_time_cases (t : R) (n : Z) (p : problem) :
  let q := on_clk (tick t n (onset_at (args p) t)) p in
  GeneralProblem.update_time t n p
  = if doSave (args p)
    then if decide (save_nth (args p) = 1%Z)
         then (Ret tt, on_clk (set_save_this_step true) q)
         else if Rgtb t (1 - md_dt (args p) / 2)
              then (Ret tt, on_clk (set_save_this_step true) q)
              else if decide (save_nth (args p) = 0%Z)
                   then (Raise ZeroDivisionError, q)
                   else (Ret tt, on_clk (set_save_this_step
                                           (bool_decide ((n mod save_nth (args p))%Z = 0%Z))) q)
    else (Ret tt, q).
Proof.
  cbv zeta. unfold GeneralProblem.update_time. run. run.
  destruct (doSave (args p)); [| apply skip_run].
  destruct (decide (save_nth (args p) = 1%Z)).
  { run_lift. apply modify_run. }
  destruct (Rgtb t (1 - md_dt (args p) / 2)).
  { run_lift. apply modify_run. }
  unfold GeneralProblem.py_mod. destruct (decide (save_nth (args p) = 0%Z)).
  - erewrite bind_raise by apply lift_run. reflexivity.
  - run_lift. apply modify_run.
Qed.

Lemma onset_at_bounds (a : settings) (t : R) : 0 <= onset_at a t <= 1.
Proof.
  destruct (Rltb (onset a) 0.001 || Rgtb t (onset a)); [lra |].
  pose proof (COS_bound (PI * t / onset a)) as [H1 H2]. lra.
Qed.

(** Whether [update_time] returns or raises, it has recorded the time and
    the step number, appended the time to the list of times, and set an
    onset factor between 0 and 1: the factor is 1 when the onset is
    shorter than a millisecond or the time is past the onset, 0 at the
    time 0 of a longer onset, and 1 again at the end of the onset. *)
Theorem update_time_onset_factor (t : R) (n : Z) (p : problem) :
  let p' := (GeneralProblem.update_time t n p).2 in
  actual_time (clk p') = Some t /\ step_number (clk p') = n
  /\ time_list (clk p') = time_list (clk p) ++ [t]
  /\ 0 <= onset_factor (clk p') <= 1
  /\ (onset (args p) < 0.001 \/ t > onset (args p) -> onset_factor (clk p') = 1)
  /\ (0.001 <= onset (args p) -> t = 0 -> onset_factor (clk p') = 0)
  /\ (0.001 <= onset (args p) -> t = onset (args p) -> onset_factor (clk p') = 1).
Proof.
  cbv zeta. rewrite base_update_time_cases. cbv zeta.
  assert (H : forall q : problem,
    clk q = tick t n (onset_at (args p) t) (clk p) \/
    (exists b, clk q = set_save_this_step b (tick t n (onset_at (args p) t) (clk p))) ->
    actual_time (clk q) = Some t /\ step_number (clk q) = n
    /\ time_list (clk q) = time_list (clk p) ++ [t]
    /\ 0 <= onset_factor (clk q) <= 1
    /\ (onset (args p) < 0.001 \/ t > onset (args p) -> onset_factor (clk q) = 1)
    /\ (0.001 <= onset (args p) -> t = 0 -> onset_factor (clk q) = 0)
    /\ (0.001 <= onset (args p) -> t = onset (args p) -> onset_factor (clk q) = 1)).
  { intros q Hq.
    assert (Ho : actual_time (clk q) = Some t /\ step_number (clk q) = n
                 /\ time_list (clk q) = time_list (clk p) ++ [t]
                 /\ onset_factor (clk q) = onset_at (args p) t).
    { destruct Hq as [-> | [b ->]]; repeat split. }
    destruct Ho as (-> & -> & -> & ->).
    split; [reflexivity |]. split; [reflexivity |]. split; [reflexivity |].
    split; [apply onset_at_bounds |]. split; [| split].
    - intros [Hlt | Hgt].
      + now rewrite (proj2 (Rltb_true _ _) Hlt).
      + rewrite (proj2 (Rgtb_true _ _) Hgt). now rewrite orb_true_r.
    - intros Hon ->.
      rewrite (proj2 (Rltb_false _ _)) by lra.
      rewrite (proj2 (Rgtb_false _ _)) by lra. cbn [orb].
      replace (PI * 0 / onset (args p)) with 0 by (unfold Rdiv; ring).
      rewrite cos_0. lra.
    - intros Hon ->.
      rewrite (proj2 (Rltb_false _ _)) by lra.
      rewrite (proj2 (Rgtb_false _ _)) by lra. cbn [orb].
      replace (PI * onset (args p) / onset (args p)) with PI by (field; lra).
      rewrite cos_PI. lra. }
  destruct (doSave (args p)); [| apply H; left; reflexivity].
  destruct (decide _); [apply H; right; eexists; reflexivity |].
  destruct (Rgtb t (1 - md_dt (args p) / 2)); [apply H; right; eexists; reflexivity |].
  destruct (decide _); apply H; [left; reflexivity | right; eexists; reflexivity].
Qed.

(** When saving is on and the save spacing is not zero, [update_time]
    returns and sets the save flag exactly when the spacing is 1, or the
    time is past one second less half a time step, or the step number is
    a multiple of the spacing; when saving is off it returns and leaves
    the flag as it was. *)
Theorem update_time_save_this_step (t : R) (n : Z) (p : problem) :
  (doSave (args p) = true -> save_nth (args p) <> 0%Z) ->
  exists p',
    GeneralProblem.update_time t n p = (Ret tt, p')
    /\ (doSave (args p) = true ->
        (save_this_step (clk p') = true
         <-> save_nth (args p) = 1%Z \/ t > 1 - md_dt (args p) / 2
             \/ (n mod save_nth (args p))%Z = 0%Z))
    /\ (doSave (args p) = false -> save_this_step (clk p') = save_this_step (clk p)).
Proof.
  intros Hnz. rewrite base_update_time_cases. cbv zeta.
  destruct (doSave (args p)).
  - specialize (Hnz eq_refl).
    destruct (decide (save_nth (args p) = 1%Z)) as [E1 | N1].
    { eexists. split; [reflexivity |]. split; [| discriminate].
      intros _. cbn. tauto. }
    destruct (Rgtb t (1 - md_dt (args p) / 2)) eqn:Eg.
    { apply Rgtb_true in Eg. eexists. split; [reflexivity |]. split; [| discriminate].
      intros _. cbn. tauto. }
    apply Rgtb_false in Eg.
    destruct (decide (save_nth (args p) = 0%Z)) as [E0 | _]; [contradiction |].
    eexists. split; [reflexivity |]. split; [| discriminate].
    intros _. cbn. rewrite bool_decide_eq_true. tauto.
  - eexists. split; [reflexivity |]. split; [discriminate | reflexivity].
Qed.

Lemma update_time_save_this_step_witness :
  let p := GeneralProblem.init "WCYL" 0 true
             {| arg_error := doEC; arg_save := doSave_opt; arg_savespace := 3; arg_nu := 1;
                arg_onset := 0; arg_factor := 1; meta_name := "run"; meta_dt := 0.25;
                meta_time := 2; meta_dt_ms := 250 |} in
  (doSave (args p) = true -> save_nth (args p) <> 0%Z)
  /\ exists p',
       GeneralProblem.update_time 0.5 2 p = (Ret tt, p')
       /\ save_this_step (clk p') = false.
Proof.
  cbv zeta.
  set (p := GeneralProblem.init "WCYL" 0 true _).
  assert (Hnz : doSave (args p) = true -> save_nth (args p) <> 0%Z) by (intros _; discriminate).
  split; [exact Hnz |].
  destruct (update_time_save_this_step 0.5 2 p Hnz) as (p' & E & Hsave & _).
  exists p'. split; [exact E |].
  apply not_true_is_false. intros Htrue. apply (Hsave eq_refl) in Htrue.
  destruct Htrue as [H | [H | H]]; [discriminate | cbn in H; lra | discriminate].
Defined.

(** With saving on and the save spacing 0, [update_time] raises
    [ZeroDivisionError] at every time up to one second less half a time
    step, after it has recorded the time; past that time it returns with
    the save flag set. *)
Theorem update_time_zero_spacing (t : R) (n : Z) (p : problem) :
  doSave (args p) = true -> save_nth (args p) = 0%Z ->
  exists p',
    GeneralProblem.update_time t n p
    = (if Rgtb t (1 - md_dt (args p) / 2) then Ret tt else Raise ZeroDivisionError, p')
    /\ time_list (clk p') = time_list (clk p) ++ [t]
    /\ save_this_step (clk p')
       = (if Rgtb t (1 - md_dt (args p) / 2) then true else save_this_step (clk p)).
Proof.
  intros Hsave Hz. rewrite base_update_time_cases. cbv zeta. rewrite Hsave, Hz.
  destruct (decide (0%Z = 1%Z)); [discriminate |].
  destruct (Rgtb t (1 - md_dt (args p) / 2));
    [eexists; split; [reflexivity |]; split; reflexivity |].
  destruct (decide (0%Z = 0%Z)); [| contradiction].
  eexists. split; [reflexivity |]. split; reflexivity.
Qed.

Lemma update_time_zero_spacing_witness :
  let p := GeneralProblem.init "WCYL" 0 true
             {| arg_error := doEC; arg_save := doSave_opt; arg_savespace := 0; arg_nu := 1;
                arg_onset := 0; arg_factor := 1; meta_name := "run"; meta_dt := 0.25;
                meta_time := 2; meta_dt_ms := 250 |} in
  doSave (args p) = true /\ save_nth (args p) = 0%Z
  /\ exists p',
       GeneralProblem.update_time 0.25 1 p = (Raise ZeroDivisionError, p')
       /\ time_list (clk p') = [0.25].
Proof.
  cbv zeta.
  set (p := GeneralProblem.init "WCYL" 0 true _).
  split; [reflexivity |]. split; [reflexivity |].
  destruct (update_time_zero_spacing 0.25 1 p eq_refl eq_refl) as (p' & E & Ht & _).
  exists p'. split; [| exact Ht].
  rewrite E. f_equal.
  replace (Rgtb 0.25 (1 - md_dt (args p) / 2)) with false; [reflexivity |].
  symmetry. apply Rgtb_false. cbn. lra.
Defined.

(** ** problems/general_problem.py: the status file *)

Lemma write_status_file_run (t : R) (p : problem) :
  md_time (args p) <> 0 ->
  GeneralProblem.write_status_file t p
  = (Ret tt,
     write_file (md_name (args p) +:+ ".run")
       (Status t (md_dt_ms (args p)) (100 * (t / md_time (args p)))
          (status_functional_str (args p)) (last_status_functional (ec p)))
       (write_file (md_name (args p) +:+ ".run") Empty p)).
Proof.
  intros Ht. unfold GeneralProblem.write_status_file, GeneralProblem.open_w.
  run. cbv zeta. run. attrs. rewrite py_div_ok by exact Ht. run_lift. run.
  apply modify_run.
Qed.

(** With a total time of zero in the metadata, [write_status_file] raises
    [ZeroDivisionError] after it has opened the status file for writing:
    the file is left empty, whatever it held, and no other file is
    touched. *)
Theorem write_status_file_zero_time (t : R) (p : problem) :
  md_time (args p) = 0 ->
  exists p',
    GeneralProblem.write_status_file t p = (Raise ZeroDivisionError, p')
    /\ files p' !! (md_name (args p) +:+ ".run") = Some Empty
    /\ forall path, path <> md_name (args p) +:+ ".run" -> files p' !! path = files p !! path.
Proof.
  intros Ht. unfold GeneralProblem.write_status_file, GeneralProblem.open_w.
  run. cbv zeta. run. attrs. rewrite Ht, py_div_zero.
  erewrite bind_raise by apply lift_run.
  eexists. split; [reflexivity |]. attrs. split.
  - apply lookup_insert_eq.
  - intros path Hp. now apply lookup_insert_ne.
Qed.

Lemma write_status_file_zero_time_witness :
  let p := GeneralProblem.init "WCYL" 0 true
             {| arg_error := doEC; arg_save := noSave; arg_savespace := 1; arg_nu := 1;
                arg_onset := 0; arg_factor := 1; meta_name := "run"; meta_dt := 0.25;
                meta_time := 0; meta_dt_ms := 250 |} in
  md_time (args p) = 0
  /\ exists p',
       GeneralProblem.write_status_file 0.25 p = (Raise ZeroDivisionError, p')
       /\ files p' !! "run.run" = Some Empty.
Proof.
  cbv zeta. set (p := GeneralProblem.init "WCYL" 0 true _).
  split; [reflexivity |].
  destruct (write_status_file_zero_time 0.25 p eq_refl) as (p' & E & Hf & _).
  exists p'. split; [exact E | exact Hf].
Defined.

(** On rank 0 and with a total time that is not zero, writing the status
    file and then removing it leaves the files as they were but for the
    status file, which is gone; if there was none before, the files are
    exactly as before.  Neither call changes the arguments, the clock,
    the error control attributes or the registry. *)
Theorem status_file_written_then_removed (t : R) (p : problem) :
  MPI_rank (args p) = 0%nat -> md_time (args p) <> 0 ->
  exists p1 p2,
    GeneralProblem.write_status_file t p = (Ret tt, p1)
    /\ files p1 !! (md_name (args p) +:+ ".run")
       = Some (Status t (md_dt_ms (args p)) (100 * (t / md_time (args p)))
                 (status_functional_str (args p)) (last_status_functional (ec p)))
    /\ GeneralProblem.remove_status_file p1 = (Ret tt, p2)
    /\ files p2 = delete (md_name (args p) +:+ ".run") (files p)
    /\ (files p !! (md_name (args p) +:+ ".run") = None -> files p2 = files p)
    /\ args p2 = args p /\ clk p2 = clk p /\ ec p2 = ec p /\ listDict p2 = listDict p.
Proof.
  intros Hrank Ht. eexists. eexists.
  split; [now apply write_status_file_run |]. attrs.
  split; [apply lookup_insert_eq |].
  split.
  { unfold GeneralProblem.remove_status_file. run. attrs. rewrite Hrank.
    destruct (decide (0%nat = 0%nat)); [| contradiction]. apply modify_run. }
  attrs. rewrite !delete_insert_eq.
  split; [reflexivity |]. split; [apply delete_id |]. repeat split.
Qed.

Lemma status_file_written_then_removed_witness :
  MPI_rank (args (Problem.init 0 quarter_steps)) = 0%nat
  /\ md_time (args (Problem.init 0 quarter_steps)) <> 0
  /\ exists p1 p2,
       GeneralProblem.write_status_file 0.5 (Problem.init 0 quarter_steps) = (Ret tt, p1)
       /\ GeneralProblem.remove_status_file p1 = (Ret tt, p2)
       /\ files p2 = files (Problem.init 0 quarter_steps).
Proof.
  assert (Ht : md_time (args (Problem.init 0 quarter_steps)) <> 0) by (cbn; lra).
  split; [reflexivity |]. split; [exact Ht |].
  destruct (status_file_written_then_removed 0.5 (Problem.init 0 quarter_steps) eq_refl Ht)
    as (p1 & p2 & E1 & _ & E2 & _ & Hback & _).
  exists p1, p2. split; [exact E1 |]. split; [exact E2 |]. apply Hback. reflexivity.
Defined.

(** ** problems/general_problem.py: [compute_err] *)

Section ErrorControl.
Variables (fe : dolfin) (is_tent : bool) (velocity : array) (t : R) (p : problem).
Variables (sol : array) (nL2 nH1 : R).
Hypothesis Hec : doErrControl (args p) = true.
Hypothesis Han : has_analytic_solution (args p) = true.
Hypothesis Hready : error_ready fe is_tent velocity p sol nL2 nH1.

Local Abbreviation key_L2 := (if is_tent then "u2L2" else "u_L2").
Local Abbreviation key_H1 := (if is_tent then "u2H1" else "u_H1").
Local Abbreviation key_test_L2 := (if is_tent then "u2L2test" else "u_L2test").
Local Abbreviation key_test_H1 := (if is_tent then "u2H1test" else "u_H1test").

(** The entries of the test series after [compute_err]. *)
Lemma compute_err_test_entries (lt2 lt1 : functional) :
  listDict p !! key_test_L2 = Some lt2 -> listDict p !! key_test_H1 = Some lt1 ->
  let p' := (GeneralProblem.compute_err fe is_tent velocity t p).2 in
  listDict p' !! key_test_L2
  = Some (if testErrControl (args p)
          then set_list (list_ lt2 ++ [errornorm_L2 fe velocity sol]) lt2 else lt2)
  /\ listDict p' !! key_test_H1
     = Some (if testErrControl (args p)
             then set_list (list_ lt1 ++ [errornorm_H1 fe velocity sol]) lt1 else lt1).
Proof.
  intros Et2 Et1.
  destruct Hready as (Hsol & HnL2 & HnzL2 & HnH1 & HnzH1 & HeL2 & HeH1
                      & (l2 & l1 & El2 & El1 & Hsl) & Htest & Hsteps).
  assert (Hw : exists s sl2 sl1,
    truthy (isWholeSecond (clk p)) = true ->
    stepsInSecond (clk p) = Some s /\ (0 < s)%Z /\ slist l2 = Some sl2 /\ slist l1 = Some sl1).
  { destruct (truthy (isWholeSecond (clk p))) eqn:Ew.
    - destruct (Hsl eq_refl) as [[sl2 Es2] [sl1 Es1]].
      destruct (Hsteps eq_refl) as (s & Hs & Hpos).
      exists s, sl2, sl1. auto.
    - exists 0%Z, [], []. discriminate. }
  destruct Hw as (s & sl2 & sl1 & Hw).
  cbv zeta.
  rewrite (compute_err_run fe is_tent velocity t p l2 l1 sol nL2 nH1 s sl2 sl1
             Hec Han El2 El1 Hsol HeL2 HeH1 HnL2 HnH1 HnzL2 HnzH1 Htest Hw).
  cbn [snd].
  destruct (truthy (isWholeSecond (clk p)));
    rewrite ?lookup_append_to_slist_ne by (destruct is_tent; discriminate);
    destruct (testErrControl (args p));
    (split;
     [ rewrite ?(lookup_append_to_list_ne key_test_H1) by (destruct is_tent; discriminate);
       try (erewrite lookup_append_to_list; [reflexivity |]);
       rewrite !lookup_append_to_list_ne by (destruct is_tent; discriminate);
       exact Et2
     | try (erewrite lookup_append_to_list; [reflexivity |]);
       rewrite !lookup_append_to_list_ne by (destruct is_tent; discriminate);
       exact Et1 ]).
Qed.

End ErrorControl.

(** In test mode every call of [compute_err] on a ready problem appends
    the two [errornorm] values of the velocity to the test series, also on
    the call that raises the stop; outside test mode the test series stay
    as they are. *)
Theorem compute_err_test_series (fe : dolfin) (is_tent : bool) (velocity : array) (t : R)
    (p : problem) (sol : array) (nL2 nH1 : R) (lt2 lt1 : functional) :
  doErrControl (args p) = true -> has_analytic_solution (args p) = true ->
  error_ready fe is_tent velocity p sol nL2 nH1 ->
  listDict p !! (if is_tent then "u2L2test" else "u_L2test") = Some lt2 ->
  listDict p !! (if is_tent then "u2H1test" else "u_H1test") = Some lt1 ->
  let p' := (GeneralProblem.compute_err fe is_tent velocity t p).2 in
  listDict p' !! (if is_tent then "u2L2test" else "u_L2test")
  = Some (if testErrControl (args p)
          then set_list (list_ lt2 ++ [errornorm_L2 fe velocity sol]) lt2 else lt2)
  /\ listDict p' !! (if is_tent then "u2H1test" else "u_H1test")
     = Some (if testErrControl (args p)
             then set_list (list_ lt1 ++ [errornorm_H1 fe velocity sol]) lt1 else lt1).
Proof. intros. now apply (compute_err_test_entries fe is_tent velocity t p sol nL2 nH1). Qed.

(** A problem in test mode whose analytic solution has been set by hand. *)
Local Abbreviation test_mode_problem :=
  (on_ec (Problem.set_analytic [0; 0; 1] 1 1 1)
     (Problem.init 0
        {| arg_error := test; arg_save := noSave; arg_savespace := 1; arg_nu := 1;
           arg_onset := 0; arg_factor := 1; meta_name := "run"; meta_dt := 0.25;
           meta_time := 2; meta_dt_ms := 250 |})).

Lemma test_mode_problem_ready (x : R) :
  error_ready probe false (off_by x) test_mode_problem [0; 0; 1] 1 1.
Proof.
  unfold error_ready. split; [reflexivity |]. split; [reflexivity |]. split; [lra |].
  split; [reflexivity |]. split; [lra |].
  split; [apply (Rle_0_sqr (coef (off_by x) 2 - coef [0; 0; 1] 2)) |].
  split; [apply Rle_refl |].
  split; [eexists; eexists; split; [reflexivity |]; split; [reflexivity | discriminate] |].
  split; [intros _; split; eexists; reflexivity | discriminate].
Qed.

Lemma compute_err_test_series_witness :
  error_ready probe false (off_by 3) test_mode_problem [0; 0; 1] 1 1
  /\ exists l,
       listDict (GeneralProblem.compute_err probe false (off_by 3) 0.25 test_mode_problem).2
         !! "u_L2test" = Some l
       /\ list_ l = [errornorm_L2 probe (off_by 3) [0; 0; 1]].
Proof.
  split; [apply test_mode_problem_ready |].
  destruct (compute_err_test_series probe false (off_by 3) 0.25 test_mode_problem
              [0; 0; 1] 1 1 _ _ eq_refl eq_refl (test_mode_problem_ready 3) eq_refl eq_refl)
    as [H2 _].
  eexists. split; [exact H2 | reflexivity].
Defined.

(** After [compute_err] on a ready problem, whether it returned or raised
    the stop, [write_status_file] writes the relative H1 error of that
    call as the value of the status functional. *)
Theorem status_file_shows_last_error (fe : dolfin) (is_tent : bool) (velocity : array)
    (t t' : R) (p : problem) (sol : array) (nL2 nH1 : R) :
  doErrControl (args p) = true -> has_analytic_solution (args p) = true ->
  error_ready fe is_tent velocity p sol nL2 nH1 ->
  md_time (args p) <> 0 ->
  let p' := (GeneralProblem.compute_err fe is_tent velocity t p).2 in
  exists p'',
    GeneralProblem.write_status_file t' p' = (Ret tt, p'')
    /\ files p'' !! (md_name (args p) +:+ ".run")
       = Some (Status t' (md_dt_ms (args p)) (100 * (t' / md_time (args p)))
                 (status_functional_str (args p))
                 (sqrt (assemble_L2_sq fe velocity sol + assemble_H1semi_sq fe velocity sol)
                  / nH1)).
Proof.
  intros Hec Han Hready Ht. cbv zeta.
  destruct (compute_err_outcome fe is_tent velocity t p sol nL2 nH1 Hec Han Hready)
    as (p' & l2 & l1 & E & _ & _ & Hargs & _ & _ & Hect & _).
  rewrite E. cbn [snd].
  eexists. split; [apply write_status_file_run; now rewrite Hargs |].
  attrs. rewrite Hargs, Hect. apply lookup_insert_eq.
Qed.

Lemma status_file_shows_last_error_witness :
  error_ready probe false (off_by 3) test_mode_problem [0; 0; 1] 1 1
  /\ md_time (args test_mode_problem) <> 0
  /\ exists p'',
       GeneralProblem.write_status_file 0.25
         (GeneralProblem.compute_err probe false (off_by 3) 0.25 test_mode_problem).2
       = (Ret tt, p'')
       /\ is_Some (files p'' !! "run.run").
Proof.
  assert (Ht : md_time (args test_mode_problem) <> 0) by (cbn; lra).
  split; [apply test_mode_problem_ready |]. split; [exact Ht |].
  destruct (status_file_shows_last_error probe false (off_by 3) 0.25 0.25 test_mode_problem
              [0; 0; 1] 1 1 eq_refl eq_refl (test_mode_problem_ready 3) Ht) as (p'' & E & Hf).
  exists p''. split; [exact E |]. eexists. exact Hf.
Defined.

(** ** problems/womersley_cylinder.py: the override of [compute_err] *)

(** With error control off the base [compute_err] returns without
    touching the problem, and the override of the Womersley problem still
    records the H1 error on the wall: it appends it to the wall series
    (and at a whole second the root mean square of the window to the cycle
    list), leaves every other series and the error control attributes as
    they are, and never raises the stop. *)
Theorem compute_err_wall_error_without_control (fe : dolfin) (is_tent : bool)
    (velocity : array) (t : R) (p : problem) (lw : functional) (sol : array) (nw : R)
    (s : Z) (slw : list R) :
  doErrControl (args p) = false ->
  listDict p !! (if is_tent then "u2H1w" else "u_H1w") = Some lw ->
  solution (ec p) = Some sol -> 0 <= assemble_H1wall_sq fe velocity sol ->
  analytic_v_norm_H1w (ec p) = Some nw -> nw <> 0 ->
  (truthy (isWholeSecond (clk p)) = true ->
   stepsInSecond (clk p) = Some s /\ (0 < s)%Z /\ slist lw = Some slw) ->
  GeneralProblem.compute_err fe is_tent velocity t p = (Ret tt, p)
  /\ exists p' lw',
       Problem.compute_err fe is_tent velocity t p = (Ret tt, p')
       /\ listDict p' !! (if is_tent then "u2H1w" else "u_H1w") = Some lw'
       /\ list_ lw' = list_ lw ++ [sqrt (assemble_H1wall_sq fe velocity sol)]
       /\ slist lw'
          = (if truthy (isWholeSecond (clk p))
             then Some (slw ++ [sqrt (sum_sq (py_slice (list_ lw') (N0 (clk p)) (N1 (clk p)))
                                      / IZR s)])
             else slist lw)
       /\ (forall key, key <> (if is_tent then "u2H1w" else "u_H1w") ->
             listDict p' !! key = listDict p !! key)
       /\ ec p' = ec p /\ clk p' = clk p /\ files p' = files p.
Proof.
  intros Hec Hlw Hsol Hpos Hnw Hnz Hwhole.
  assert (Hbase : GeneralProblem.compute_err fe is_tent velocity t p = (Ret tt, p)).
  { unfold GeneralProblem.compute_err. run. rewrite Hec. apply skip_run. }
  split; [exact Hbase |].
  rewrite (compute_err_override_run fe is_tent velocity t p p lw sol nw s slw
             Hbase Hlw Hsol Hpos Hnw Hnz Hwhole).
  destruct (truthy (isWholeSecond (clk p))) eqn:Ew.
  - destruct (Hwhole eq_refl) as (Hs & Hs0 & Hsl).
    eexists. eexists. split; [reflexivity |].
    split.
    { eapply lookup_append_to_slist; [eapply lookup_append_to_list; exact Hlw | exact Hsl]. }
    cbn [list_ slist set_list set_slist]. split; [reflexivity |]. split; [reflexivity |].
    split; [| repeat split].
    intros key Hk.
    rewrite lookup_append_to_slist_ne, lookup_append_to_list_ne by (apply not_eq_sym, Hk).
    reflexivity.
  - eexists. eexists. split; [reflexivity |].
    split; [eapply lookup_append_to_list; exact Hlw |].
    cbn [list_ slist set_list]. split; [reflexivity |]. split; [reflexivity |].
    split; [| repeat split].
    intros key Hk. now rewrite lookup_append_to_list_ne by (apply not_eq_sym, Hk).
Qed.

Lemma compute_err_wall_error_without_control_witness :
  let p := on_ec (Problem.set_analytic [0; 0; 1] 1 1 1)
             (Problem.init 0
                {| arg_error := noEC; arg_save := noSave; arg_savespace := 1; arg_nu := 1;
                   arg_onset := 0; arg_factor := 1; meta_name := "run"; meta_dt := 0.25;
                   meta_time := 2; meta_dt_ms := 250 |}) in
  doErrControl (args p) = false
  /\ GeneralProblem.compute_err probe false (off_by 3) 0.25 p = (Ret tt, p)
  /\ exists p' lw',
       Problem.compute_err probe false (off_by 3) 0.25 p = (Ret tt, p')
       /\ listDict p' !! "u_H1w" = Some lw'
       /\ list_ lw' = [sqrt (assemble_H1wall_sq probe (off_by 3) [0; 0; 1])].
Proof.
  cbv zeta. set (p := on_ec _ _).
  split; [reflexivity |].
  destruct (compute_err_wall_error_without_control probe false (off_by 3) 0.25 p
              _ [0; 0; 1] 1 0 [] eq_refl eq_refl eq_refl
              (Rle_0_sqr (coef (off_by 3) 2 - coef [0; 0; 1] 2)) eq_refl R1_neq_R0)
    as (Hbase & p' & lw' & E & Hl & Hlist & _).
  { discriminate. }
  split; [exact Hbase |]. exists p', lw'. split; [exact E |]. split; [exact Hl | exact Hlist].
Defined.

(** ** problems/general_problem.py: [compute_div] *)

Lemma slist_get_missing (key : string) (p : problem) (l : functional) :
  listDict p !! key = Some l -> slist l = None ->
  slist_get key p = (Raise (KeyError "slist"), p).
Proof.
  intros Hl Hs. unfold slist_get. run_with ltac:(apply listDict_get_run; exact Hl).
  now rewrite Hs.
Qed.

Lemma mean_sq_window_cases (xs : list R) (p : problem) :
  mean_sq_window xs p
  = (match stepsInSecond (clk p) with
     | None => Raise TypeError
     | Some s => if decide (s = 0%Z) then Raise ZeroDivisionError
                 else Ret (sum_sq (py_slice xs (N0 (clk p)) (N1 (clk p))) / IZR s)
     end, p).
Proof.
  unfold mean_sq_window. run. cbv zeta.
  destruct (stepsInSecond (clk p)) as [s |]; cbn [unwrap].
  - run_lift. destruct (decide (s = 0%Z)) as [-> | Hs].
    + now rewrite py_div_zero.
    + rewrite py_div_ok; [reflexivity |]. intros H. now apply eq_IZR in H.
  - erewrite bind_raise by apply lift_run. reflexivity.
Qed.

(** [compute_div] case by case. *)
Lemma compute_div_cases (fe : dolfin) (is_tent : bool) (velocity : array) (p : problem) :
  let key := if is_tent then "d2" else "d" in
  let p1 := append_to_list key (norm_Hdiv0 fe velocity) p in
  GeneralProblem.compute_div fe is_tent velocity p
  = match listDict p !! key with
    | None => (Raise (KeyError key), p)
    | Some l =>
        if truthy (isWholeSecond (clk p))
        then match slist l with
             | None => (Raise (KeyError "slist"), p1)
             | Some sl =>
                 match stepsInSecond (clk p) with
                 | None => (Raise TypeError, p1)
                 | Some s =>
                     if decide (s = 0%Z) then (Raise ZeroDivisionError, p1)
                     else (Ret tt,
                           append_to_slist key
                             (sum_sq (py_slice (list_ l ++ [norm_Hdiv0 fe velocity])
                                        (N0 (clk p)) (N1 (clk p))) / IZR s) p1)
                 end
             end
        else (Ret tt, p1)
    end.
Proof.
  cbv zeta. destruct (listDict p !! _) as [l |] eqn:El.
  - destruct (truthy (isWholeSecond (clk p))) eqn:Ew.
    + pose proof (lookup_append_to_list _ (norm_Hdiv0 fe velocity) p l El) as H1.
      unfold GeneralProblem.compute_div. cbv zeta. do 3 run. attrs. rewrite Ew.
      destruct (slist l) as [sl |] eqn:Esl.
      * run_with ltac:(eapply slist_get_run; [exact H1 | exact Esl]).
        run_with ltac:(apply listDict_get_run; exact H1).
        cbn [list_ set_list].
        destruct (stepsInSecond (clk p)) as [s |] eqn:Es.
        -- destruct (decide (s = 0%Z)) as [Hs | Hs].
           ++ erewrite bind_raise; [reflexivity |].
              rewrite mean_sq_window_cases. attrs. rewrite Es.
              destruct (decide (s = 0%Z)); [reflexivity | contradiction].
           ++ run_with ltac:(apply (mean_sq_window_run _ _ s); assumption). reflexivity.
        -- erewrite bind_raise; [reflexivity |].
           rewrite mean_sq_window_cases. attrs. now rewrite Es.
      * erewrite bind_raise; [reflexivity |].
        eapply slist_get_missing; [exact H1 | exact Esl].
    + eapply compute_div_step; [exact El | exact Ew].
  - unfold GeneralProblem.compute_div. cbv zeta.
    erewrite bind_raise by (apply listDict_get_missing; exact El). reflexivity.
Qed.

(** [compute_div] writes to one series only.  Whether it returns or
    raises, the arguments, the clock, the error control attributes, the
    files and every series but its own are as before, and when its series
    is registered the norm of the divergence of this step is at the end
    of the series' list, which is one longer than before.  If the series
    is not registered the call raises [KeyError] and changes nothing. *)
Theorem compute_div_touches_its_series (fe : dolfin) (is_tent : bool) (velocity : array)
    (p : problem) :
  let key := if is_tent then "d2" else "d" in
  let p' := (GeneralProblem.compute_div fe is_tent velocity p).2 in
  args p' = args p /\ clk p' = clk p /\ ec p' = ec p /\ files p' = files p
  /\ (forall key', key' <> key -> listDict p' !! key' = listDict p !! key')
  /\ (forall l, listDict p !! key = Some l ->
        exists l', listDict p' !! key = Some l'
                   /\ list_ l' = list_ l ++ [norm_Hdiv0 fe velocity])
  /\ (listDict p !! key = None ->
        GeneralProblem.compute_div fe is_tent velocity p = (Raise (KeyError key), p)).
Proof.
  cbv zeta. rewrite compute_div_cases. cbv zeta.
  set (key := if is_tent then "d2" else "d").
  set (p1 := append_to_list key (norm_Hdiv0 fe velocity) p).
  assert (H1 : forall l, listDict p !! key = Some l -> forall q,
    q = p1 \/ (exists x sl, slist l = Some sl /\ q = append_to_slist key x p1) ->
    args q = args p /\ clk q = clk p /\ ec q = ec p /\ files q = files p
    /\ (forall key', key' <> key -> listDict q !! key' = listDict p !! key')
    /\ (forall l0, listDict p !! key = Some l0 ->
          exists l', listDict q !! key = Some l'
                     /\ list_ l' = list_ l0 ++ [norm_Hdiv0 fe velocity])).
  { intros l Hl q Hq.
    pose proof (lookup_append_to_list key (norm_Hdiv0 fe velocity) p l Hl) as Hp1.
    destruct Hq as [-> | (x & sl & Hsl & ->)].
    - repeat (split; [reflexivity |]). split.
      + intros key' Hk. now apply lookup_append_to_list_ne, not_eq_sym.
      + intros l0 Hl0. rewrite Hl0 in Hl. injection Hl as ->.
        eexists. split; [exact Hp1 | reflexivity].
    - repeat (split; [reflexivity |]). split.
      + intros key' Hk. rewrite lookup_append_to_slist_ne by now apply not_eq_sym.
        now apply lookup_append_to_list_ne, not_eq_sym.
      + intros l0 Hl0. rewrite Hl0 in Hl. injection Hl as ->.
        eexists. split; [eapply lookup_append_to_slist; [exact Hp1 | exact Hsl] |].
        reflexivity. }
  destruct (listDict p !! key) as [l |] eqn:El.
  - specialize (H1 l eq_refl).
    assert (Hgoal : forall (o : outcome unit) q,
      q = p1 \/ (exists x sl, slist l = Some sl /\ q = append_to_slist key x p1) ->
      args (o, q).2 = args p /\ clk (o, q).2 = clk p /\ ec (o, q).2 = ec p
      /\ files (o, q).2 = files p
      /\ (forall key', key' <> key -> listDict (o, q).2 !! key' = listDict p !! key')
      /\ (forall l0, Some l = Some l0 ->
            exists l', listDict (o, q).2 !! key = Some l'
                       /\ list_ l' = list_ l0 ++ [norm_Hdiv0 fe velocity])
      /\ (Some l = None -> (o, q) = (Raise (KeyError key), p))).
    { intros o q Hq. cbn [snd]. destruct (H1 q Hq) as (? & ? & ? & ? & ? & ?).
      repeat (split; [assumption |]). discriminate. }
    destruct (truthy (isWholeSecond (clk p))); [| apply Hgoal; now left].
    destruct (slist l) as [sl |] eqn:Esl; [| apply Hgoal; now left].
    destruct (stepsInSecond (clk p)) as [s |]; [| apply Hgoal; now left].
    destruct (decide (s = 0%Z)); apply Hgoal; [now left | right; eauto].
  - cbn [snd]. do 4 (split; [reflexivity |]).
    split; [intros; reflexivity |]. split; [discriminate | reflexivity].
Qed.

(** A time step longer than two seconds gives no step in a second:
    [initialize] sets [stepsInSecond] to 0, and with that value the
    aggregation of [compute_div] at a whole second raises
    [ZeroDivisionError] after the norm of the step has been appended. *)
Theorem no_step_in_a_second (fe : dolfin) (is_tent : bool) (velocity : array) (p : problem)
    (l : functional) :
  md_dt (args p) > 2 ->
  exists p0,
    GeneralProblem.initialize p = (Ret tt, p0)
    /\ stepsInSecond (clk p0) = Some 0%Z
    /\ forall q,
         stepsInSecond (clk q) = Some 0%Z -> truthy (isWholeSecond (clk q)) = true ->
         listDict q !! (if is_tent then "d2" else "d") = Some l -> is_Some (slist l) ->
         GeneralProblem.compute_div fe is_tent velocity q
         = (Raise ZeroDivisionError,
            append_to_list (if is_tent then "d2" else "d") (norm_Hdiv0 fe velocity) q).
Proof.
  intros Hdt. eexists. split; [apply initialize_run; lra |].
  split.
  - cbn. f_equal. apply py_round_nonneg.
    + apply Rlt_le, Rdiv_lt_0_compat; lra.
    + assert (H : 0 < 1 / md_dt (args p) < / 2).
      { split; [apply Rdiv_lt_0_compat; lra |].
        unfold Rdiv. rewrite Rmult_1_l. apply Rinv_lt_contravar; lra. }
      lra.
  - intros q Hs Hw Hl [sl Hsl]. rewrite compute_div_cases. cbv zeta.
    rewrite Hl, Hw, Hsl, Hs. destruct (decide (0%Z = 0%Z)); [reflexivity | contradiction].
Qed.

Lemma no_step_in_a_second_witness :
  let p := GeneralProblem.init "WCYL" 0 true
             {| arg_error := doEC; arg_save := noSave; arg_savespace := 1; arg_nu := 1;
                arg_onset := 0; arg_factor := 1; meta_name := "run"; meta_dt := 2.5;
                meta_time := 10; meta_dt_ms := 2500 |} in
  md_dt (args p) > 2
  /\ exists p0, GeneralProblem.initialize p = (Ret tt, p0)
                /\ stepsInSecond (clk p0) = Some 0%Z.
Proof.
  cbv zeta. set (p := GeneralProblem.init "WCYL" 0 true _).
  assert (Hdt : md_dt (args p) > 2) by (cbn; lra).
  split; [exact Hdt |].
  destruct (no_step_in_a_second probe false [] p
              (entry "corrected velocity L2 divergence" "DC" (Some scale_factor) None true None)
              Hdt) as (p0 & E & Hs & _).
  exists p0. split; [exact E | exact Hs].
Defined.

(** ** Time steps that divide the second *)

Lemma uniform_step_closes (n k : Z) :
  (1 <= n < 2000)%Z ->
  let t := IZR k * (1 / IZR n) in
  (t > 0.5 /\ exists m : Z, IZR m - / 2000 <= t < IZR m + / 2000)
  <-> (0 < k)%Z /\ (n | k)%Z.
Proof.
  intros [Hn1 Hn2] t.
  assert (Hn : 1 <= IZR n < 2000) by (split; [apply IZR_le | apply IZR_lt]; lia).
  assert (Htn : t * IZR n = IZR k) by (unfold t; field; lra).
  split.
  - intros (Ht & m & Hm1 & Hm2).
    assert (Hk : (0 < k)%Z).
    { apply lt_IZR. rewrite <- Htn. nra. }
    split; [exact Hk |]. exists m.
    assert (H1 : -1 < IZR (k - m * n) < 1).
    { rewrite minus_IZR, mult_IZR, <- Htn. nra. }
    destruct H1 as [H1 H2]. apply lt_IZR in H1, H2. lia.
  - intros (Hk & m & ->).
    assert (Et : t = IZR m).
    { unfold t. rewrite mult_IZR. field. lra. }
    assert (Hm : (1 <= m)%Z) by nia.
    apply IZR_le in Hm. rewrite Et. split; [lra |]. exists m. lra.
Qed.

(** When the time step is one [n]-th of a second, with [n] between 1 and
    1999, [initialize] counts [n] steps in a second, and the step number
    [k], taken at the time [k] times the step, closes a cycle exactly when
    [k] is a positive multiple of [n]; the window of that cycle is that
    of the [n] steps up to [k], and the second appended to the list of
    seconds is [k / n]. *)
Theorem whole_seconds_of_uniform_steps (fe : dolfin) (p : problem) (n k : Z) :
  (1 <= n < 2000)%Z -> step_ready fe p n ->
  (forall q, md_dt (args q) = 1 / IZR n ->
     exists q', GeneralProblem.initialize q = (Ret tt, q')
                /\ stepsInSecond (clk q') = Some n)
  /\ exists p',
       Problem.update_time fe (IZR k * (1 / IZR n)) k p = (Ret tt, p')
       /\ (isWholeSecond (clk p') = Some true <-> (0 < k)%Z /\ (n | k)%Z)
       /\ (isWholeSecond (clk p') = Some true \/ isWholeSecond (clk p') = Some false)
       /\ ((0 < k)%Z -> (n | k)%Z ->
           N0 (clk p') = Some (k - n)%Z /\ N1 (clk p') = Some k
           /\ second_list (clk p') = second_list (clk p) ++ [(k / n)%Z]).
Proof.
  intros Hn (Hsave & Hs & Hb & Hwall & HkL2 & HkH1 & HkH1w).
  assert (HnR : 1 <= IZR n) by (apply IZR_le; lia).
  split.
  { intros q Hq. eexists. split.
    - apply initialize_run. rewrite Hq. intros H.
      assert (H1 : 1 / IZR n * IZR n = 1) by (field; lra). rewrite H in H1. lra.
    - cbn. f_equal. rewrite Hq.
      replace (1 / (1 / IZR n)) with (IZR n) by (field; lra). apply py_round_IZR. }
  destruct (update_time_run fe (IZR k * (1 / IZR n)) k p n Hsave Hs Hb Hwall HkL2 HkH1 HkH1w)
    as (p' & sol & E & _ & _ & _ & _ & _ & _ & _ & _ & _ & _ & _ & Hw & Hwin).
  exists p'. split; [exact E |].
  pose proof (closes_cycle_iff (IZR k * (1 / IZR n))) as Hiff.
  pose proof (uniform_step_closes n k Hn) as Hu. cbv zeta in Hu.
  destruct (Rgtb (IZR k * (1 / IZR n)) 0.5
            && bool_decide ((py_round (IZR k * (1 / IZR n) * 1000) mod 1000)%Z = 0%Z)) eqn:Ec.
  - assert (Hkn : (0 < k)%Z /\ (n | k)%Z) by (apply Hu, Hiff; reflexivity).
    split; [rewrite Hw; tauto |]. split; [now left |].
    intros _ (m & ->).
    assert (Et : IZR (m * n) * (1 / IZR n) = IZR m) by (rewrite mult_IZR; field; lra).
    rewrite Et, py_round_IZR in Hwin. destruct Hwin as (H0 & H1 & Hsl).
    rewrite H0, H1, Hsl, Z.div_mul by lia.
    split; [f_equal; lia |]. split; reflexivity.
  - assert (Hno : ~ ((0 < k)%Z /\ (n | k)%Z)).
    { intros H. apply Hu, Hiff in H. discriminate. }
    split; [rewrite Hw; split; [discriminate | intros H; now destruct Hno] |].
    split; [now right |]. intros Hk Hd. destruct Hno. now split.
Qed.

Lemma whole_seconds_of_uniform_steps_witness :
  (1 <= 4 < 2000)%Z /\ step_ready probe (initialized 0) 4
  /\ exists p',
       Problem.update_time probe (IZR 8 * (1 / IZR 4)) 8 (initialized 0) = (Ret tt, p')
       /\ isWholeSecond (clk p') = Some true
       /\ N0 (clk p') = Some 4%Z /\ N1 (clk p') = Some 8%Z.
Proof.
  assert (Hn : (1 <= 4 < 2000)%Z) by lia.
  split; [exact Hn |]. split; [exact initialized_ready |].
  destruct (whole_seconds_of_uniform_steps probe (initialized 0) 4 8 Hn initialized_ready)
    as (_ & p' & E & Hiff & _ & Hwin).
  assert (Hk : (0 < 8)%Z) by lia.
  assert (Hd : (4 | 8)%Z) by (exists 2%Z; reflexivity).
  exists p'. split; [exact E |]. split; [apply Hiff; split; [exact Hk | exact Hd] |].
  destruct (Hwin Hk Hd) as (H0 & H1 & _). split; [exact H0 | exact H1].
Defined.

(** ** problems/womersley_cylinder.py: the analytic solution *)

Section AssembledField.
Variables (b : precomputed).
Hypothesis Hb : loaded b.

(** Two assembled fields are equal when their axial values are. *)
Lemma assembled_ext (sol sol' : array) (f g : nat -> R) :
  length sol = space_dim b -> length sol' = space_dim b ->
  (forall j n, dofs2 b !! j = Some n -> sol !! n = Some (f j)) ->
  (forall j n, dofs2 b !! j = Some n -> sol' !! n = Some (g j)) ->
  (forall n, (n < space_dim b)%nat -> ~ In n (dofs2 b) -> sol !! n = Some 0) ->
  (forall n, (n < space_dim b)%nat -> ~ In n (dofs2 b) -> sol' !! n = Some 0) ->
  forall c : R, (forall j, (j < length (dofs2 b))%nat -> f j = c * g j) ->
  sol = scal c sol'.
Proof.
  intros Hlen Hlen' Hax Hax' Hoff Hoff' c Hfg.
  apply list_eq. intros n. unfold scal. rewrite list_lookup_fmap.
  destruct (decide (n < space_dim b)%nat) as [Hn | Hn].
  - destruct (decide (n ∈ dofs2 b)) as [Hin | Hin].
    + apply list_elem_of_lookup in Hin as [j Hj].
      rewrite (Hax j n Hj), (Hax' j n Hj). cbn. f_equal. apply Hfg.
      eapply lookup_lt_Some; eauto.
    + rewrite list_elem_of_In in Hin.
      rewrite (Hoff n Hn Hin), (Hoff' n Hn Hin). cbn. f_equal. ring.
  - rewrite !lookup_ge_None_2 by lia. reflexivity.
Qed.

Lemma scal_one (arr : array) : scal 1 arr = arr.
Proof. unfold scal. rewrite <- (map_id arr) at 2. apply map_ext. intros. ring. Qed.

Lemma spec_axial_periodic (a : settings) (t : R) (j : nat) :
  spec_axial a b (t + 1) j = spec_axial a b t j.
Proof.
  destruct Hb as (_ & _ & _ & Hc & _). unfold spec_axial. rewrite Hc.
  cbn [seq map lookup list_lookup default from_option id].
  cbv zeta. unfold Datatypes.id.
  rewrite !cos_even_mode, !sin_even_mode by reflexivity. reflexivity.
Qed.

Lemma spec_axial_factor (a a1 : settings) (t : R) (j : nat) :
  factor a1 = 1 -> spec_axial a b t j = factor a * spec_axial a1 b t j.
Proof. intros H1. unfold spec_axial. rewrite H1. ring. Qed.

End AssembledField.

(** The analytic solution has the period of one second: on a loaded
    partial solution [assemble_solution] returns the same field at the
    times [t] and [t + 1]. *)
Theorem assemble_solution_periodic (a : settings) (b : precomputed) (t : R) :
  loaded b ->
  Problem.assemble_solution a b (t + 1) = Problem.assemble_solution a b t.
Proof.
  intros Hb.
  destruct (assemble_solution_values a b (t + 1) Hb) as (sol1 & E1 & L1 & A1 & O1).
  destruct (assemble_solution_values a b t Hb) as (sol & E & L & A & O).
  rewrite E1, E. f_equal. rewrite <- (scal_one sol).
  apply (assembled_ext b sol1 sol (spec_axial a b (t + 1)) (spec_axial a b t)); auto.
  intros j _. rewrite spec_axial_periodic by exact Hb. ring.
Qed.

Lemma assemble_solution_periodic_witness :
  loaded two_nodes
  /\ Problem.assemble_solution (args (Problem.init 0 quarter_steps)) two_nodes (0.25 + 1)
     = Problem.assemble_solution (args (Problem.init 0 quarter_steps)) two_nodes 0.25.
Proof.
  split; [exact two_nodes_loaded |].
  exact (assemble_solution_periodic _ two_nodes 0.25 two_nodes_loaded).
Defined.

(** The analytic solution is proportional to the velocity factor: the
    field assembled with the factor [c] is [c] times the field assembled
    with the factor 1, coefficient by coefficient; with the factor 0 it
    is the zero field. *)
Theorem assemble_solution_scales (a a1 : settings) (b : precomputed) (t : R) :
  loaded b -> factor a1 = 1 ->
  exists sol unit_sol,
    Problem.assemble_solution a b t = Ret sol
    /\ Problem.assemble_solution a1 b t = Ret unit_sol
    /\ sol = scal (factor a) unit_sol
    /\ (factor a = 0 -> sol = replicate (space_dim b) 0).
Proof.
  intros Hb H1.
  destruct (assemble_solution_values a b t Hb) as (sol & E & L & A & O).
  destruct (assemble_solution_values a1 b t Hb) as (sol1 & E1 & L1 & A1 & O1).
  exists sol, sol1. split; [exact E |]. split; [exact E1 |].
  assert (Hs : sol = scal (factor a) sol1).
  { apply (assembled_ext b sol sol1 (spec_axial a b t) (spec_axial a1 b t)); auto.
    intros j _. now apply spec_axial_factor. }
  split; [exact Hs |].
  intros H0. rewrite Hs, H0. apply list_eq. intros n. unfold scal.
  rewrite list_lookup_fmap.
  destruct (decide (n < space_dim b)%nat) as [Hn | Hn].
  - rewrite lookup_replicate_2 by exact Hn.
    destruct (lookup_lt_is_Some_2 sol1 n) as [x Hx]; [lia |].
    rewrite Hx. cbn. f_equal. ring.
  - rewrite !lookup_ge_None_2; [reflexivity | rewrite length_replicate; lia | lia].
Qed.

Lemma assemble_solution_scales_witness :
  loaded two_nodes /\ factor (args (Problem.init 0 quarter_steps)) = 1
  /\ exists sol unit_sol,
       Problem.assemble_solution (args (Problem.init 0 third_steps)) two_nodes 0.25 = Ret sol
       /\ Problem.assemble_solution (args (Problem.init 0 quarter_steps)) two_nodes 0.25
          = Ret unit_sol
       /\ sol = scal (factor (args (Problem.init 0 third_steps))) unit_sol.
Proof.
  split; [exact two_nodes_loaded |]. split; [reflexivity |].
  destruct (assemble_solution_scales (args (Problem.init 0 third_steps))
              (args (Problem.init 0 quarter_steps)) two_nodes 0.25 two_nodes_loaded eq_refl)
    as (sol & unit_sol & E & E1 & Hs & _).
  exists sol, unit_sol. split; [exact E |]. split; [exact E1 | exact Hs].
Defined.

(** ** problems/womersley_cylinder.py: loading the partial solution *)

Section Datasets.
Variable store : gmap string array.

Local Abbreviation present i :=
  (is_Some (store !! Problem.numbered "real" i)
   /\ is_Some (store !! Problem.numbered "imag" i)).

Local Abbreviation loop idxs :=
  (foldr (fun i rest =>
            lift (Problem.hdf5_read store (Problem.numbered "real" i)) ≫= (fun re =>
            modify (on_basis (bessel_real_append re)) ≫= (fun _ =>
            lift (Problem.hdf5_read store (Problem.numbered "imag" i)) ≫= (fun im =>
            modify (on_basis (bessel_complex_append im)) ≫= (fun _ => rest)))))
         skip idxs).

Lemma hdf5_read_missing (dataset : string) :
  store !! dataset = None -> exists e, Problem.hdf5_read store dataset = Raise e.
Proof. unfold Problem.hdf5_read. intros ->. eauto. Qed.

Lemma load_loop_returns (idxs : list nat) : forall q,
  (loop idxs q).1 = Ret tt -> Forall (fun i => present i) idxs.
Proof.
  induction idxs as [| i idxs IH]; intros q H; [constructor |].
  cbn [foldr] in H.
  destruct (store !! Problem.numbered "real" i) as [re |] eqn:Ere.
  - rewrite (hdf5_read_ok _ _ _ Ere) in H.
    erewrite bind_run in H by apply lift_run.
    erewrite bind_run in H by apply modify_run.
    destruct (store !! Problem.numbered "imag" i) as [im |] eqn:Eim.
    + rewrite (hdf5_read_ok _ _ _ Eim) in H.
      erewrite bind_run in H by apply lift_run.
      erewrite bind_run in H by apply modify_run.
      constructor; [split; eauto |]. eapply IH. exact H.
    + destruct (hdf5_read_missing _ Eim) as [e He]. rewrite He in H.
      erewrite bind_raise in H by apply lift_run. discriminate.
  - destruct (hdf5_read_missing _ Ere) as [e He]. rewrite He in H.
    erewrite bind_raise in H by apply lift_run. discriminate.
Qed.

(** [load_precomputed_bessel_functions] returns exactly when the store
    holds the dataset of the parabolic part and the real and the imaginary
    dataset of each of the eight modes.  It then sets the parabolic part
    and appends the eight real and the eight imaginary parts, in the order
    of the modes, to what the two lists held; it changes nothing else. *)
Theorem load_precomputed_needs_every_dataset (q : problem) :
  let r := Problem.load_precomputed_bessel_functions store q in
  (r.1 = Ret tt
   <-> is_Some (store !! "parab") /\ Forall (fun i => present i) (seq 0 8))
  /\ (r.1 = Ret tt ->
      bessel_parabolic (basis r.2) = store !! "parab"
      /\ bessel_real (basis r.2)
         = bessel_real (basis q)
           ++ map (fun i => default [] (store !! Problem.numbered "real" i)) (seq 0 8)
      /\ bessel_complex (basis r.2)
         = bessel_complex (basis q)
           ++ map (fun i => default [] (store !! Problem.numbered "imag" i)) (seq 0 8)
      /\ coefs_exp (basis r.2) = coefs_exp (basis q)
      /\ listDict r.2 = listDict q /\ clk r.2 = clk q /\ ec r.2 = ec q).
Proof.
  cbv zeta.
  assert (Hpos : is_Some (store !! "parab") -> Forall (fun i => present i) (seq 0 8) ->
    exists parab, store !! "parab" = Some parab
    /\ Problem.load_precomputed_bessel_functions store q
       = (Ret tt,
          foldl (fun st i =>
                   on_basis (bessel_complex_append
                               (default [] (store !! Problem.numbered "imag" i)))
                     (on_basis (bessel_real_append
                                  (default [] (store !! Problem.numbered "real" i))) st))
            (on_basis (set_bessel_parabolic parab) q) (seq 0 8))).
  { intros [parab Hp] Hall. exists parab. split; [exact Hp |].
    apply load_precomputed_bessel_functions_run; [exact Hp | |];
      intros i Hi; rewrite Forall_forall in Hall;
      (destruct (Hall i) as [[re Hre] [im Him]]; [apply elem_of_seq; lia |]);
      rewrite ?Hre, ?Him; reflexivity. }
  assert (Hneg : (Problem.load_precomputed_bessel_functions store q).1 = Ret tt ->
    is_Some (store !! "parab") /\ Forall (fun i => present i) (seq 0 8)).
  { unfold Problem.load_precomputed_bessel_functions. intros H.
    destruct (store !! "parab") as [parab |] eqn:Ep.
    - split; [eauto |]. rewrite (hdf5_read_ok _ _ _ Ep) in H.
      erewrite bind_run in H by apply lift_run.
      erewrite bind_run in H by apply modify_run.
      eapply load_loop_returns. exact H.
    - destruct (hdf5_read_missing _ Ep) as [e He]. rewrite He in H.
      erewrite bind_raise in H by apply lift_run. discriminate. }
  split.
  - split; [exact Hneg |]. intros [Hp Hall].
    destruct (Hpos Hp Hall) as (parab & _ & ->). reflexivity.
  - intros H. destruct (Hneg H) as [Hp Hall].
    destruct (Hpos Hp Hall) as (parab & Ep & ->). cbn [snd].
    set (q0 := on_basis (set_bessel_parabolic parab) q).
    destruct (appended_basis (fun i => default [] (store !! Problem.numbered "real" i))
                (fun i => default [] (store !! Problem.numbered "imag" i)) (seq 0 8) q0)
      as (_ & _ & B3 & B4 & B5 & B6).
    destruct (appended_other (fun i => default [] (store !! Problem.numbered "real" i))
                (fun i => default [] (store !! Problem.numbered "imag" i)) (seq 0 8) q0)
      as (_ & O2 & O3 & O4 & _).
    rewrite B3, B4, B5, B6, O2, O3, O4, Ep. repeat split.
Qed.

End Datasets.

(** ** problems/womersley_cylinder.py: [update_time] before [initialize] *)

(** Before [initialize] has counted the steps in a second, [update_time]
    at a whole second raises [TypeError] when it multiplies the second by
    the missing count: the step is already marked as closing a cycle and
    the second is already appended to the list of seconds, but the window
    and the analytic solution are those of before. *)
Theorem update_time_before_initialize (fe : dolfin) (t : R) (n : Z) (p : problem) (k : Z) :
  (doSave (args p) = true -> save_nth (args p) <> 0%Z) ->
  stepsInSecond (clk p) = None ->
  t > 0.5 -> IZR k - / 2000 <= t < IZR k + / 2000 ->
  exists p',
    Problem.update_time fe t n p = (Raise TypeError, p')
    /\ isWholeSecond (clk p') = Some true
    /\ second_list (clk p') = second_list (clk p) ++ [k]
    /\ N0 (clk p') = N0 (clk p) /\ N1 (clk p') = N1 (clk p)
    /\ ec p' = ec p /\ listDict p' = listDict p.
Proof.
  intros Hsave Hs Ht Hk.
  destruct (base_update_time_run t n p Hsave)
    as (c1 & E1 & Hat & Hsn & Htl & Hs1 & Hsl & Hw1 & HN0 & HN1).
  destruct (py_round_whole_second t k Ht Hk) as [Hr _].
  assert (Hc : Rgtb t 0.5 && bool_decide ((py_round (t * 1000) mod 1000)%Z = 0%Z) = true).
  { apply closes_cycle_iff. split; [exact Ht | now exists k]. }
  unfold Problem.update_time.
  run_with ltac:(exact E1). run. attrs. rewrite Hat, unwrap_Some. run_lift.
  rewrite Hc, Hr, Hs1, Hs. cbn [unwrap].
  erewrite bind_raise.
  2:{ run. run. erewrite bind_raise by apply lift_run. reflexivity. }
  eexists. split; [reflexivity |]. attrs. cbn. rewrite Hsl, HN0, HN1. repeat split.
Qed.

Lemma update_time_before_initialize_witness :
  stepsInSecond (clk (Problem.init 0 quarter_steps)) = None
  /\ 1 > 0.5 /\ IZR 1 - / 2000 <= 1 < IZR 1 + / 2000
  /\ exists p',
       Problem.update_time probe 1 4 (Problem.init 0 quarter_steps) = (Raise TypeError, p')
       /\ second_list (clk p') = [1%Z].
Proof.
  assert (Ht : 1 > 0.5) by lra.
  assert (Hk : IZR 1 - / 2000 <= 1 < IZR 1 + / 2000) by lra.
  split; [reflexivity |]. split; [exact Ht |]. split; [exact Hk |].
  destruct (update_time_before_initialize probe 1 4 (Problem.init 0 quarter_steps) 1)
    as (p' & E & _ & Hsl & _); [discriminate | reflexivity | exact Ht | exact Hk |].
  exists p'. split; [exact E | exact Hsl].
Defined.

(** ** problems/general_problem.py: the time lines of the report *)

Lemma mapO_Ret {A B} (f : A -> outcome B) (g : A -> B) (xs : list A) :
  (forall x, f x = Ret (g x)) -> mapO f xs = Ret (map g xs).
Proof.
  intros H. induction xs as [| x xs IH]; [reflexivity |].
  cbn [mapO map]. now rewrite H, IH.
Qed.

Lemma divide_by_first_ok (c : R) (rest xs : list R) :
  c <> 0 -> GeneralProblem.divide_by_first (c :: rest) xs = Ret (map (fun i => i / c) xs).
Proof.
  intros Hc. unfold GeneralProblem.divide_by_first. apply mapO_Ret.
  intros x. unfold py_getitem. cbn. now apply py_div_ok.
Qed.

Lemma divide_by_first_error (coef xs : list R) (x : R) :
  GeneralProblem.divide_by_first coef (x :: xs)
  = match coef with
    | [] => Raise IndexError
    | c :: _ => if Req_dec_T c 0 then Raise ZeroDivisionError
                else GeneralProblem.divide_by_first coef (x :: xs)
    end.
Proof.
  destruct coef as [| c rest]; [reflexivity |].
  destruct (Req_dec_T c 0) as [-> | Hc]; [| reflexivity].
  unfold GeneralProblem.divide_by_first. cbn [mapO]. unfold py_getitem. cbn.
  now rewrite py_div_zero.
Qed.

Lemma time_lines_rows_empty (path key : string) (p : problem) (l : functional) :
  listDict p !! key = Some l -> list_ l = [] ->
  GeneralProblem.time_lines_rows path key p = (Ret tt, p).
Proof.
  intros Hl He. unfold GeneralProblem.time_lines_rows. run. run. now rewrite He.
Qed.

Lemma rows_of_empty_series (path : string) (keys : list string) : forall p,
  Forall (fun key => exists l, listDict p !! key = Some l /\ list_ l = []) keys ->
  foldr (fun key rest => GeneralProblem.time_lines_rows path key ≫= (fun _ => rest))
        skip keys p
  = (Ret tt, p).
Proof.
  induction keys as [| key keys IH]; intros p Hall; [reflexivity |].
  apply Forall_cons in Hall as [(l & Hl & He) Hall]. cbn [foldr].
  run_with ltac:(eapply time_lines_rows_empty; eassumption). now apply IH.
Qed.

(** A report written before any value is recorded: when the lists of the
    reported series are all empty, the first block of [report] creates
    report_time_lines.csv with the header row alone, the names followed
    by the recorded times, and leaves the registry as it is. *)
Theorem report_time_lines_of_empty_series (keys : list string) (p : problem) :
  Forall (fun key => exists l, listDict p !! key = Some l /\ list_ l = []) keys ->
  exists p',
    GeneralProblem.report_time_lines keys p = (Ret tt, p')
    /\ files p' !! (str_dir_name (args p) +:+ "/report_time_lines.csv")
       = Some (Csv [[Str "name"; Str "what"; Str "time"] ++ map Num (time_list (clk p))])
    /\ listDict p' = listDict p.
Proof.
  intros Hall. unfold GeneralProblem.report_time_lines,
    GeneralProblem.open_w, GeneralProblem.writerow.
  run. run. cbv zeta. run. run.
  rewrite rows_of_empty_series by exact Hall.
  eexists. split; [reflexivity |]. attrs. split; [| reflexivity].
  now rewrite lookup_alter_eq, lookup_insert_eq.
Qed.

Lemma report_time_lines_of_empty_series_witness :
  Forall (fun key => exists l, listDict (Problem.init 0 quarter_steps) !! key = Some l
                               /\ list_ l = []) ["d"; "u_L2"; "p"]
  /\ exists p',
       GeneralProblem.report_time_lines ["d"; "u_L2"; "p"] (Problem.init 0 quarter_steps)
       = (Ret tt, p')
       /\ files p' !! "WCYL_run_results/report_time_lines.csv"
          = Some (Csv [[Str "name"; Str "what"; Str "time"]]).
Proof.
  assert (H : Forall (fun key => exists l, listDict (Problem.init 0 quarter_steps) !! key
                                            = Some l /\ list_ l = []) ["d"; "u_L2"; "p"]).
  { repeat constructor; eexists; split; reflexivity. }
  split; [exact H |].
  destruct (report_time_lines_of_empty_series _ _ H) as (p' & E & Hf & _).
  exists p'. split; [exact E | exact Hf].
Defined.

(** The rows of a series that has values and a scale, and neither a norm
    nor a relative reference (the two divergence series).  With a scale
    list that starts with a number other than zero, [report] appends the
    plain row and the scaled row, every value divided by that number, and
    leaves the registry as it is.  With an empty scale list the scaled
    row fails with [IndexError], and with a scale of zero with
    [ZeroDivisionError]; the plain row is written before either. *)
Theorem time_lines_rows_scaled (path key : string) (p : problem) (l : functional)
    (r : coef_ref) (rows : list (list cell)) :
  listDict p !! key = Some l -> list_ l <> [] ->
  scale l = Some r -> norm l = None -> relative l = None ->
  files p !! path = Some (Csv rows) ->
  let plain := [Str (md_name (args p)); Str (name l); Str (abrev l)] ++ map Num (list_ l) in
  exists p',
    GeneralProblem.time_lines_rows path key p
    = (match shared p r with
       | [] => Raise IndexError
       | c :: _ => if Req_dec_T c 0 then Raise ZeroDivisionError else Ret tt
       end, p')
    /\ listDict p' = listDict p
    /\ files p' !! path
       = Some (Csv (match shared p r with
                    | [] => rows ++ [plain]
                    | c :: _ =>
                        if Req_dec_T c 0 then rows ++ [plain]
                        else rows ++ [plain;
                               [Str (md_name (args p)); Str ("scaled " +:+ name l);
                                Str (abrev l +:+ "s")]
                               ++ map Num (map (fun i => i / c) (list_ l))
                               ++ [ScaleNote (shared p r)]]
                    end)).
Proof.
  intros Hl Hne Hsc Hnorm Hrel Hf. cbv zeta.
  unfold GeneralProblem.time_lines_rows, GeneralProblem.writerow. run. run.
  destruct (list_ l) as [| x xs] eqn:El; [contradiction |].
  rewrite Hsc, Hnorm, Hrel.
  destruct (shared p r) as [| c rest] eqn:Es.
  - eexists. split.
    { run. attrs. erewrite bind_raise; [reflexivity |].
      run. attrs. rewrite Es.
      erewrite bind_raise by apply lift_run. reflexivity. }
    attrs. split; [reflexivity |]. now rewrite lookup_alter_eq, Hf.
  - destruct (Req_dec_T c 0) as [Hc | Hc].
    + eexists. split.
      { run. attrs. erewrite bind_raise; [reflexivity |].
        run. attrs. rewrite Es.
        rewrite divide_by_first_error.
        destruct (Req_dec_T c 0); [| contradiction].
        erewrite bind_raise by apply lift_run. reflexivity. }
      attrs. split; [reflexivity |]. now rewrite lookup_alter_eq, Hf.
    + eexists. split.
      { run. attrs.
        run_with ltac:(run; attrs; rewrite Es, divide_by_first_ok by exact Hc; run_lift;
                       apply modify_run).
        run. apply skip_run. }
      attrs. split; [reflexivity |].
      rewrite !lookup_alter_eq, Hf. cbn. rewrite <- app_assoc. reflexivity.
Qed.

Lemma time_lines_rows_scaled_witness :
  let p := write_file "report.csv" (Csv [])
             (append_to_list "d" 3
                (Problem.init 0
                   {| arg_error := doEC; arg_save := noSave; arg_savespace := 1; arg_nu := 1;
                      arg_onset := 0; arg_factor := 0; meta_name := "run"; meta_dt := 0.25;
                      meta_time := 2; meta_dt_ms := 250 |})) in
  exists l,
    listDict p !! "d" = Some l /\ list_ l <> []
    /\ files p !! "report.csv" = Some (Csv [])
    /\ exists p', GeneralProblem.time_lines_rows "report.csv" "d" p
                  = (Raise ZeroDivisionError, p')
                  /\ files p' !! "report.csv"
                     = Some (Csv [[Str "run"; Str (name l); Str (abrev l)]
                                  ++ map Num (list_ l)]).
Proof.
  cbv zeta. set (p := write_file _ _ _).
  assert (Hl : listDict p !! "d"
               = Some (set_list [3] (entry "corrected velocity L2 divergence" "DC"
                                       (Some scale_factor) None true None)))
    by reflexivity.
  eexists. split; [exact Hl |]. split; [discriminate |]. split; [reflexivity |].
  destruct (time_lines_rows_scaled "report.csv" "d" p _ scale_factor [] Hl)
    as (p' & E & _ & Hf); try reflexivity; [discriminate |].
  exists p'. split.
  - rewrite E. f_equal. change (shared p scale_factor) with [0]. cbv iota beta.
    destruct (Req_dec_T _ _) as [_ | N]; [reflexivity | now destruct N].
  - rewrite Hf. change (shared p scale_factor) with [0]. cbv iota beta.
    destruct (Req_dec_T _ _) as [_ | N]; [reflexivity | now destruct N].
Defined.

(** ** problems/general_problem.py: the summary of the report *)

Section Summary.
Variable d : gmap string functional.

(** One pass of the loop extends both rows by the same number of cells. *)
Lemma summary_step_extends (rows rows' : list cell * list cell) (key : string) :
  GeneralProblem.summary_step d rows key = Ret rows' ->
  exists hs ds, rows'.1 = rows.1 ++ hs /\ rows'.2 = rows.2 ++ ds /\ length hs = length ds.
Proof.
  unfold GeneralProblem.summary_step. destruct (d !! key) as [l |].
  - cbv zeta. destruct (slist l) as [sl |]; [| discriminate]. cbn.
    destruct (relative_list_sec l) as [[| x xs] |].
    + destruct (bool_decide _).
      * destruct (normalized_list_sec l); [| discriminate]. cbn. intros [= <-].
        eexists [_; _], [_; _]. cbn. now rewrite <- !app_assoc.
      * intros [= <-]. eexists [_], [_]. auto.
    + intros [= <-]. eexists [_; _], [_; _]. cbn. now rewrite <- !app_assoc.
    + destruct (bool_decide _).
      * destruct (normalized_list_sec l); [| discriminate]. cbn. intros [= <-].
        eexists [_; _], [_; _]. cbn. now rewrite <- !app_assoc.
      * intros [= <-]. eexists [_], [_]. auto.
  - intros [= <-]. exists [], []. now rewrite !app_nil_r.
Qed.

Lemma summary_fold_raise (keys : list string) (e : exn) :
  foldl (fun acc key => acc ≫= (fun rows => GeneralProblem.summary_step d rows key))
        (Raise e) keys = Raise e.
Proof. induction keys as [| key keys IH]; [reflexivity | exact IH]. Qed.

Lemma summary_fold_extends (keys : list string) : forall rows rows',
  foldl (fun acc key => acc ≫= (fun rows => GeneralProblem.summary_step d rows key))
        (Ret rows) keys = Ret rows' ->
  exists hs ds, rows'.1 = rows.1 ++ hs /\ rows'.2 = rows.2 ++ ds /\ length hs = length ds.
Proof.
  induction keys as [| key keys IH]; intros rows rows'; cbn [foldl].
  - intros [= <-]. exists [], []. now rewrite !app_nil_r.
  - change (Ret rows ≫= _) with (GeneralProblem.summary_step d rows key).
    destruct (GeneralProblem.summary_step d rows key) as [rows1 | e] eqn:E.
    + intros H. destruct (IH _ _ H) as (hs & ds & H1 & H2 & Hl).
      destruct (summary_step_extends _ _ _ E) as (hs1 & ds1 & G1 & G2 & Gl).
      exists (hs1 ++ hs), (ds1 ++ ds). rewrite H1, H2, G1, G2, !app_assoc, !length_app.
      auto.
    + rewrite summary_fold_raise. discriminate.
Qed.

End Summary.

(** The header row and the data row of the summary always have the same
    number of cells, whatever the registry holds: both start with the
    three cells of the run, and every key of the summary that is
    registered adds as many cells to the one as to the other. *)
Theorem summary_rows_aligned (d : gmap string functional) (md_name_ metadata_to_save : string)
    (total : R) (header_row data_row : list cell) :
  GeneralProblem.summary_rows d md_name_ metadata_to_save total = Ret (header_row, data_row) ->
  length header_row = length data_row
  /\ take 3 header_row = [Str "name"; Str "metadata"; Str "totalTimeHours"]
  /\ take 3 data_row = [Str md_name_; Str metadata_to_save; Num (total / 3600.0)].
Proof.
  unfold GeneralProblem.summary_rows. intros H.
  destruct (summary_fold_extends d _ _ _ H) as (hs & ds & H1 & H2 & Hl).
  cbn [fst snd] in H1, H2. subst header_row data_row.
  split; [cbn; now rewrite Hl |]. split; reflexivity.
Qed.

Lemma summary_rows_aligned_witness :
  GeneralProblem.summary_rows GeneralProblem.listDict_base "run" "metadata" 7200
  = Ret ([Str "name"; Str "metadata"; Str "totalTimeHours";
          Str "last_cycle_DC"; Str "last_cycle_DT"],
         [Str "run"; Str "metadata"; Num (7200 / 3600.0); Int 0; Int 0])
  /\ length [Str "name"; Str "metadata"; Str "totalTimeHours";
             Str "last_cycle_DC"; Str "last_cycle_DT"]
     = length [Str "run"; Str "metadata"; Num (7200 / 3600.0); Int 0; Int 0].
Proof.
  assert (H : GeneralProblem.summary_rows GeneralProblem.listDict_base "run" "metadata" 7200
              = Ret ([Str "name"; Str "metadata"; Str "totalTimeHours";
                      Str "last_cycle_DC"; Str "last_cycle_DT"],
                     [Str "run"; Str "metadata"; Num (7200 / 3600.0); Int 0; Int 0]))
    by reflexivity.
  split; [exact H |]. exact (proj1 (summary_rows_aligned _ _ _ _ _ _ H)).
Defined.

(** ** problems/general_problem.py: the seconds of the report *)

(** A run of [c ≫= k] that returns is a run of [c] that returns followed
    by a run of [k] that returns. *)
Lemma bind_returns {A B} (c : M A) (k : A -> M B) (p p'' : problem) (b : B) :
  (c ≫= k) p = (Ret b, p'') ->
  exists a p', c p = (Ret a, p') /\ k a p' = (Ret b, p'').
Proof.
  unfold mbind, M_bind. destruct (c p) as [[a | e] p']; [eauto | discriminate].
Qed.

Lemma mapO_returns {A B} (f : A -> outcome B) (xs : list A) : forall ys,
  mapO f xs = Ret ys ->
  length ys = length xs
  /\ forall i x, xs !! i = Some x -> exists y, ys !! i = Some y /\ f x = Ret y.
Proof.
  induction xs as [| x xs IH]; intros ys; cbn [mapO].
  - intros [= <-]. split; [reflexivity |]. intros i x. now rewrite lookup_nil.
  - destruct (f x) as [y | e] eqn:Ey; [| discriminate]. cbn.
    destruct (mapO f xs) as [ys' | e]; [| discriminate]. cbn. intros [= <-].
    destruct (IH ys' eq_refl) as [Hlen Hat]. split; [cbn; now rewrite Hlen |].
    intros [| i] x'; cbn.
    + intros [= <-]. eauto.
    + apply Hat.
Qed.

Lemma second_rms_returns (steps : option Z) (xs : list R) (sec : Z) (y : R) :
  GeneralProblem.second_rms steps xs sec = Ret y ->
  exists s, steps = Some s /\ s <> 0%Z
            /\ y = sqrt (sum_sq (py_slice xs (Some ((sec - 1) * s)%Z) (Some (sec * s)%Z))
                         / IZR s).
Proof.
  unfold GeneralProblem.second_rms. destruct steps as [s |]; [| discriminate]. cbn.
  unfold py_div. destruct (Req_dec_T (IZR s) 0) as [E | N]; [discriminate |]. cbn.
  unfold py_sqrt. destruct (Rlt_dec _ 0); [discriminate |]. intros [= <-].
  exists s. split; [reflexivity |]. split; [| reflexivity]. intros ->. now apply N.
Qed.

Lemma writerow_run (path : string) (row : list cell) (p : problem) :
  GeneralProblem.writerow path row p = (Ret tt, append_row path row p).
Proof. reflexivity. Qed.

Section SecondsRows.
Variables (path key : string) (p p' : problem) (l : functional).
Hypothesis Hl : listDict p !! key = Some l.
Hypothesis Hrun : GeneralProblem.seconds_rows path key p = (Ret tt, p').

(** The states that the scaled and the normalized row can leave. *)
Local Abbreviation reached q :=
  (args q = args p /\ clk q = clk p /\ shared q = shared p
   /\ (forall key', key' <> key -> listDict q !! key' = listDict p !! key')
   /\ exists l', listDict q !! key = Some l'
        /\ list_ l' = list_ l /\ slist l' = slist l /\ relative_list l' = relative_list l
        /\ name l' = name l /\ abrev l' = abrev l).

Lemma reached_refl : reached p.
Proof. repeat split. exists l. repeat split. exact Hl. Qed.

Lemma reached_append_row (q : problem) (pth : string) (row : list cell) :
  reached q -> reached (append_row pth row q).
Proof. intros H. exact H. Qed.

Lemma reached_on_entry (q : problem) (f : functional -> functional) :
  (forall x, list_ (f x) = list_ x /\ slist (f x) = slist x
             /\ relative_list (f x) = relative_list x
             /\ name (f x) = name x /\ abrev (f x) = abrev x) ->
  reached q -> reached (on_entry key f q).
Proof.
  intros Hf (Ha & Hc & Hs & Hother & l' & Hl' & H1 & H2 & H3 & H4 & H5).
  split; [exact Ha |]. split; [exact Hc |]. split; [exact Hs |]. split.
  - intros key' Hk. attrs. rewrite lookup_alter_ne by now apply not_eq_sym.
    now apply Hother.
  - exists (f l'). attrs. rewrite lookup_alter_eq, Hl'. split; [reflexivity |].
    destruct (Hf l') as (F1 & F2 & F3 & F4 & F5). rewrite F1, F2, F3, F4, F5. auto.
Qed.

(** What [seconds_rows] leaves in the entry when it returns. *)
Lemma seconds_rows_entry :
  (slist l = None -> p' = p)
  /\ args p' = args p /\ clk p' = clk p /\ shared p' = shared p
  /\ (forall key', key' <> key -> listDict p' !! key' = listDict p !! key')
  /\ exists l',
       listDict p' !! key = Some l'
       /\ list_ l' = list_ l /\ slist l' = slist l /\ relative_list l' = relative_list l
       /\ (forall value r, slist l = Some value -> norm l = Some r ->
             normalized_list_sec l'
             = Some (match shared p r with
                     | [] => []
                     | c :: _ => map (fun i => i / c) value
                     end))
       /\ (forall value rl, slist l = Some value -> relative_list l = Some rl ->
             exists rs,
               relative_list_sec l' = Some rs
               /\ length rs = length (second_list (clk p))
               /\ forall i sec, second_list (clk p) !! i = Some sec ->
                    exists s, stepsInSecond (clk p) = Some s /\ s <> 0%Z
                      /\ rs !! i
                         = Some (sqrt (sum_sq (py_slice rl (Some ((sec - 1) * s)%Z)
                                                 (Some (sec * s)%Z)) / IZR s))).
Proof.
  revert Hrun. unfold GeneralProblem.seconds_rows.
  run. run_with ltac:(apply listDict_get_run; exact Hl).
  destruct (slist l) as [value |] eqn:Esl.
  2:{ rewrite skip_run. intros [= <-]. split; [reflexivity |].
      do 3 (split; [reflexivity |]). split; [intros; reflexivity |].
      exists l. do 4 (split; [assumption || reflexivity |]).
      split; discriminate. }
  intros Hrun'.
  apply bind_returns in Hrun' as ([] & q0 & Hw & Hrun').
  rewrite writerow_run in Hw. injection Hw as <-.
  (* the scaled row *)
  apply bind_returns in Hrun' as ([] & q1 & Hscaled & Hrun').
  assert (R1 : reached q1).
  { destruct (scale l) as [r |].
    - apply bind_returns in Hscaled as (sh & q & Hg & Hscaled).
      rewrite get_run in Hg. injection Hg as <- <-.
      apply bind_returns in Hscaled as (tl & q & Hlift & Hscaled).
      unfold lift in Hlift. injection Hlift as _ <-.
      rewrite writerow_run in Hscaled. injection Hscaled as <-.
      apply reached_append_row, reached_append_row, reached_refl.
    - rewrite skip_run in Hscaled. injection Hscaled as <-.
      apply reached_append_row, reached_refl. }
  assert (Hq1 : listDict q1 !! key = listDict (append_row path
                  ([Str (md_name (args p)); Str (name l); Str (abrev l)] ++ map Num value) p)
                  !! key /\ listDict q1 = listDict p).
  { destruct (scale l) as [r |].
    - apply bind_returns in Hscaled as (sh & q & Hg & Hscaled).
      rewrite get_run in Hg. injection Hg as <- <-.
      apply bind_returns in Hscaled as (tl & q & Hlift & Hscaled).
      unfold lift in Hlift. injection Hlift as _ <-.
      rewrite writerow_run in Hscaled. injection Hscaled as <-. split; reflexivity.
    - rewrite skip_run in Hscaled. injection Hscaled as <-. split; reflexivity. }
  destruct Hq1 as [_ Hq1].
  (* the normalized row *)
  apply bind_returns in Hrun' as ([] & q2 & Hnorm & Hrun').
  assert (R2 : reached q2
               /\ exists l2, listDict q2 !! key = Some l2
                    /\ relative_list_sec l2 = relative_list_sec l
                    /\ forall r, norm l = Some r ->
                         normalized_list_sec l2
                         = Some (match shared p r with
                                 | [] => []
                                 | c :: _ => map (fun i => i / c) value
                                 end)).
  { destruct R1 as (Ha1 & Hc1 & Hs1 & Ho1 & l1 & Hl1 & _).
    assert (El1 : l1 = l) by (rewrite Hq1, Hl in Hl1; now injection Hl1).
    subst l1.
    destruct (norm l) as [r |] eqn:En.
    - apply bind_returns in Hnorm as (sh & q & Hg & Hnorm).
      rewrite get_run in Hg. injection Hg as <- <-.
      rewrite Hs1 in Hnorm.
      destruct (shared p r) as [| c rest] eqn:Es.
      + rewrite modify_run in Hnorm. injection Hnorm as <-. split.
        * apply reached_on_entry; [intros x; repeat split |].
          repeat (split; [assumption |]). exists l. repeat split. exact Hl1.
        * eexists. attrs. rewrite lookup_alter_eq, Hl1. split; [reflexivity |].
          split; [reflexivity |]. intros r' [= <-]. rewrite Es. reflexivity.
      + apply bind_returns in Hnorm as (tl & q & Hlift & Hnorm).
        unfold lift in Hlift. injection Hlift as Hdiv <-.
        apply bind_returns in Hnorm as ([] & q & Hm & Hnorm).
        rewrite modify_run in Hm. injection Hm as <-.
        rewrite writerow_run in Hnorm. injection Hnorm as <-.
        assert (Htl : tl = map (fun i => i / c) value).
        { destruct (Req_dec_T c 0) as [-> | Hc].
          - destruct value as [| v vs]; [now injection Hdiv as <- |].
            rewrite divide_by_first_error in Hdiv.
            destruct (Req_dec_T 0 0); [discriminate | contradiction].
          - rewrite divide_by_first_ok in Hdiv by exact Hc. now injection Hdiv. }
        split.
        * apply reached_append_row, reached_on_entry; [intros x; repeat split |].
          repeat (split; [assumption |]). exists l. repeat split. exact Hl1.
        * eexists. attrs. rewrite lookup_alter_eq, Hl1. split; [reflexivity |].
          split; [reflexivity |]. intros r' [= <-]. rewrite Es. cbn. now rewrite Htl.
    - rewrite skip_run in Hnorm. injection Hnorm as <-. split.
      + repeat (split; [assumption |]). exists l. repeat split. exact Hl1.
      + exists l. split; [exact Hl1 |]. split; [reflexivity | discriminate]. }
  destruct R2 as (R2 & l2 & Hl2 & Hrs2 & Hn2).
  destruct R2 as (Ha2 & Hc2 & Hs2 & Ho2 & l2' & Hl2' & G1 & G2 & G3 & G4 & G5).
  rewrite Hl2 in Hl2'. injection Hl2' as <-.
  (* the relative row *)
  erewrite bind_run in Hrun' by (apply listDict_get_run; exact Hl2).
  split; [discriminate |].
  destruct (relative_list l2) as [rl |] eqn:Erl.
  - apply bind_returns in Hrun' as (c & q & Hg & Hrun').
    rewrite get_run in Hg. injection Hg as <- <-.
    apply bind_returns in Hrun' as (tl & q & Hlift & Hrun').
    unfold lift in Hlift. injection Hlift as Hmap <-.
    apply bind_returns in Hrun' as ([] & q & Hm & Hrun').
    rewrite modify_run in Hm. injection Hm as <-.
    rewrite writerow_run in Hrun'. injection Hrun' as <-.
    rewrite Hc2 in Hmap. destruct (mapO_returns _ _ _ Hmap) as [Hlen Hat].
    attrs. split; [exact Ha2 |]. split; [exact Hc2 |]. split; [exact Hs2 |].
    split.
    { intros key' Hk. rewrite lookup_alter_ne by now apply not_eq_sym. now apply Ho2. }
    eexists. rewrite lookup_alter_eq, Hl2. split; [reflexivity |].
    cbn [list_ slist relative_list normalized_list_sec relative_list_sec
         set_relative_list_sec].
    split; [exact G1 |]. split; [congruence |]. split; [congruence |].
    split.
    + intros value' r [= <-] Hr. now apply Hn2.
    + intros value' rl' [= <-] Hrl'. rewrite <- G3 in Hrl'. injection Hrl' as <-.
      exists tl. split; [reflexivity |]. split; [exact Hlen |].
      intros i sec Hsec. destruct (Hat i sec Hsec) as (y & Hy & Hrms).
      apply second_rms_returns in Hrms as (s & Hs & Hnz & ->). eauto.
  - rewrite skip_run in Hrun'. injection Hrun' as <-.
    split; [exact Ha2 |]. split; [exact Hc2 |]. split; [exact Hs2 |].
    split; [exact Ho2 |].
    exists l2. split; [exact Hl2 |]. split; [exact G1 |]. split; [congruence |].
    split; [congruence |]. split.
    + intros value' r [= <-] Hr. now apply Hn2.
    + intros value' rl' _ Hrl'. rewrite <- G3 in Hrl'. discriminate.
Qed.

End SecondsRows.

(** When [seconds_rows] returns it has changed the registry in the entry
    of its key only, and there only the derived lists.  For a series with
    a cycle list and a norm it stores the normalized cycle list, the cycle
    values divided by the first number of the norm list, or the empty list
    when the norm list is empty.  For a series with a cycle list and a
    relative list it stores one value for each recorded second: the root
    mean square of the relative list over the steps of that second.  A
    series without a cycle list is skipped. *)
Theorem seconds_rows_derived_lists (path key : string) (p p' : problem) (l : functional) :
  listDict p !! key = Some l ->
  GeneralProblem.seconds_rows path key p = (Ret tt, p') ->
  (slist l = None -> p' = p)
  /\ args p' = args p /\ clk p' = clk p /\ shared p' = shared p
  /\ (forall key', key' <> key -> listDict p' !! key' = listDict p !! key')
  /\ exists l',
       listDict p' !! key = Some l'
       /\ list_ l' = list_ l /\ slist l' = slist l /\ relative_list l' = relative_list l
       /\ (forall value r, slist l = Some value -> norm l = Some r ->
             normalized_list_sec l'
             = Some (match shared p r with
                     | [] => []
                     | c :: _ => map (fun i => i / c) value
                     end))
       /\ (forall value rl, slist l = Some value -> relative_list l = Some rl ->
             exists rs,
               relative_list_sec l' = Some rs
               /\ length rs = length (second_list (clk p))
               /\ forall i sec, second_list (clk p) !! i = Some sec ->
                    exists s, stepsInSecond (clk p) = Some s /\ s <> 0%Z
                      /\ rs !! i
                         = Some (sqrt (sum_sq (py_slice rl (Some ((sec - 1) * s)%Z)
                                                 (Some (sec * s)%Z)) / IZR s))).
Proof. intros Hl Hrun. exact (seconds_rows_entry path key p p' l Hl Hrun). Qed.

Lemma seconds_rows_derived_lists_witness :
  exists l p',
    listDict (Problem.init 0 quarter_steps) !! "p" = Some l
    /\ GeneralProblem.seconds_rows "seconds.csv" "p" (Problem.init 0 quarter_steps)
       = (Ret tt, p')
    /\ exists l', listDict p' !! "p" = Some l' /\ normalized_list_sec l' = Some [].
Proof.
  assert (Hl : listDict (Problem.init 0 quarter_steps) !! "p"
               = Some (entry "pressure L2(0) error" "PE" (Some scale_factor) None true
                         (Some p_normalization_factor))) by reflexivity.
  eexists. eexists. split; [exact Hl |].
  assert (E : GeneralProblem.seconds_rows "seconds.csv" "p" (Problem.init 0 quarter_steps)
              = (Ret tt,
                 on_entry "p" (set_normalized_list_sec [])
                   (append_row "seconds.csv" [Str "run"; Str "scaled pressure L2(0) error";
                                              Str "PEs"]
                      (append_row "seconds.csv" [Str "run"; Str "pressure L2(0) error";
                                                 Str "PE"]
                         (Problem.init 0 quarter_steps))))) by reflexivity.
  split; [exact E |].
  destruct (seconds_rows_derived_lists _ _ _ _ _ Hl E)
    as (_ & _ & _ & _ & _ & l' & Hl' & _ & _ & _ & Hn & _).
  exists l'. split; [exact Hl' |]. exact (Hn [] p_normalization_factor eq_refl eq_refl).
Defined.

(** ** problems/womersley_cylinder.py: [compute_force] *)

Lemma appended_to_list_here (p q : problem) (key : string) (x : R) :
  is_Some (listDict p !! key) -> listDict q !! key = listDict p !! key ->
  appended_to p (append_to_list key x q) key x None.
Proof.
  intros [l Hl] Hq. exists l, (set_list (list_ l ++ [x]) l).
  split; [exact Hl |]. split; [| split; reflexivity].
  apply lookup_append_to_list. now rewrite Hq.
Qed.

Lemma appended_to_ext (p q q' : problem) (key : string) (x : R) (c : option R) :
  listDict q' !! key = listDict q !! key -> appended_to p q key x c -> appended_to p q' key x c.
Proof.
  intros Hq (l & l' & H1 & H2 & H3 & H4). exists l, l'. rewrite Hq. auto.
Qed.

Section Force.
Variables (wf : wall_forces) (sp sol velocity pressure : array) (t : R) (p : problem).
Variables (s : Z) (sl : list R) (l4 : functional).
Hypothesis Hsol : solution (ec p) = Some sol.
Hypothesis H1 : 0 <= error_force_sq wf pressure velocity sp sol.
Hypothesis H2 : 0 <= an_force_sq wf sp sol.
Hypothesis H3 : 0 <= an_f_normal_sq wf sp sol.
Hypothesis H4 : 0 <= error_f_normal_sq wf pressure velocity sp sol.
Hypothesis H5 : 0 <= an_f_shear_sq wf sp sol.
Hypothesis H6 : 0 <= error_f_shear_sq wf pressure velocity sp sol.
Hypothesis K1 : is_Some (listDict p !! "a_force_wall").
Hypothesis K2 : is_Some (listDict p !! "a_force_wall_normal").
Hypothesis K3 : is_Some (listDict p !! "a_force_wall_shear").
Hypothesis K4 : listDict p !! "force_wall" = Some l4.
Hypothesis K5 : is_Some (listDict p !! "force_wall_normal").
Hypothesis K6 : is_Some (listDict p !! "force_wall_shear").
Hypothesis Hwhole : truthy (isWholeSecond (clk p)) = true ->
  stepsInSecond (clk p) = Some s /\ (0 < s)%Z /\ slist l4 = Some sl.

Local Abbreviation error_force := (sqrt (error_force_sq wf pressure velocity sp sol)).
Local Abbreviation an_force := (sqrt (an_force_sq wf sp sol)).
Local Abbreviation an_f_normal := (sqrt (an_f_normal_sq wf sp sol)).
Local Abbreviation error_f_normal := (sqrt (error_f_normal_sq wf pressure velocity sp sol)).
Local Abbreviation an_f_shear := (sqrt (an_f_shear_sq wf sp sol)).
Local Abbreviation error_f_shear := (sqrt (error_f_shear_sq wf pressure velocity sp sol)).

(** The object after the six values are appended. *)
Local Abbreviation p6 :=
  (append_to_list "force_wall_shear" error_f_shear
     (append_to_list "force_wall_normal" error_f_normal
        (append_to_list "force_wall" error_force
           (append_to_list "a_force_wall_shear" an_f_shear
              (append_to_list "a_force_wall_normal" an_f_normal
                 (append_to_list "a_force_wall" an_force p)))))).

Local Abbreviation cycle :=
  (sqrt (sum_sq (py_slice (list_ l4 ++ [error_force]) (N0 (clk p)) (N1 (clk p))) / IZR s)).

Local Abbreviation final :=
  (if truthy (isWholeSecond (clk p)) then append_to_slist "force_wall" cycle p6 else p6).

Lemma force_wall_in_p6 :
  listDict p6 !! "force_wall" = Some (set_list (list_ l4 ++ [error_force]) l4).
Proof.
  rewrite !lookup_append_to_list_ne by discriminate.
  apply lookup_append_to_list.
  rewrite !lookup_append_to_list_ne by discriminate. exact K4.
Qed.

Lemma compute_force_run :
  Problem.compute_force wf (Some sp) velocity pressure t p
  = (if Req_dec_T an_force 0 then Raise ZeroDivisionError else Ret tt, final).
Proof.
  destruct K1 as [l1 E1], K2 as [l2 E2], K3 as [l3 E3], K5 as [l5 E5], K6 as [l6 E6].
  unfold Problem.compute_force. run. rewrite Hsol, !unwrap_Some. do 2 run_lift.
  rewrite !py_sqrt_ok by assumption. do 6 run_lift.
  run_with ltac:(apply listDict_get_run; exact E1). run.
  run_with ltac:(apply listDict_get_run;
                 rewrite !lookup_append_to_list_ne by discriminate; exact E2). run.
  run_with ltac:(apply listDict_get_run;
                 rewrite !lookup_append_to_list_ne by discriminate; exact E3). run.
  run_with ltac:(apply listDict_get_run;
                 rewrite !lookup_append_to_list_ne by discriminate; exact K4). run.
  run_with ltac:(apply listDict_get_run;
                 rewrite !lookup_append_to_list_ne by discriminate; exact E5). run.
  run_with ltac:(apply listDict_get_run;
                 rewrite !lookup_append_to_list_ne by discriminate; exact E6). run.
  run. change (clk p6) with (clk p).
  assert (Hlast : forall q : problem,
    (lift (py_div error_force an_force) ≫= (fun _ => skip)) q
    = (if Req_dec_T an_force 0 then Raise ZeroDivisionError else Ret tt, q)).
  { intros q. unfold py_div. destruct (Req_dec_T an_force 0).
    - erewrite bind_raise by apply lift_run. reflexivity.
    - run_lift. apply skip_run. }
  destruct (truthy (isWholeSecond (clk p))) eqn:Ew.
  - destruct (Hwhole eq_refl) as (Hs & Hpos & Hsl).
    run_with ltac:(
      run_with ltac:(eapply slist_get_run; [exact force_wall_in_p6 | exact Hsl]);
      run_with ltac:(apply listDict_get_run; exact force_wall_in_p6);
      run_with ltac:(apply (rms_window_run _ _ s); [exact Hs | exact Hpos]);
      apply slist_append_run).
    apply Hlast.
  - run. apply Hlast.
Qed.

Lemma compute_force_final :
  args final = args p /\ clk final = clk p /\ ec final = ec p /\ files final = files p
  /\ appended_to p final "a_force_wall" an_force None
  /\ appended_to p final "a_force_wall_normal" an_f_normal None
  /\ appended_to p final "a_force_wall_shear" an_f_shear None
  /\ appended_to p final "force_wall" error_force
       (if truthy (isWholeSecond (clk p)) then Some cycle else None)
  /\ appended_to p final "force_wall_normal" error_f_normal None
  /\ appended_to p final "force_wall_shear" error_f_shear None
  /\ forall key,
       ~ In key ["a_force_wall"; "a_force_wall_normal"; "a_force_wall_shear";
                 "force_wall"; "force_wall_normal"; "force_wall_shear"] ->
       listDict final !! key = listDict p !! key.
Proof.
  assert (Hp6 : forall key x q,
    is_Some (listDict p !! key) -> listDict q !! key = listDict p !! key ->
    listDict p6 !! key = listDict (append_to_list key x q) !! key ->
    (key <> "force_wall") ->
    appended_to p final key x None).
  { intros key x q Hk Hq Hlook Hne.
    apply (appended_to_ext p (append_to_list key x q)).
    - destruct (truthy (isWholeSecond (clk p))); [| exact Hlook].
      rewrite lookup_append_to_slist_ne by now apply not_eq_sym. exact Hlook.
    - now apply appended_to_list_here. }
  split; [now destruct (truthy _) |]. split; [now destruct (truthy _) |].
  split; [now destruct (truthy _) |]. split; [now destruct (truthy _) |].
  split.
  { eapply (Hp6 _ _ p); [exact K1 | reflexivity | | discriminate].
    now rewrite !(lookup_append_to_list_ne _ "a_force_wall") by discriminate. }
  split.
  { eapply (Hp6 _ _ (append_to_list "a_force_wall" an_force p));
      [exact K2 | now rewrite lookup_append_to_list_ne by discriminate | | discriminate].
    now rewrite !(lookup_append_to_list_ne _ "a_force_wall_normal") by discriminate. }
  split.
  { eapply (Hp6 _ _ (append_to_list "a_force_wall_normal" an_f_normal
                       (append_to_list "a_force_wall" an_force p)));
      [exact K3 | now rewrite !lookup_append_to_list_ne by discriminate | | discriminate].
    now rewrite !(lookup_append_to_list_ne _ "a_force_wall_shear") by discriminate. }
  split.
  { exists l4. destruct (truthy (isWholeSecond (clk p))) eqn:Ew.
    - destruct (Hwhole eq_refl) as (_ & _ & Hsl).
      eexists. split; [exact K4 |]. split.
      + eapply lookup_append_to_slist; [exact force_wall_in_p6 | exact Hsl].
      + cbn [list_ slist set_list set_slist]. now rewrite Hsl.
    - eexists. split; [exact K4 |]. split; [exact force_wall_in_p6 |]. split; reflexivity. }
  split.
  { eapply (Hp6 _ _ (append_to_list "force_wall" error_force
                       (append_to_list "a_force_wall_shear" an_f_shear
                          (append_to_list "a_force_wall_normal" an_f_normal
                             (append_to_list "a_force_wall" an_force p)))));
      [exact K5 | now rewrite !lookup_append_to_list_ne by discriminate | | discriminate].
    now rewrite !(lookup_append_to_list_ne _ "force_wall_normal") by discriminate. }
  split.
  { eapply (Hp6 _ _ (append_to_list "force_wall_normal" error_f_normal
                       (append_to_list "force_wall" error_force
                          (append_to_list "a_force_wall_shear" an_f_shear
                             (append_to_list "a_force_wall_normal" an_f_normal
                                (append_to_list "a_force_wall" an_force p))))));
      [exact K6 | now rewrite !lookup_append_to_list_ne by discriminate | reflexivity
      | discriminate]. }
  intros key Hkey.
  assert (Hne : forall k, In k ["a_force_wall"; "a_force_wall_normal"; "a_force_wall_shear";
                                "force_wall"; "force_wall_normal"; "force_wall_shear"] ->
                          k <> key).
  { intros k Hk ->. contradiction. }
  assert (E : listDict p6 !! key = listDict p !! key).
  { rewrite !lookup_append_to_list_ne; [reflexivity | ..]; apply Hne; cbn; tauto. }
  destruct (truthy (isWholeSecond (clk p))); [| exact E].
  rewrite lookup_append_to_slist_ne; [exact E |]. apply Hne. cbn. tauto.
Qed.

End Force.

(** [compute_force] on a problem whose analytic pressure and velocity are
    set appends the six wall forces, the square roots of the six
    integrals, to their six series, and at a whole second the root mean
    square of the window to the cycle list of the force error alone: the
    cycle lists of the normal and of the shear force error, though
    registered, are never written.  Nothing else changes.  The call
    returns unless the analytic force is zero; then the final division
    raises [ZeroDivisionError], after all values are recorded. *)
Theorem compute_force_records (wf : wall_forces) (sp sol velocity pressure : array) (t : R)
    (p : problem) (s : Z) (sl : list R) (l4 : functional) :
  solution (ec p) = Some sol ->
  0 <= error_force_sq wf pressure velocity sp sol -> 0 <= an_force_sq wf sp sol ->
  0 <= an_f_normal_sq wf sp sol -> 0 <= error_f_normal_sq wf pressure velocity sp sol ->
  0 <= an_f_shear_sq wf sp sol -> 0 <= error_f_shear_sq wf pressure velocity sp sol ->
  is_Some (listDict p !! "a_force_wall") -> is_Some (listDict p !! "a_force_wall_normal") ->
  is_Some (listDict p !! "a_force_wall_shear") -> listDict p !! "force_wall" = Some l4 ->
  is_Some (listDict p !! "force_wall_normal") -> is_Some (listDict p !! "force_wall_shear") ->
  (truthy (isWholeSecond (clk p)) = true ->
   stepsInSecond (clk p) = Some s /\ (0 < s)%Z /\ slist l4 = Some sl) ->
  exists p',
    Problem.compute_force wf (Some sp) velocity pressure t p
    = (if Req_dec_T (sqrt (an_force_sq wf sp sol)) 0 then Raise ZeroDivisionError else Ret tt,
       p')
    /\ args p' = args p /\ clk p' = clk p /\ ec p' = ec p /\ files p' = files p
    /\ appended_to p p' "a_force_wall" (sqrt (an_force_sq wf sp sol)) None
    /\ appended_to p p' "a_force_wall_normal" (sqrt (an_f_normal_sq wf sp sol)) None
    /\ appended_to p p' "a_force_wall_shear" (sqrt (an_f_shear_sq wf sp sol)) None
    /\ appended_to p p' "force_wall" (sqrt (error_force_sq wf pressure velocity sp sol))
         (if truthy (isWholeSecond (clk p))
          then Some (sqrt (sum_sq (py_slice
                                     (list_ l4
                                      ++ [sqrt (error_force_sq wf pressure velocity sp sol)])
                                     (N0 (clk p)) (N1 (clk p))) / IZR s))
          else None)
    /\ appended_to p p' "force_wall_normal"
         (sqrt (error_f_normal_sq wf pressure velocity sp sol)) None
    /\ appended_to p p' "force_wall_shear"
         (sqrt (error_f_shear_sq wf pressure velocity sp sol)) None
    /\ forall key,
         ~ In key ["a_force_wall"; "a_force_wall_normal"; "a_force_wall_shear";
                   "force_wall"; "force_wall_normal"; "force_wall_shear"] ->
         listDict p' !! key = listDict p !! key.
Proof.
  intros Hsol H1 H2 H3 H4 H5 H6 K1 K2 K3 K4 K5 K6 Hwhole.
  eexists. split.
  - apply (compute_force_run wf sp sol velocity pressure t p s sl l4); assumption.
  - apply (compute_force_final wf sp sol velocity pressure p s sl l4); assumption.
Qed.

Lemma compute_force_records_witness :
  let wf := {| error_force_sq := fun _ _ _ _ => 4; an_force_sq := fun _ _ => 1;
               an_f_normal_sq := fun _ _ => 1; error_f_normal_sq := fun _ _ _ _ => 0;
               an_f_shear_sq := fun _ _ => 0; error_f_shear_sq := fun _ _ _ _ => 4 |} in
  let p := on_ec (Problem.set_analytic [0; 0; 1] 1 1 1) (Problem.init 0 quarter_steps) in
  solution (ec p) = Some [0; 0; 1]
  /\ exists p',
       Problem.compute_force wf (Some [0]) [0; 0; 3] [5] 0.25 p = (Ret tt, p')
       /\ appended_to p p' "force_wall" (sqrt 4) None
       /\ appended_to p p' "force_wall_shear" (sqrt 4) None.
Proof.
  cbv zeta.
  set (wf := {| error_force_sq := fun _ _ _ _ => 4; an_force_sq := fun _ _ => 1;
                an_f_normal_sq := fun _ _ => 1; error_f_normal_sq := fun _ _ _ _ => 0;
                an_f_shear_sq := fun _ _ => 0; error_f_shear_sq := fun _ _ _ _ => 4 |}).
  set (p := on_ec _ _).
  split; [reflexivity |].
  destruct (compute_force_records wf [0] [0; 0; 1] [0; 0; 3] [5] 0.25 p 0 []
              (entry "force error on wall" "FE" None (Some "a_force_wall") true None))
    as (p' & E & _ & _ & _ & _ & _ & _ & _ & Hfw & _ & Hfs & _);
    try reflexivity; try (cbn; lra); try (eexists; reflexivity); try discriminate.
  exists p'. split; [| split; [exact Hfw | exact Hfs]].
  rewrite E. f_equal. change (an_force_sq wf [0] [0; 0; 1]) with 1.
  destruct (Req_dec_T (sqrt 1) 0) as [H | _]; [| reflexivity].
  rewrite sqrt_1 in H. lra.
Defined.

(** ** problems/womersley_cylinder.py: from [__init__] to the first step *)

(** A fresh Womersley problem whose time step is not zero, initialised on
    a space whose axial dofs are distinct and in range, with a store that
    holds the parabolic part and the eight real and eight imaginary parts
    at one value per axial dof: [initialize] returns and leaves the
    problem ready for [update_time].  The steps in a second are counted,
    the partial solution is loaded, the analytic solution is set, the
    scale list holds the velocity factor and each of the three
    normalisation lists holds its one average. *)
Theorem initialize_makes_ready (fe : dolfin) (rank : nat) (a : arguments) (V : space)
    (store : gmap string array) (avg_pg avg_p avg_vel : R)
    (parab : array) (re im : nat -> array) :
  meta_dt a <> 0 ->
  (arg_save a <> noSave -> arg_savespace a <> 0%Z) ->
  (forall sol, 0 <= assemble_wall_sq fe sol) ->
  NoDup (sub2_dofs V) -> (forall n, In n (sub2_dofs V) -> (n < dim V)%nat) ->
  store !! "parab" = Some parab ->
  (forall i, (i < 8)%nat -> store !! Problem.numbered "real" i = Some (re i)) ->
  (forall i, (i < 8)%nat -> store !! Problem.numbered "imag" i = Some (im i)) ->
  length parab = length (sub2_dofs V) ->
  (forall i, (i < 8)%nat -> length (re i) = length (sub2_dofs V)) ->
  (forall i, (i < 8)%nat -> length (im i) = length (sub2_dofs V)) ->
  exists p',
    Problem.initialize V store avg_pg avg_p avg_vel (Problem.init rank a) = (Ret tt, p')
    /\ step_ready fe p' (py_round (1 / meta_dt a))
    /\ is_Some (solution (ec p'))
    /\ shared p' scale_factor = [arg_factor a]
    /\ shared p' pg_normalization_factor = [avg_pg]
    /\ shared p' p_normalization_factor = [avg_p]
    /\ shared p' vel_normalization_factor = [avg_vel]
    /\ listDict p' = listDict (Problem.init rank a).
Proof.
  intros Hdt Hsave Hwall Hnodup Hdofs Hparab Hre Him Lparab Lre Lim.
  destruct (problem_initialize_run V store avg_pg avg_p avg_vel (Problem.init rank a)
              parab re im)
    as (p' & sol & E & Ha & Hl & Hf & Hb & Hc & He & S1 & S2 & S3 & S4);
    try assumption; try reflexivity.
  exists p'. split; [exact E |]. split.
  { unfold step_ready. rewrite Ha, Hb, Hc, Hl. split.
    - cbn. destruct (arg_save a) eqn:Es; intros Ht; try discriminate Ht;
        apply Hsave; rewrite ?Es; discriminate.
    - split; [reflexivity |].
      split; [apply (basis_loaded_loaded V parab re im); assumption |].
      split; [exact Hwall |]. repeat split; eexists; reflexivity. }
  split; [rewrite He; eexists; reflexivity |].
  rewrite S1, S2, S3, S4, Hl. repeat split.
Qed.

Lemma initialize_makes_ready_witness :
  meta_dt quarter_steps <> 0
  /\ exists p',
       Problem.initialize one_node steady_store 1 1 1 (Problem.init 0 quarter_steps)
       = (Ret tt, p')
       /\ step_ready probe p' (py_round (1 / meta_dt quarter_steps))
       /\ shared p' vel_normalization_factor = [1].
Proof.
  assert (Hdt : meta_dt quarter_steps <> 0) by (cbn; lra).
  split; [exact Hdt |].
  destruct (initialize_makes_ready probe 0 quarter_steps one_node steady_store 1 1 1
              [1] (fun _ => [0]) (fun _ => [0]) Hdt)
    as (p' & E & Hready & _ & _ & _ & _ & Hv & _).
  - intros H. now destruct H.
  - intros sol. apply (Rle_0_sqr (coef sol 2)).
  - apply NoDup_singleton.
  - cbn. intros n [<- | []]. lia.
  - reflexivity.
  - apply steady_store_real.
  - apply steady_store_imag.
  - reflexivity.
  - reflexivity.
  - reflexivity.
  - exists p'. split; [exact E |]. split; [exact Hready | exact Hv].
Defined.
